(** * ReportVerse: issue threads, assignment, login, health check,
      client cache and notification poller

    A shallow embedding of the Express controllers
    ([controllers/menteeController.js], [controllers/mentorController.js],
    [controllers/authController.js], [routes/health.js]) and of the two
    client pieces ([hooks/useAPIService.ts],
    [mentor/issues/components/IssueNotifications.tsx]).

    Conventions of the embedding.
    - A Mongoose collection is the list of its documents in natural order;
      [findById]/[findOne] return the first match, [find] every match.
    - A handler [async (req, res) => ...] becomes a function from the
      database, the caller ([req.user._id]), the URL parameters, the body
      and the values it reads from the environment (the clock, a fresh
      [_id]) to the response it sends and the database it leaves.
    - A request body is a JSON object whose fields are strings, as the
      client in [services/api.ts] sends them; a missing field is
      [undefined].  The bodies of a login and of an update of the
      academic record are JSON objects with values of any kind.
    - Library calls ([String.prototype.toLowerCase] and [trim] behind the
      schema setters, [validator.isEmail], bcrypt, [jwt.verify],
      [new Date(string)], [Number(string)], the [ObjectId] cast and the
      casts of the array paths of a schema) are parameters of the
      definitions that make them.
    - The driver is taken to answer: a handler reaches its [catch] only
      through an error its own code or a library call on its input
      raises.  Identifiers are strings. *)

From Stdlib Require Import List String Ascii ZArith SpecFloat Bool Lia
  Permutation Sorted.
Import ListNotations.

Local Open Scope string_scope.
Local Open Scope Z_scope.

(** ** JavaScript values used by the server *)

Module Js.

(** [!x] on a value that is [undefined] or a string. *)
Definition falsy (x : option string) : bool :=
  match x with
  | None => true
  | Some s => String.eqb s ""
  end.

Definition truthy (x : option string) : bool := negb (falsy x).

(** [xs.includes(x)] on an array of strings. *)
Definition includes (xs : list string) (x : string) : bool :=
  existsb (String.eqb x) xs.

(** A JSON object with string-valued fields, as the list of its
    bindings; keys are meant to be distinct, and [get] reads the first
    binding of a key. *)
Definition object := list (string * string).

Fixpoint get (o : object) (k : string) : option string :=
  match o with
  | [] => None
  | (k', v) :: o' => if String.eqb k k' then Some v else get o' k
  end.

(** [a || b] where [a] may be undefined or empty. *)
Definition or_else (a : option string) (b : string) : string :=
  match a with
  | Some s => if String.eqb s "" then b else s
  | None => b
  end.

(** A JSON value as [express.json()] hands it to a handler: a number is
    the double it was parsed to, an array or an object is kept as its
    JSON text. *)
Inductive value :=
| Null
| Boolean (b : bool)
| Number (n : spec_float)
| Str (s : string)
| Compound (json : string).

(** A JSON object with values of any kind; [field] reads the first
    binding of a key, [None] is [undefined]. *)
Definition json := list (string * value).

Fixpoint field (o : json) (k : string) : option value :=
  match o with
  | [] => None
  | (k', v) :: o' => if String.eqb k k' then Some v else field o' k
  end.

(** [typeof v] *)
Definition typeof (v : value) : string :=
  match v with
  | Null => "object"
  | Boolean _ => "boolean"
  | Number _ => "number"
  | Str _ => "string"
  | Compound _ => "object"
  end.

(** [!v]: [undefined], [null], [false], [0], [NaN] and [""] are falsy. *)
Definition falsy_value (v : option value) : bool :=
  match v with
  | None => true
  | Some Null => true
  | Some (Boolean b) => negb b
  | Some (Number (S754_zero _)) => true
  | Some (Number S754_nan) => true
  | Some (Number _) => false
  | Some (Str s) => String.eqb s ""
  | Some (Compound _) => false
  end.

End Js.

(** ** Documents ([models/User.js], [models/Issue.js],
       [models/Achievement.js]) *)

Definition ObjectId := string.
Definition Date := Z.   (* milliseconds since the epoch, as [Date.now()] *)

Module Models.

Record User := mkUser {
  u_id : ObjectId;
  email : string;
  password : string;            (* the bcrypt hash *)
  name : string;
  phone : string;
  role : string;                (* enum: mentor, mentee *)
  mentees : list ObjectId;      (* default [] *)
  assignedMentor : option ObjectId;
  profileCompleted : bool
}.

Record Comment := mkComment {
  c_user : ObjectId;
  c_text : string;
  c_createdAt : Date            (* default Date.now *)
}.

Record Issue := mkIssue {
  i_id : ObjectId;
  i_mentee : ObjectId;
  i_mentor : ObjectId;
  issueType : string;
  i_description : string;
  status : string;              (* default 'Open' *)
  comments : list Comment;
  i_createdAt : Date;
  i_updatedAt : Date
}.

Record Achievement := mkAchievement {
  a_id : ObjectId;
  a_mentee : ObjectId;
  a_mentor : ObjectId;
  a_type : string;
  position : string;            (* default 'N/A' *)
  a_description : string;
  dateOfAchievement : option Date;  (* default Date.now; None is null *)
  isCompleted : bool            (* default true *)
}.

Definition issueType_enum : list string :=
  ["Academic"; "Grievances"; "Ragging"; "Harassment"; "Accommodation"; "Other"].

Definition status_enum : list string :=
  ["Open"; "Under Review"; "Resolved"; "Closed"].

Definition achievementType_enum : list string :=
  ["Sports"; "Competitive Exam"; "Internship"; "Research Publication";
   "Award"; "Cultural Event"; "Technical Event"; "Hackathon"; "Other"].

Definition position_enum : list string :=
  ["1st"; "2nd"; "3rd"; "Participation"; "Winner"; "Runner-up";
   "Completed"; "Published"; "N/A"].

(** The three collections the controllers touch. *)
Record DB := mkDB {
  users : list User;
  issues : list Issue;
  achievements : list Achievement
}.

(** [User.findById(id)] *)
Definition User_findById (db : DB) (id : ObjectId) : option User :=
  find (fun u => String.eqb (u_id u) id) (users db).

Section Setters.

(** [String.prototype.toLowerCase] and [trim], behind the setters
    [lowercase: true] and [trim: true] of the [email] path.  Mongoose
    runs the setters of a path last declared first, on a value that is
    stored and on the value of a query filter alike. *)
Variable lowercase : string -> string.
Variable trim : string -> string.

Definition email_setters (e : string) : string := lowercase (trim e).

(** [User.findOne({ email })] *)
Definition User_findOne_email (db : DB) (e : string) : option User :=
  find (fun u => String.eqb (email u) (email_setters e)) (users db).

(** [User.findOne({ email, role })] *)
Definition User_findOne_email_role (db : DB) (e r : string) : option User :=
  find (fun u => String.eqb (email u) (email_setters e)
                 && String.eqb (role u) r) (users db).

End Setters.

(** [Issue.findById(id)] *)
Definition Issue_findById (db : DB) (id : ObjectId) : option Issue :=
  find (fun i => String.eqb (i_id i) id) (issues db).

(** [doc.save()] of a loaded document: the first stored document with
    that [_id] is replaced. *)
Fixpoint replace_issue (doc : Issue) (l : list Issue) : list Issue :=
  match l with
  | [] => []
  | i :: l' =>
      if String.eqb (i_id i) (i_id doc) then doc :: l'
      else i :: replace_issue doc l'
  end.

Fixpoint replace_user (doc : User) (l : list User) : list User :=
  match l with
  | [] => []
  | u :: l' =>
      if String.eqb (u_id u) (u_id doc) then doc :: l'
      else u :: replace_user doc l'
  end.

Definition Issue_save (db : DB) (doc : Issue) : DB :=
  mkDB (users db) (replace_issue doc (issues db)) (achievements db).

Definition User_save (db : DB) (doc : User) : DB :=
  mkDB (replace_user doc (users db)) (issues db) (achievements db).

(** [.sort('-createdAt')]: newest first.  Insertion keeps the relative
    order of documents with equal timestamps. *)
Fixpoint insert_desc (x : Issue) (l : list Issue) : list Issue :=
  match l with
  | [] => [x]
  | y :: l' =>
      if i_createdAt y <? i_createdAt x then x :: y :: l'
      else y :: insert_desc x l'
  end.

Definition sort_createdAt_desc (l : list Issue) : list Issue :=
  fold_right insert_desc [] l.

(** [Issue.find({ mentee: id })] and [Issue.find({ mentor: id })] *)
Definition Issue_find_mentee (db : DB) (id : ObjectId) : list Issue :=
  filter (fun i => String.eqb (i_mentee i) id) (issues db).

Definition Issue_find_mentor (db : DB) (id : ObjectId) : list Issue :=
  filter (fun i => String.eqb (i_mentor i) id) (issues db).

(** [.populate({ path: 'mentee', select: 'email' })]: the [mentee]
    reference is shown as [{_id, email}], or as [null] when no such user
    is stored; the other fields are those of the stored issue. *)
Record PopulatedIssue := mkPop {
  p_issue : Issue;
  p_mentee : option (ObjectId * string)
}.

Definition populate_mentee (db : DB) (i : Issue) : PopulatedIssue :=
  mkPop i (match User_findById db (i_mentee i) with
           | Some u => Some (u_id u, email u)
           | None => None
           end).

End Models.

Import Models.

(** ** HTTP responses: [res.status(n).json({success, ...})] *)

Inductive Payload :=
| Error (error : string)
| IssueData (data : Issue)
| CommentData (data : Comment)
| IssueList (count : nat) (data : list Issue)
| PopulatedIssueList (count : nat) (data : list PopulatedIssue)
| AchievementData (data : Achievement)
| LoginData (token : string) (id : ObjectId) (email role : string)
            (profileCompleted : bool).

Record Response := mkResponse {
  statusCode : nat;
  success : bool;
  payload : Payload
}.

Definition fail (code : nat) (msg : string) : Response :=
  mkResponse code false (Error msg).

Definition ok (code : nat) (p : Payload) : Response :=
  mkResponse code true p.

(** Mongoose schema validation run by [Model.create]: a required string
    path rejects [undefined] and the empty string, an enum path rejects a
    value outside the list.  The message is that of the thrown
    [ValidationError], which the handlers' [catch] sends with status 500. *)
Definition required_in (enum : list string) (v : option string) : bool :=
  match v with
  | Some s => negb (String.eqb s "") && Js.includes enum s
  | None => false
  end.

Definition optional_in (enum : list string) (v : option string) : bool :=
  match v with
  | Some s => Js.includes enum s
  | None => true
  end.

Definition opt_default (v : option string) (d : string) : string :=
  match v with Some s => s | None => d end.

(** Mongoose's cast of a string to a [Boolean] path. *)
Definition castBoolean (s : string) : option bool :=
  if Js.includes ["true"; "1"; "yes"] s then Some true
  else if Js.includes ["false"; "0"; "no"] s then Some false
  else None.

(** ** [controllers/menteeController.js] *)

Module MenteeController.

(** [exports.createIssue]: [newId] is the [_id] the driver generates,
    [now] the clock read for the timestamps.  Of the paths that
    [...req.body] can set, [issueType], [description], [status], [mentee]
    and [mentor] are read; a body that sets [_id], [comments],
    [createdAt] or [updatedAt] is outside this definition. *)
Definition createIssue (db : DB) (caller : ObjectId) (body : Js.object)
           (newId : ObjectId) (now : Date) : Response * DB :=
  match User_findById db caller with
  | None => (fail 404 "Mentee not found", db)
  | Some mentee =>
      match assignedMentor mentee with
      | None => (fail 400 "No assigned mentor found", db)
      | Some mentorId =>
          (* { mentee: req.user._id, mentor: mentee.assignedMentor, ...req.body } *)
          if required_in issueType_enum (Js.get body "issueType")
             && Js.truthy (Js.get body "description")
             && optional_in status_enum (Js.get body "status")
          then
            let issue :=
              mkIssue newId
                      (opt_default (Js.get body "mentee") caller)
                      (opt_default (Js.get body "mentor") mentorId)
                      (opt_default (Js.get body "issueType") "")
                      (opt_default (Js.get body "description") "")
                      (opt_default (Js.get body "status") "Open")
                      [] now now in
            (ok 201 (IssueData issue),
             mkDB (users db) (issues db ++ [issue]) (achievements db))
          else (fail 500 "Issue validation failed", db)
      end
  end.

(** [exports.getIssues] *)
Definition getIssues (db : DB) (caller : ObjectId) : Response :=
  let issues := sort_createdAt_desc (Issue_find_mentee db caller) in
  ok 200 (IssueList (List.length issues) issues).

Section Achievements.

(** Mongoose's cast of a string to a [Date] path: [new Date(s)], the
    empty string giving [null]; the outer [None] is a cast error. *)
Variable castDate : string -> option (option Date).

(** [exports.createAchievement].  Of the paths that [...req.body] can
    set, all but [_id], [createdAt] and [updatedAt] are read. *)
Definition createAchievement (db : DB) (caller : ObjectId) (body : Js.object)
           (newId : ObjectId) (now : Date) : Response * DB :=
  match User_findById db caller with
  | None => (fail 404 "Mentee not found", db)
  | Some mentee =>
      match assignedMentor mentee with
      | None => (fail 400 "No assigned mentor found", db)
      | Some mentorId =>
          match User_findById db mentorId with
          | None => (fail 404 "Assigned mentor not found", db)
          | Some _ =>
              let date :=
                match Js.get body "dateOfAchievement" with
                | Some s => castDate s
                | None => Some (Some now)
                end in
              let completed :=
                match Js.get body "isCompleted" with
                | Some s => castBoolean s
                | None => Some true
                end in
              match date, completed with
              | Some dateOfAchievement, Some isCompleted =>
                  if required_in achievementType_enum (Js.get body "type")
                     && Js.truthy (Js.get body "description")
                     && optional_in position_enum (Js.get body "position")
                  then
                    let achievement :=
                      mkAchievement newId
                          (opt_default (Js.get body "mentee") (u_id mentee))
                          (opt_default (Js.get body "mentor") mentorId)
                          (opt_default (Js.get body "type") "")
                          (opt_default (Js.get body "position") "N/A")
                          (opt_default (Js.get body "description") "")
                          dateOfAchievement isCompleted in
                    (ok 201 (AchievementData achievement),
                     mkDB (users db) (issues db)
                          (achievements db ++ [achievement]))
                  else (fail 500 "Achievement validation failed", db)
              | _, _ => (fail 500 "Achievement validation failed", db)
              end
          end
      end
  end.

End Achievements.

(** [exports.addComment]: only [text] is read from the body. *)
Definition addComment (db : DB) (caller : ObjectId) (issueId : ObjectId)
           (body : Js.object) (now : Date) : Response * DB :=
  match Js.get body "text" with
  | None => (fail 400 "Comment text is required", db)
  | Some text =>
      if String.eqb text "" then (fail 400 "Comment text is required", db)
      else
        match Issue_findById db issueId with
        | None => (fail 404 "Issue not found", db)
        | Some issue =>
            if negb (String.eqb (i_mentee issue) caller)
            then (fail 403 "Not authorized to access this issue", db)
            else
              let comment := mkComment caller text now in
              let issue' :=
                mkIssue (i_id issue) (i_mentee issue) (i_mentor issue)
                        (issueType issue) (i_description issue)
                        (status issue)
                        (comments issue ++ [comment])
                        (i_createdAt issue) now in
              (* issue.comments[issue.comments.length - 1] *)
              let newComment := last (comments issue') comment in
              (ok 200 (CommentData newComment), Issue_save db issue')
        end
  end.

End MenteeController.

(** ** [controllers/mentorController.js] *)

Module MentorController.

(** [exports.getIssues] *)
Definition getIssues (db : DB) (caller : ObjectId) : Response :=
  match User_findById db caller with
  | None => fail 404 "Mentor not found"
  | Some _ =>
      let issues :=
        map (populate_mentee db)
            (sort_createdAt_desc (Issue_find_mentor db caller)) in
      ok 200 (PopulatedIssueList (List.length issues) issues)
  end.

(** [exports.addComment]: [text] and [status] are read from the body. *)
Definition addComment (db : DB) (caller : ObjectId) (issueId : ObjectId)
           (body : Js.object) (now : Date) : Response * DB :=
  match Js.get body "text" with
  | None => (fail 400 "Comment text is required", db)
  | Some text =>
      if String.eqb text "" then (fail 400 "Comment text is required", db)
      else
        match Issue_findById db issueId with
        | None => (fail 404 "Issue not found", db)
        | Some issue =>
            if negb (String.eqb (i_mentor issue) caller)
            then (fail 403 "Not authorized to comment on this issue", db)
            else
              let comment := mkComment caller text now in
              (* if (req.body.status && [...].includes(req.body.status)) *)
              let status' :=
                if Js.truthy (Js.get body "status")
                   && Js.includes status_enum
                                  (opt_default (Js.get body "status") "")
                then opt_default (Js.get body "status") ""
                else status issue in
              let issue' :=
                mkIssue (i_id issue) (i_mentee issue) (i_mentor issue)
                        (issueType issue) (i_description issue)
                        status'
                        (comments issue ++ [comment])
                        (i_createdAt issue) now in
              (ok 200 (IssueData issue'), Issue_save db issue')
        end
  end.

Section Assign.

Variable lowercase : string -> string.
Variable trim : string -> string.

(** [exports.assignMentee].  The source text ends after the two saves:
    the answer is [None] where the handler has made them, the response
    it then sends not being in the source.  The route is behind
    [isMentor], so the mentor loaded by id and the mentee found by email
    and role are two documents and the two saves do not overlap. *)
Definition assignMentee (db : DB) (caller : ObjectId) (body : Js.object)
  : option Response * DB :=
  match Js.get body "email" with
  | None => (Some (fail 400 "Mentee email is required"), db)
  | Some e =>
      if String.eqb e ""
      then (Some (fail 400 "Mentee email is required"), db)
      else
        match User_findOne_email_role lowercase trim db e "mentee" with
        | None => (Some (fail 404 "Mentee not found with this email"), db)
        | Some mentee =>
            match assignedMentor mentee with
            | Some _ =>
                (Some (fail 400 "Mentee is already assigned to a mentor"), db)
            | None =>
                match User_findById db caller with
                | None => (Some (fail 404 "Mentor not found"), db)
                | Some mentor =>
                    if Js.includes (mentees mentor) (u_id mentee)
                    then (Some (fail 400 "Mentee is already assigned to you"),
                          db)
                    else
                      let mentor' :=
                        mkUser (u_id mentor) (email mentor) (password mentor)
                               (name mentor) (phone mentor) (role mentor)
                               (mentees mentor ++ [u_id mentee])
                               (assignedMentor mentor)
                               (profileCompleted mentor) in
                      let db1 := User_save db mentor' in
                      let mentee' :=
                        mkUser (u_id mentee) (email mentee) (password mentee)
                               (name mentee) (phone mentee) (role mentee)
                               (mentees mentee)
                               (Some (u_id mentor))
                               (profileCompleted mentee) in
                      (None, User_save db1 mentee')
                end
            end
        end
  end.

End Assign.

End MentorController.

(** ** [controllers/authController.js] *)

Module AuthController.

Section Login.

Variable lowercase : string -> string.
Variable trim : string -> string.

(** [bcrypt.compare(candidate, hash)] on two strings, behind
    [user.comparePassword]. *)
Variable bcrypt_compare : string -> string -> bool.

(** Modelled from the spec: [utils/jwtGenerator] is not under [src/].
    The spec has login issue a signed, time-bound bearer credential
    embedding the user id: a token made from the id and the time of
    issue. *)
Variable generateToken : ObjectId -> Date -> string.

(** What Mongoose makes of a filter [{ email }] whose value is not a
    string (it casts a number or a boolean, reads an object as query
    operators): the test the stored emails are put to, or the message of
    the error thrown. *)
Variable email_filter : Js.value -> string + (string -> bool).

(** [User.findOne({ email })] on the value of the body. *)
Definition User_findOne (db : DB) (email : option Js.value)
  : string + option User :=
  match email with
  | Some (Js.Str e) => inr (User_findOne_email lowercase trim db e)
  | Some v =>
      match email_filter v with
      | inl message => inl message
      | inr matches =>
          inr (find (fun u => matches (Models.email u)) (users db))
      end
  | None => inr None
  end.

(** [user.comparePassword(password)]: bcryptjs throws on a candidate
    that is not a string. *)
Definition comparePassword (user : User) (password : option Js.value)
  : string + bool :=
  match password with
  | Some (Js.Str p) => inr (bcrypt_compare p (Models.password user))
  | Some v =>
      inl (String.append "Illegal arguments: "
                         (String.append (Js.typeof v) ", string"))
  | None => inl "Illegal arguments: undefined, string"
  end.

(** [exports.login]: the [catch] answers 500 with the message of the
    error. *)
Definition login (db : DB) (body : Js.json) (now : Date) : Response :=
  let email := Js.field body "email" in
  let password := Js.field body "password" in
  if Js.falsy_value email || Js.falsy_value password
  then fail 400 "Please provide email and password"
  else
    match User_findOne db email with
    | inl message => fail 500 message
    | inr None => fail 401 "Invalid credentials"
    | inr (Some user) =>
        match comparePassword user password with
        | inl message => fail 500 message
        | inr isMatch =>
            if negb isMatch
            then fail 401 "Invalid credentials"
            else ok 200 (LoginData (generateToken (u_id user) now)
                                   (u_id user) (Models.email user) (role user)
                                   (profileCompleted user))
        end
    end.

End Login.

End AuthController.

(** ** [utils/dbStatus.js] and [routes/health.js] *)

Module Health.

(** What the handler reads from the process: the Mongoose connection, the
    outcome of the admin ping, [package.json] and the clock. *)
Record Env := mkEnv {
  readyState : nat;             (* mongoose.connection.readyState *)
  conn_host : option string;    (* mongoose.connection.host *)
  conn_name : option string;    (* mongoose.connection.name *)
  ping_resolves : bool;         (* false: the ping promise rejects *)
  package_json : string + string;
                                (* require('../package.json'): its version,
                                   or the message of the error thrown *)
  node_env : option string;
  timestamp : string;           (* new Date().toISOString() *)
  uptime : Z;                   (* Math.floor(process.uptime()) *)
  mem_free : Z;                 (* os.freemem() *)
  mem_total : Z;                (* os.totalmem() *)
  mem_usedPercent : Z;          (* Math.round((1 - free / total) * 100) *)
  cpu : nat                     (* os.cpus().length *)
}.

Record SystemInfo := mkSystemInfo {
  s_uptime : Z;
  s_free : Z;
  s_total : Z;
  s_usedPercent : Z;
  s_cpu : nat
}.

Record MongoStatus := mkMongoStatus {
  state : string;
  connected : bool;
  host : string;
  db_name : string
}.

(** [stateMap[conn.readyState] || 'unknown'] *)
Definition stateMap (rs : nat) : string :=
  match rs with
  | 0%nat => "disconnected"
  | 1%nat => "connected"
  | 2%nat => "connecting"
  | 3%nat => "disconnecting"
  | _ => "unknown"
  end.

(** [getMongoStatus]: state, flag, host and name of the connection (the
    collection and model counts added when connected are left out). *)
Definition getMongoStatus (env : Env) : MongoStatus :=
  mkMongoStatus (stateMap (readyState env))
                (Nat.eqb (readyState env) 1)
                (Js.or_else (conn_host env) "unknown")
                (Js.or_else (conn_name env) "unknown").

(** [pingDatabase]: its own [catch] turns a failed ping into [false]. *)
Definition pingDatabase (env : Env) : bool :=
  if negb (Nat.eqb (readyState env) 1) then false
  else ping_resolves env.

Inductive Body :=
| Report (status timestamp version environment : string)
         (database : MongoStatus) (responsive : bool) (system : SystemInfo)
| Down (status timestamp error : string).

Definition body_status (b : Body) : string :=
  match b with
  | Report s _ _ _ _ _ _ => s
  | Down s _ _ => s
  end.

(** [router.get('/')]: the HTTP status and the JSON body.  The warning
    logged for a degraded service is not part of the response. *)
Definition get (env : Env) : nat * Body :=
  let dbConnectionStatus := getMongoStatus env in
  let dbResponseCheck := pingDatabase env in
  let systemInfo :=
    mkSystemInfo (uptime env) (mem_free env) (mem_total env)
                 (mem_usedPercent env) (cpu env) in
  match package_json env with
  | inl message =>
      (* catch (error) *)
      (500%nat, Down "down" (timestamp env) message)
  | inr version =>
      let isHealthy := connected dbConnectionStatus && dbResponseCheck in
      (200%nat,
       Report (if isHealthy then "up" else "degraded")
              (timestamp env) version
              (Js.or_else (node_env env) "development")
              dbConnectionStatus dbResponseCheck systemInfo)
  end.

End Health.

(** ** [hooks/useAPIService.ts] with [hooks/useErrorHandler.ts] *)

Module ApiService.

(** Values held in the hook state and returned by API calls. *)
#[local] Unset Elimination Schemes.
Inductive value :=
| Null
| Bool (b : bool)
| Num (n : Z)
| Str (s : string)
| Arr (items : list value)
| Obj (fields : list (string * value)).
#[local] Set Elimination Schemes.

(** JavaScript truthiness. *)
Definition truthy (v : value) : bool :=
  match v with
  | Null => false
  | Bool b => b
  | Num n => negb (n =? 0)
  | Str s => negb (String.eqb s "")
  | Arr _ | Obj _ => true
  end.

Fixpoint lookup (fs : list (string * value)) (k : string) : option value :=
  match fs with
  | [] => None
  | (k', v) :: fs' => if String.eqb k k' then Some v else lookup fs' k
  end.

(** [v.k], [undefined] shown as [None]. *)
Definition field (v : value) (k : string) : option value :=
  match v with
  | Obj fs => lookup fs k
  | _ => None
  end.

(** The [message?: string] and [error?: string] members of [APIResponse]. *)
Definition str_field (v : value) (k : string) : option string :=
  match field v k with
  | Some (Str s) => Some s
  | _ => None
  end.

(** [response.data.success === false] *)
Definition success_is_false (v : value) : bool :=
  match field v "success" with
  | Some (Bool false) => true
  | _ => false
  end.

Record APIServiceState := mkState {
  data : value;                 (* T | null *)
  isLoading : bool;
  error : option string;
  lastUpdated : option Z
}.

Record APIServiceOptions := mkOptions {
  cacheTime : option Z;
  showSuccessToast : option bool;
  showErrorToast : option bool;
  errorMessage : option string;
  successMessage : option string
}.

(** [mergedOptions = { ...DEFAULT_OPTIONS, ...options }] *)
Record MergedOptions := mkMerged {
  m_cacheTime : Z;
  m_showSuccessToast : bool;
  m_showErrorToast : bool;
  m_errorMessage : string;
  m_successMessage : string
}.

Definition DEFAULT_OPTIONS : MergedOptions :=
  mkMerged (5 * 60 * 1000) false true "An error occurred" "Success".

Definition merge {A} (o : option A) (d : A) : A :=
  match o with Some x => x | None => d end.

Definition mergedOptions (options : APIServiceOptions) : MergedOptions :=
  mkMerged (merge (cacheTime options) (m_cacheTime DEFAULT_OPTIONS))
           (merge (showSuccessToast options) (m_showSuccessToast DEFAULT_OPTIONS))
           (merge (showErrorToast options) (m_showErrorToast DEFAULT_OPTIONS))
           (merge (errorMessage options) (m_errorMessage DEFAULT_OPTIONS))
           (merge (successMessage options) (m_successMessage DEFAULT_OPTIONS)).

(** The options of the mentor dashboard ([mentor/dashboard/page.tsx]) and
    of a view that passes none. *)
Definition mentorDashboardOptions : APIServiceOptions :=
  mkOptions (Some (30 * 1000)) None (Some true)
            (Some "Failed to load dashboard data") None.

Definition noOptions : APIServiceOptions :=
  mkOptions None None None None None.

(** [useState] initial value. *)
Definition initialState (initialData : value) : APIServiceState :=
  mkState initialData false None None.

(** What a [throw] or a rejected promise carries. *)
Inductive thrown :=
| ThrownString (s : string)
| ThrownError (message : string)
| ThrownOther (response_message : option string).

(** [handleError(error, customMessage)] of [useErrorHandler]: the message
    it returns (it also shows it as a toast). *)
Definition handleError (e : thrown) (customMessage : string) : string :=
  if negb (String.eqb customMessage "") then customMessage
  else
    match e with
    | ThrownString s => s
    | ThrownError m => m
    | ThrownOther (Some m) =>
        if String.eqb m "" then "An unexpected error occurred" else m
    | ThrownOther None => "An unexpected error occurred"
    end.

(** What awaiting [apiCall()] gives: [{ data }] or a rejection. *)
Inductive settled :=
| Resolved (response_data : value)
| Rejected (e : thrown).

Record ExecuteOptions := mkExec {
  transform : option (value -> value + thrown);
  skipCache : bool
}.

Inductive toast :=
| ToastSuccess (msg : string)
| ToastError (msg : string).

Inductive completion :=
| Return (v : value)
| Throw (e : thrown).

Record Run := mkRun {
  result : completion;
  state' : APIServiceState;
  networkCalls : nat;           (* how often [apiCall] was invoked *)
  toasts : list toast
}.

(** The [catch] block of [execute]; [prev] is the state its updater
    receives. *)
Definition execute_catch (opts : MergedOptions) (prev : APIServiceState)
           (e : thrown) : Run :=
  let errorMessage := handleError e (m_errorMessage opts) in
  mkRun (Throw e)
        (mkState (data prev) false (Some errorMessage) (lastUpdated prev))
        1
        (ToastError errorMessage ::
         if m_showErrorToast opts then [ToastError errorMessage] else []).

(** [execute(apiCall, options)].  [state] is the hook state of the render
    that defined this [execute], the one its body reads; [prev] is the
    hook state that the updaters given to [setState] receive (the same
    state once the component has re-rendered).  [now] is the [Date.now()]
    read on entry, [now'] the one read when the response is stored, [call]
    what the API call settles to if it is made.  The [onSuccess] and
    [onError] observers are left out. *)
Definition execute (opts : MergedOptions) (state prev : APIServiceState)
           (now now' : Z) (call : settled) (options : ExecuteOptions) : Run :=
  let isCacheValid :=
    negb (skipCache options)
    && match lastUpdated state with
       | Some t => negb (t =? 0) && (now - t <? m_cacheTime opts)
       | None => false
       end in
  if isCacheValid && truthy (data state)
  then mkRun (Return (data state)) prev 0 []
  else
    (* setState((prev) => ({ ...prev, isLoading: true, error: null })) *)
    let prev := mkState (data prev) true None (lastUpdated prev) in
    match call with
    | Rejected e => execute_catch opts prev e
    | Resolved response_data =>
        if truthy response_data && success_is_false response_data
        then
          let errorMsg :=
            Js.or_else (str_field response_data "message")
              (Js.or_else (str_field response_data "error")
                          (m_errorMessage opts)) in
          execute_catch opts prev (ThrownError errorMsg)
        else
          match
            match transform options with
            | Some f => f response_data
            | None => inl response_data
            end
          with
          | inr e => execute_catch opts prev e
          | inl data =>
              mkRun (Return response_data)
                    (mkState data false (error prev) (Some now'))
                    1
                    (if m_showSuccessToast opts
                     then [ToastSuccess (m_successMessage opts)] else [])
          end
    end.

(** [refresh(apiCall)] *)
Definition refresh (opts : MergedOptions) (state prev : APIServiceState)
           (now now' : Z) (call : settled) : Run :=
  execute opts state prev now now' call (mkExec None true).

End ApiService.

(** ** [mentor/issues/components/IssueNotifications.tsx] *)

Module IssueNotifications.

Definition DAYS_THRESHOLD : Z := 3.

Definition msPerDay : Z := 1000 * 60 * 60 * 24.

(** The two fields of a fetched issue that the check reads. *)
Record FetchedIssue := mkFetched {
  f_status : string;
  f_createdAt : Date
}.

(** [Math.ceil(Math.abs(now - createdAt) / (1000 * 60 * 60 * 24))] *)
Definition diffDays (now createdAt : Date) : Z :=
  let diffTime := Z.abs (now - createdAt) in
  (diffTime + msPerDay - 1) / msPerDay.

(** The predicate handed to [issues.filter]. *)
Definition isOldPending (now : Date) (issue : FetchedIssue) : bool :=
  if negb (String.eqb (f_status issue) "Open")
     && negb (String.eqb (f_status issue) "Under Review")
  then false
  else DAYS_THRESHOLD <=? diffDays now (f_createdAt issue).

(** What [await mentorApi.getIssues()] gives: a rejection, or
    [response.data] with its [success] flag and its [data || []]. *)
Inductive fetched :=
| FetchFailed
| Fetched (success : bool) (data : list FetchedIssue).

(** What one run of [checkPendingIssues] does: whether it calls the API,
    the toast it shows (by its issue count: "You have n issue(s) pending
    for more than 3 days") and whether it calls
    [setHasShownNotifications(true)]. *)
Record Effects := mkEffects {
  calledApi : bool;
  shownToast : option nat;
  setShown : bool
}.

(** [checkPendingIssues] as defined by a render in which
    [hasShownNotifications] has the value [hasShownNotifications]. *)
Definition checkPendingIssues (hasShownNotifications : bool)
           (response : fetched) (now : Date) : Effects :=
  if hasShownNotifications then mkEffects false None false
  else
    match response with
    | FetchFailed => mkEffects true None false
    | Fetched false _ => mkEffects true None false
    | Fetched true issues =>
        let oldPendingIssues := filter (isOldPending now) issues in
        if (0 <? List.length oldPendingIssues)%nat
        then mkEffects true (Some (List.length oldPendingIssues)) true
        else mkEffects true None false
    end.

(** The mounted component: its [useState] cell, the closure given to
    [setInterval] (named by the [hasShownNotifications] it was defined
    with), the toasts shown so far and the number of API calls made. *)
Record Component := mkComponent {
  hasShownNotifications : bool;
  intervalClosure : option bool;
  shown : list nat;
  polls : nat
}.

Definition apply_effects (e : Effects) (c : Component) : Component :=
  mkComponent (if setShown e then true else hasShownNotifications c)
              (intervalClosure c)
              (match shownToast e with
               | Some n => shown c ++ [n]
               | None => shown c
               end)
              (if calledApi e then S (polls c) else polls c).

(** First render and its effect: [useState(false)], then, when
    [autoCheck], the check is run once and handed to [setInterval].  The
    effect's dependencies are [autoCheck] and [checkInterval] only, and
    [layout.tsx] renders the component without props, so later renders
    (those caused by [setHasShownNotifications] included) leave the
    interval and its closure in place. *)
Definition mount (autoCheck : bool) (response : fetched) (now : Date)
  : Component :=
  let hasShown0 := false in
  if autoCheck
  then apply_effects (checkPendingIssues hasShown0 response now)
                     (mkComponent hasShown0 (Some hasShown0) [] 0)
  else mkComponent hasShown0 None [] 0.

(** One firing of the interval. *)
Definition tick (c : Component) (response : fetched) (now : Date)
  : Component :=
  match intervalClosure c with
  | Some captured => apply_effects (checkPendingIssues captured response now) c
  | None => c
  end.

(** A session: the mount followed by the interval's firings. *)
Definition session (autoCheck : bool) (first : fetched * Date)
           (ticks : list (fetched * Date)) : Component :=
  fold_left (fun c t => tick c (fst t) (snd t)) ticks
            (mount autoCheck (fst first) (snd first)).

End IssueNotifications.

(** ** Vocabulary of the specification *)

Module Spec.

(** The issues a listing response carries (for a populated listing, the
    issues under the populated [mentee]). *)
Definition listed (r : Response) : list Issue :=
  match payload r with
  | IssueList _ d => d
  | PopulatedIssueList _ d => map p_issue d
  | _ => []
  end.


Definition Unassigned (r : Response) : Prop :=
  r = fail 400 "No assigned mentor found".



Definition InvalidCredentials (r : Response) : Prop :=
  r = fail 401 "Invalid credentials".

(** [issue'] is [issue] with [c] appended to its comments; identity,
    owner, counterpart, type, description and creation time are kept. *)
Definition comment_appended (issue issue' : Issue) (c : Comment) : Prop :=
  comments issue' = (comments issue ++ [c])%list
  /\ i_id issue' = i_id issue
  /\ i_mentee issue' = i_mentee issue
  /\ i_mentor issue' = i_mentor issue
  /\ issueType issue' = issueType issue
  /\ i_description issue' = i_description issue
  /\ i_createdAt issue' = i_createdAt issue.

(** Every stored issue but [issueId] reads the same in both databases. *)
Definition other_issues_kept (db db' : DB) (issueId : ObjectId) : Prop :=
  forall j, j <> issueId -> Issue_findById db' j = Issue_findById db j.

(** [newStatus] is supplied and is one of the four enum values. *)
Definition valid_newStatus (body : Js.object) (s : string) : Prop :=
  Js.get body "status" = Some s /\ In s status_enum.

(** The hook holds something to serve: a truthy [data] fetched at a
    recorded, non-zero time less than [cacheTime] before [now]. *)
Definition cache_usable (opts : ApiService.MergedOptions)
           (st : ApiService.APIServiceState) (now : Z) : Prop :=
  ApiService.truthy (ApiService.data st) = true
  /\ exists t, ApiService.lastUpdated st = Some t /\ t <> 0
               /\ now - t < ApiService.m_cacheTime opts.

(** [d] is what a successful call answering [v] stores. *)
Definition stored (options : ApiService.ExecuteOptions)
           (v d : ApiService.value) : Prop :=
  match ApiService.transform options with
  | Some f => f v = inl d
  | None => d = v
  end.

End Spec.

(** ** Sample data *)

Module Sample.

Definition mentor1 : User :=
  mkUser "m1" "m@x.com" "hash-m" "M" "100" "mentor" ["u1"] None true.

Definition mentee1 : User :=
  mkUser "u1" "a@x.com" "hash-a" "A" "200" "mentee" [] (Some "m1") true.

(** A registered mentee nobody has been assigned to. *)
Definition mentee2 : User :=
  mkUser "u2" "b@x.com" "hash-b" "B" "300" "mentee" [] None false.

Definition comment1 : Comment := mkComment "m1" "please elaborate" 500.

Definition issue1 : Issue :=
  mkIssue "i1" "u1" "m1" "Academic" "low grades" "Open" [comment1] 100 500.

Definition issue2 : Issue :=
  mkIssue "i2" "u9" "m9" "Other" "noise" "Resolved" [] 200 200.

Definition issue3 : Issue :=
  mkIssue "i3" "u1" "m1" "Accommodation" "room" "Under Review" [] 300 300.

Definition db : DB := mkDB [mentor1; mentee1; mentee2] [issue1; issue2; issue3] [].

(** A stand-in for the hash check: the hash of [p] is ["hash-" ++ p]. *)
Definition compare (candidate hash : string) : bool :=
  String.eqb (String.append "hash-" candidate) hash.

(** Stand-ins for the token generator (the time of issue is left out of
    the token) and for the string methods, on ASCII letters and
    spaces. *)
Definition token (id : ObjectId) (now : Date) : string :=
  String.append "token-" id.

Definition lower_char (c : ascii) : ascii :=
  let n := nat_of_ascii c in
  if ((65 <=? n) && (n <=? 90))%nat then ascii_of_nat (n + 32) else c.

Fixpoint lowercase (s : string) : string :=
  match s with
  | EmptyString => EmptyString
  | String c s' => String (lower_char c) (lowercase s')
  end.

Fixpoint trim_start (s : string) : string :=
  match s with
  | String " " s' => trim_start s'
  | _ => s
  end.

Fixpoint reverse (s acc : string) : string :=
  match s with
  | EmptyString => acc
  | String c s' => reverse s' (String c acc)
  end.

Definition trim (s : string) : string :=
  reverse (trim_start (reverse (trim_start s) EmptyString)) EmptyString.

(** Stand-ins for the casts: two dates, and ids that are valid unless
    they start with ["bad"]. *)
Definition castDate (s : string) : option (option Date) :=
  if String.eqb s "" then Some None
  else if String.eqb s "1970-01-02" then Some (Some 86400000)
  else if String.eqb s "1970-01-03" then Some (Some 172800000)
  else None.

Definition castError (s : string) : option string :=
  if String.prefix "bad" s || String.eqb s ""
  then Some "Cast to ObjectId failed"
  else None.

(** A filter on a value that is not a string: an object matches every
    email (as [{"$gt": ""}] does), anything else none. *)
Definition email_filter (v : Js.value) : string + (string -> bool) :=
  match v with
  | Js.Compound _ => inr (fun _ => true)
  | _ => inr (fun _ => false)
  end.

(** A process whose database is connected and answers. *)
Definition env_up : Health.Env :=
  Health.mkEnv 1 (Some "localhost") (Some "reportverse") true
               (inr "1.0.0") None "2025-01-01T00:00:00.000Z"
               3600 4000 16000 75 8.

(** The same process cut off from its database. *)
Definition env_disconnected : Health.Env :=
  Health.mkEnv 0 None None false
               (inr "1.0.0") None "2025-01-01T00:00:00.000Z"
               3600 4000 16000 75 8.

(** A process started where [../package.json] cannot be loaded. *)
Definition env_no_package : Health.Env :=
  Health.mkEnv 1 (Some "localhost") (Some "reportverse") true
               (inl "Cannot find module '../package.json'") None
               "2025-01-01T00:00:00.000Z"
               3600 4000 16000 75 8.

(** An issue reported at time 0 and still open. *)
Definition pending : IssueNotifications.FetchedIssue :=
  IssueNotifications.mkFetched "Open" 0.

Definition hour : Z := 60 * 60 * 1000.

(** The mentor dashboard hook, holding data fetched at time 1000. *)
Definition dashboard_state : ApiService.APIServiceState :=
  ApiService.mkState
    (ApiService.Obj [("totalMentees", ApiService.Num 2)]) false None
    (Some 1000).

Definition dashboard_reply : ApiService.value :=
  ApiService.Obj [("success", ApiService.Bool true);
                  ("data", ApiService.Obj [("totalMentees", ApiService.Num 3)])].

End Sample.

(** ** Further handlers of the controllers *)

(** Responses of the handlers below: the failure bodies are
    [{success: false, error}] or [{success: false, message}]. *)
Inductive Failure :=
| ErrorKey (error : string)
| MessageKey (message : string).

Record Reply (A : Type) := mkReply {
  r_code : nat;
  r_success : bool;
  r_body : Failure + A
}.

Arguments mkReply {A} _ _ _.
Arguments r_code {A} _.
Arguments r_success {A} _.
Arguments r_body {A} _.

Definition reject {A} (code : nat) (msg : string) : Reply A :=
  mkReply code false (inl (ErrorKey msg)).

Definition reject_message {A} (code : nat) (msg : string) : Reply A :=
  mkReply code false (inl (MessageKey msg)).

Definition accept {A} (code : nat) (a : A) : Reply A :=
  mkReply code true (inr a).

(** The data of a reply, when it has some. *)
Definition r_data {A} (r : Reply A) : option A :=
  match r_body r with
  | inr a => Some a
  | inl _ => None
  end.

Module Reads.

(** [.populate({ path: 'comments.user', select: 'email role' })]: each
    comment with its author shown as [{_id, email, role}], or [null]. *)
Record Author := mkAuthor {
  au_id : ObjectId;
  au_email : string;
  au_role : string
}.

Record IssueDetails := mkDetails {
  d_issue : Issue;
  d_mentee : option (ObjectId * string);   (* populated on the mentor side *)
  d_authors : list (option Author)         (* one per comment, in order *)
}.

Definition populate_author (db : DB) (c : Comment) : option Author :=
  match User_findById db (c_user c) with
  | Some u => Some (mkAuthor (u_id u) (email u) (role u))
  | None => None
  end.

Section GetIssue.

(** The cast of a URL parameter to an [ObjectId] by [findById]: the
    message of the [CastError] thrown for a string that is not a valid
    id, [None] for a valid one. *)
Variable castError : string -> option string.

(** [menteeController.getIssue]: the [catch] answers 500 with the
    message of the error. *)
Definition mentee_getIssue (db : DB) (caller issueId : ObjectId)
  : Reply IssueDetails :=
  match castError issueId with
  | Some message => reject 500 message
  | None =>
      match Issue_findById db issueId with
      | None => reject 404 "Issue not found"
      | Some issue =>
          if negb (String.eqb (i_mentee issue) caller)
          then reject 403 "Not authorized to access this issue"
          else accept 200 (mkDetails issue None
                                     (map (populate_author db)
                                          (comments issue)))
      end
  end.

(** [mentorController.getIssue] *)
Definition mentor_getIssue (db : DB) (caller issueId : ObjectId)
  : Reply IssueDetails :=
  match castError issueId with
  | Some message => reject 500 message
  | None =>
      match Issue_findById db issueId with
      | None => reject 404 "Issue not found"
      | Some issue =>
          if negb (String.eqb (i_mentor issue) caller)
          then reject 403 "Not authorized to access this issue"
          else accept 200 (mkDetails issue
                                     (p_mentee (populate_mentee db issue))
                                     (map (populate_author db)
                                          (comments issue)))
      end
  end.

End GetIssue.

(** The order of [dateOfAchievement] values in a sort: [null] comes
    before every date. *)
Definition date_ltb (a b : option Date) : bool :=
  match a, b with
  | None, Some _ => true
  | Some x, Some y => x <? y
  | _, None => false
  end.

(** [.sort('-dateOfAchievement')] *)
Fixpoint insert_achievement (x : Achievement) (l : list Achievement)
  : list Achievement :=
  match l with
  | [] => [x]
  | y :: l' =>
      if date_ltb (dateOfAchievement y) (dateOfAchievement x)
      then x :: y :: l'
      else y :: insert_achievement x l'
  end.

Definition sort_dateOfAchievement_desc (l : list Achievement)
  : list Achievement :=
  fold_right insert_achievement [] l.

(** [Achievement.find({ mentee: id })] *)
Definition Achievement_find_mentee (db : DB) (id : ObjectId)
  : list Achievement :=
  filter (fun a => String.eqb (a_mentee a) id) (achievements db).

(** [menteeController.getAchievements]: [{count, data}]. *)
Definition mentee_getAchievements (db : DB) (caller : ObjectId)
  : Reply (nat * list Achievement) :=
  let achievements :=
    sort_dateOfAchievement_desc (Achievement_find_mentee db caller) in
  accept 200 (List.length achievements, achievements).

(** [mentorController.getMenteeAchievements]: [mentor.mentees] always
    holds an array (schema default), so the guard is the membership
    test. *)
Definition getMenteeAchievements (db : DB) (caller menteeId : ObjectId)
  : Reply (nat * list Achievement) :=
  match User_findById db caller with
  | None => reject 404 "Mentor not found"
  | Some mentor =>
      if negb (Js.includes (mentees mentor) menteeId)
      then reject 403 "Not authorized to access this mentee's achievements"
      else
        let achievements :=
          sort_dateOfAchievement_desc (Achievement_find_mentee db menteeId) in
        accept 200 (List.length achievements, achievements)
  end.

(** [mentorController.getDashboard] *)
Record MentorDashboard := mkMentorDashboard {
  totalMentees : nat;
  pendingIssues : nat;
  recentIssues : list PopulatedIssue
}.

(** [{ mentor: mentorId, status: { $ne: "Resolved" } }] *)
Definition Issue_find_unresolved (db : DB) (id : ObjectId) : list Issue :=
  filter (fun i => String.eqb (i_mentor i) id
                   && negb (String.eqb (status i) "Resolved"))
         (issues db).

Definition mentor_getDashboard (db : DB) (caller : ObjectId)
  : Reply MentorDashboard :=
  match User_findById db caller with
  | None => reject_message 404 "Mentor not found"
  | Some mentor =>
      let totalMentees := List.length (mentees mentor) in
      let pendingIssues := List.length (Issue_find_unresolved db caller) in
      let recentIssues :=
        map (populate_mentee db)
            (firstn 5 (sort_createdAt_desc (Issue_find_unresolved db caller))) in
      accept 200 (mkMentorDashboard totalMentees pendingIssues recentIssues)
  end.

End Reads.

(** ** [middleware/auth.js] and the routers *)

Module AuthMiddleware.

(** [s.split(c)] for a one-character separator. *)
Fixpoint split_on (c : ascii) (s : string) : list string :=
  match s with
  | EmptyString => [EmptyString]
  | String a s' =>
      if Ascii.eqb a c then EmptyString :: split_on c s'
      else
        match split_on c s' with
        | w :: ws => String a w :: ws
        | [] => [String a EmptyString]
        end
  end.

(** What [protect] puts in [req.user]. *)
Record ReqUser := mkReqUser {
  ru_id : ObjectId;
  ru_role : string
}.

(** The token [protect] takes from the [Authorization] header:
    [authorization.split(' ')[1]] when the header starts with "Bearer". *)
Definition bearer (authorization : option string) : option string :=
  match authorization with
  | Some h =>
      if negb (String.eqb h "") && String.prefix "Bearer" h
      then nth_error (split_on " "%char h) 1
      else None
  | None => None
  end.

Section Protect.

(** [jwt.verify(token, process.env.JWT_SECRET).id]; [None] when [verify]
    throws (bad signature, expired, malformed). *)
Variable jwt_verify : string -> option ObjectId.

(** The setters of the [email] path, for the routes that look a user up
    by email. *)
Variable lowercase : string -> string.
Variable trim : string -> string.

(** [exports.protect]: the response it sends, or the [req.user] it hands
    to [next()]. *)
Definition protect (db : DB) (authorization : option string)
  : Response + ReqUser :=
  match bearer authorization with
  | None => inl (fail 401 "Not authorized to access this route")
  | Some token =>
      if String.eqb token ""
      then inl (fail 401 "Not authorized to access this route")
      else
        match jwt_verify token with
        | None => inl (fail 401 "Not authorized to access this route")
        | Some id =>
            match User_findById db id with
            | None => inl (fail 404 "No user found with this id")
            | Some user => inr (mkReqUser (u_id user) (role user))
            end
        end
  end.

(** [exports.isMentor] and [exports.isMentee]: the response sent, if any. *)
Definition isMentor (user : ReqUser) : option Response :=
  if negb (String.eqb (ru_role user) "mentor")
  then Some (fail 403 "Only mentors can access this route")
  else None.

Definition isMentee (user : ReqUser) : option Response :=
  if negb (String.eqb (ru_role user) "mentee")
  then Some (fail 403 "Only mentees can access this route")
  else None.

(** [router.use(protect); router.use(gate)] in front of a handler:
    [rejected] is what a response sent by the middleware amounts to. *)
Definition behind {A} (gate : ReqUser -> option Response)
           (db : DB) (authorization : option string)
           (rejected : Response -> A) (handler : ObjectId -> A) : A :=
  match protect db authorization with
  | inl r => rejected r
  | inr user =>
      match gate user with
      | Some r => rejected r
      | None => handler (ru_id user)
      end
  end.

(** [routes/mentor.js] *)
Definition GET_mentor_issues (db : DB) (authorization : option string)
  : Response :=
  behind isMentor db authorization (fun r => r)
         (fun caller => MentorController.getIssues db caller).

Definition POST_mentor_issue_comment (db : DB) (authorization : option string)
           (issueId : ObjectId) (body : Js.object) (now : Date)
  : Response * DB :=
  behind isMentor db authorization (fun r => (r, db))
         (fun caller => MentorController.addComment db caller issueId body now).

Definition POST_mentor_mentees_assign (db : DB) (authorization : option string)
           (body : Js.object) : option Response * DB :=
  behind isMentor db authorization (fun r => (Some r, db))
         (fun caller =>
            MentorController.assignMentee lowercase trim db caller body).

(** [routes/mentee.js] *)
Definition GET_mentee_issues (db : DB) (authorization : option string)
  : Response :=
  behind isMentee db authorization (fun r => r)
         (fun caller => MenteeController.getIssues db caller).

Definition POST_mentee_issues (db : DB) (authorization : option string)
           (body : Js.object) (newId : ObjectId) (now : Date)
  : Response * DB :=
  behind isMentee db authorization (fun r => (r, db))
         (fun caller => MenteeController.createIssue db caller body newId now).

Definition POST_mentee_issue_comments (db : DB) (authorization : option string)
           (issueId : ObjectId) (body : Js.object) (now : Date)
  : Response * DB :=
  behind isMentee db authorization (fun r => (r, db))
         (fun caller => MenteeController.addComment db caller issueId body now).

End Protect.

(** The header the client's request interceptor sets ([services/api.ts]):
    [`Bearer ${token}`]. *)
Definition client_header (token : string) : string :=
  String.append "Bearer " token.

End AuthMiddleware.

(** ** [controllers/authController.js]: registration *)

Module Register.

(** [email.split('@')[0]] *)
Definition local_part (e : string) : string :=
  hd EmptyString (AuthMiddleware.split_on "@"%char e).

Record Registered := mkRegistered {
  g_token : string;
  g_id : ObjectId;
  g_email : string;
  g_name : string;
  g_phone : string;
  g_role : string
}.

Section Register.

(** Library calls behind the [User] schema: [validator.isEmail], the
    [lowercase] and [trim] setters and the bcrypt hash of the pre-save
    hook. *)
Variable isEmail : string -> bool.
Variable lowercase : string -> string.
Variable trim : string -> string.
Variable bcrypt_hash : string -> string.

(** Modelled from the spec: [utils/jwtGenerator] is not under [src/].
    The spec's bearer credential is signed and time-bound and embeds the
    user id: a token made from the id and the time of issue. *)
Variable generateToken : ObjectId -> Date -> string.

(** [User.create({ email, password, name, phone, role })]: the setters,
    then the validators ([required], [isEmail], [minlength: 6]), the
    unique index on [email], and the pre-save hash.  The message of the
    error thrown, or the stored document and the new collection.  An
    absent [phone] is kept as the empty string. *)
Definition User_create (db : DB) (newId : ObjectId)
           (email password : option string) (name : string)
           (phone : option string) (role : string) : string + (User * DB) :=
  match email, password with
  | Some e, Some p =>
      let e' := email_setters lowercase trim e in
      if String.eqb e' "" then inl "User validation failed: email"
      else if negb (isEmail e') then inl "User validation failed: email"
      else if String.eqb p "" then inl "User validation failed: password"
      else if (String.length p <? 6)%nat
           then inl "User validation failed: password"
      else if existsb (fun u => String.eqb (Models.email u) e') (users db)
           then inl "E11000 duplicate key error"
      else
        let user :=
          mkUser newId e' (bcrypt_hash p) (trim name)
                 (match phone with Some ph => trim ph | None => "" end)
                 role [] None false in
        inr (user, mkDB (users db ++ [user]) (issues db) (achievements db))
  | None, _ => inl "User validation failed: email"
  | _, None => inl "User validation failed: password"
  end.

(** [name || email.split('@')[0]]; [None] when it throws ([email] is
    undefined). *)
Definition name_or_local_part (name email : option string) : option string :=
  if Js.truthy name then name
  else option_map local_part email.

Definition registered (user : User) (now : Date) : Registered :=
  mkRegistered (generateToken (u_id user) now) (u_id user) (Models.email user)
               (Models.name user) (Models.phone user) (Models.role user).

(** [User.findOne({ email })] on the body's email. *)
Definition existingUser (db : DB) (email : option string) : option User :=
  match email with
  | Some e => User_findOne_email lowercase trim db e
  | None => None
  end.

(** [exports.registerMentor] *)
Definition registerMentor (db : DB) (body : Js.object) (newId : ObjectId)
           (now : Date) : Reply Registered * DB :=
  let email := Js.get body "email" in
  match existingUser db email with
  | Some _ => (reject 400 "Email already in use", db)
  | None =>
      match name_or_local_part (Js.get body "name") email with
      | None =>
          (reject 500 "Cannot read properties of undefined (reading 'split')",
           db)
      | Some name =>
          match User_create db newId email (Js.get body "password") name
                            (Js.get body "phone") "mentor" with
          | inl msg => (reject 500 msg, db)
          | inr (mentor, db1) => (accept 201 (registered mentor now), db1)
          end
      end
  end.

(** The auto-assignment of [registerMentee]: its failures are logged and
    swallowed. *)
Definition autoAssign (db : DB) (mentee : User) (mentorId : option string)
  : DB :=
  if Js.truthy mentorId
  then
    match User_findById db (opt_default mentorId "") with
    | None => db
    | Some mentor =>
        if negb (String.eqb (role mentor) "mentor") then db
        else
          let mentor' :=
            mkUser (u_id mentor) (Models.email mentor) (password mentor)
                   (Models.name mentor) (phone mentor) (role mentor)
                   (mentees mentor ++ [u_id mentee])
                   (assignedMentor mentor) (profileCompleted mentor) in
          let db1 := User_save db mentor' in
          let mentee' :=
            mkUser (u_id mentee) (Models.email mentee) (password mentee)
                   (Models.name mentee) (phone mentee) (role mentee)
                   (mentees mentee) (Some (u_id mentor))
                   (profileCompleted mentee) in
          User_save db1 mentee'
    end
  else db.

(** [exports.registerMentee] *)
Definition registerMentee (db : DB) (body : Js.object) (newId : ObjectId)
           (now : Date) : Reply Registered * DB :=
  let email := Js.get body "email" in
  match existingUser db email with
  | Some _ => (reject 400 "Email already in use", db)
  | None =>
      match name_or_local_part (Js.get body "name") email with
      | None =>
          (reject 500 "Cannot read properties of undefined (reading 'split')",
           db)
      | Some name =>
          match User_create db newId email (Js.get body "password") name
                            (Js.get body "phone") "mentee" with
          | inl msg => (reject 500 msg, db)
          | inr (mentee, db1) =>
              (accept 201 (registered mentee now),
               autoAssign db1 mentee (Js.get body "mentorId"))
          end
      end
  end.

End Register.

End Register.

(** ** [config/db.js]: reconnection *)

Module ConnectDB.

Definition MAX_RETRY_COUNT : nat := 5.

(** [Math.min(Math.pow(2, retry) * 1000, 30000)] *)
Definition getRetryTime (retry : nat) : Z :=
  Z.min (2 ^ Z.of_nat retry * 1000) 30000.

(** The module-level variables, the delay of the pending retry timeout
    and the code [process.exit] was called with. *)
Record State := mkState {
  isConnecting : bool;
  retryCount : nat;
  retryTimeout : option Z;
  exited : option Z
}.

Definition initial : State := mkState false 0 None None.

(** [handleConnectionError] *)
Definition handleConnectionError (st : State) : State :=
  if (retryCount st <? MAX_RETRY_COUNT)%nat
  then
    let retryCount' := S (retryCount st) in
    mkState (isConnecting st) retryCount'
            (Some (getRetryTime retryCount')) (exited st)
  else mkState (isConnecting st) (retryCount st) (retryTimeout st) (Some 1).

(** [connectDB] up to its [await mongoose.connect(...)]: the attempt is
    pending.  [None] when it throws (no [MONGO_URI]). *)
Definition connectDB (mongoURI : option string) (st : State) : option State :=
  if isConnecting st then Some st
  else if Js.falsy mongoURI then None
  else Some (mkState true (retryCount st) (retryTimeout st) (exited st)).

(** [connectDB] after the [await]: the attempt resolved, or its [catch]. *)
Definition resolved (st : State) : State :=
  mkState false 0 (retryTimeout st) (exited st).

Definition rejected (st : State) : State :=
  handleConnectionError
    (mkState false (retryCount st) (retryTimeout st) (exited st)).

(** What happens to the process: a call of [connectDB] by [server.js],
    the outcome of the pending attempt, the retry timeout firing, and
    the events of [mongoose.connection] the module listens to. *)
Inductive Event :=
| Call
| Resolves
| Rejects
| TimerFires
| Disconnected (closeCalled : bool)
| ErrorEvent (name : string).

(** The ['error'] listener reconnects on these. *)
Definition fatal (name : string) : bool :=
  String.eqb name "MongoNetworkError" || String.eqb name "MongoTimeoutError".

(** One event; nothing happens once [process.exit] was called.  An
    outcome without a pending attempt and a timer that is not set do
    nothing; a [connectDB] that throws is logged by its caller. *)
Definition step (mongoURI : option string) (e : Event) (st : State) : State :=
  match exited st with
  | Some _ => st
  | None =>
      match e with
      | Call =>
          match connectDB mongoURI st with
          | Some st' => st'
          | None => st
          end
      | Resolves => if isConnecting st then resolved st else st
      | Rejects => if isConnecting st then rejected st else st
      | TimerFires =>
          match retryTimeout st with
          | Some _ =>
              let st0 :=
                mkState (isConnecting st) (retryCount st) None (exited st) in
              match connectDB mongoURI st0 with
              | Some st' => st'
              | None => st0
              end
          | None => st
          end
      | Disconnected closeCalled =>
          if closeCalled then st else handleConnectionError st
      | ErrorEvent name =>
          if fatal name then handleConnectionError st else st
      end
  end.

Definition run (mongoURI : option string) (trace : list Event) (st : State)
  : State :=
  fold_left (fun st e => step mongoURI e st) trace st.

(** Whether an event makes the module call [handleConnectionError]: the
    [catch] of a pending attempt, and the two listeners. *)
Definition reports (e : Event) (st : State) : bool :=
  match exited st with
  | Some _ => false
  | None =>
      match e with
      | Rejects => isConnecting st
      | Disconnected closeCalled => negb closeCalled
      | ErrorEvent name => fatal name
      | _ => false
      end
  end.

(** The number of these calls along a trace. *)
Fixpoint reported (mongoURI : option string) (trace : list Event) (st : State)
  : nat :=
  match trace with
  | [] => 0
  | e :: trace' =>
      ((if reports e st then 1 else 0)
       + reported mongoURI trace' (step mongoURI e st))%nat
  end.

End ConnectDB.

(** ** Academic records and profiles ([models/AcademicRecord.js],
       [menteeController.js], [mentorController.js]) *)

Module Academics.

(** The array paths of the academic record ([semesterGPA],
    [moocCourses], [certifications], [semesterMarksheets]) are stored and
    returned, never looked into: each is kept as the JSON value the
    document holds at the path.  [backlogs] is a double. *)
Record AcademicRecord := mkRecord {
  ar_mentee : ObjectId;
  semesterGPA : Js.value;
  moocCourses : Js.value;
  certifications : Js.value;
  semesterMarksheets : Js.value;
  backlogs : spec_float                         (* default 0, min 0 *)
}.

(** The defaults of the schema: [[]] and [0]. *)
Definition empty_array : Js.value := Js.Compound "[]".

Definition zero : spec_float := S754_zero false.

Definition one : spec_float := S754_finite false 1 0.

(** [AcademicRecord.findOne({ mentee: id })] *)
Definition findOne (records : list AcademicRecord) (id : ObjectId)
  : option AcademicRecord :=
  find (fun r => String.eqb (ar_mentee r) id) records.

(** [record.save()] of a loaded record. *)
Fixpoint replace_record (doc : AcademicRecord) (l : list AcademicRecord)
  : list AcademicRecord :=
  match l with
  | [] => []
  | r :: l' =>
      if String.eqb (ar_mentee r) (ar_mentee doc) then doc :: l'
      else r :: replace_record doc l'
  end.

(** [n || 0]: zero and [NaN] are falsy. *)
Definition or_zero (n : spec_float) : spec_float :=
  match n with
  | S754_zero _ => zero
  | S754_nan => zero
  | _ => n
  end.

(** The schema's [min: 0] fails on [n]. *)
Definition below_min (n : spec_float) : bool := SFltb n zero.

Section Update.

(** [Number(s)] on a string, and on an array or an object given by its
    JSON text. *)
Variable Number_of_string : string -> spec_float.
Variable Number_of_object : string -> spec_float.

(** What the schema makes of a value assigned to one of the array paths:
    the value the document then holds, or [None] when the cast or a
    validator of the path ([required] in an entry of [semesterGPA] or
    [semesterMarksheets]) fails, which makes [save] and [create]
    throw. *)
Variable castPath : string -> Js.value -> option Js.value.

(** The message of the error that [save] and [create] throw on a
    body. *)
Variable error_message : Js.json -> string.

(** [Number(v)] *)
Definition toNumber (v : Js.value) : spec_float :=
  match v with
  | Js.Null => zero
  | Js.Boolean true => one
  | Js.Boolean false => zero
  | Js.Number n => n
  | Js.Str s => Number_of_string s
  | Js.Compound json => Number_of_object json
  end.

(** [Number(req.body.backlogs) || 0] *)
Definition number_or_zero (v : Js.value) : spec_float :=
  or_zero (toNumber v).

(** [if (req.body[path] !== undefined) record[path] = req.body[path]]:
    what the path holds when the record is saved, [None] when the schema
    refuses the value. *)
Definition assigned (body : Js.json) (path : string) (old : Js.value)
  : option Js.value :=
  match Js.field body path with
  | Some v => castPath path v
  | None => Some old
  end.

Definition assigned_backlogs (body : Js.json) (old : spec_float)
  : option spec_float :=
  match Js.field body "backlogs" with
  | Some v =>
      let n := number_or_zero v in
      if below_min n then None else Some n
  | None => Some old
  end.

(** The document after the assignments of the handler, as [save] or
    [create] stores it; [None] when validation fails. *)
Definition edited (body : Js.json) (base : AcademicRecord)
  : option AcademicRecord :=
  match assigned body "semesterGPA" (semesterGPA base),
        assigned body "moocCourses" (moocCourses base),
        assigned body "certifications" (certifications base),
        assigned body "semesterMarksheets" (semesterMarksheets base),
        assigned_backlogs body (backlogs base) with
  | Some gpa, Some courses, Some certs, Some sheets, Some n =>
      Some (mkRecord (ar_mentee base) gpa courses certs sheets n)
  | _, _, _, _, _ => None
  end.

(** [exports.updateAcademics]: an error of [save] or [create] is caught
    and answered with 500 and [error.message || 'Server error'].  The ids
    and timestamps that the driver adds to a document are left out of the
    record. *)
Definition updateAcademics (records : list AcademicRecord)
           (caller : ObjectId) (body : Js.json)
  : Reply AcademicRecord * list AcademicRecord :=
  match findOne records caller with
  | Some academicRecord =>
      match edited body academicRecord with
      | None =>
          (reject 500 (Js.or_else (Some (error_message body)) "Server error"),
           records)
      | Some record' => (accept 200 record', replace_record record' records)
      end
  | None =>
      match edited body (mkRecord caller empty_array empty_array empty_array
                                  empty_array zero) with
      | None =>
          (reject 500 (Js.or_else (Some (error_message body)) "Server error"),
           records)
      | Some record => (accept 200 record, (records ++ [record])%list)
      end
  end.

End Update.

(** [exports.getAcademics] *)
Definition getAcademics (records : list AcademicRecord) (caller : ObjectId)
  : Reply AcademicRecord :=
  match findOne records caller with
  | None => reject 404 "Academic record not found"
  | Some academicRecord => accept 200 academicRecord
  end.

(** [mentorController.getMenteeAcademics]: the stored record, or an empty
    one with the message that none was added yet. *)
Definition getMenteeAcademics (db : DB) (records : list AcademicRecord)
           (caller menteeId : ObjectId) : Reply AcademicRecord :=
  match User_findById db caller with
  | None => reject 404 "Mentor not found"
  | Some mentor =>
      if negb (Js.includes (mentees mentor) menteeId)
      then reject 403
                  "Not authorized to access this mentee's academic records"
      else
        match User_findById db menteeId with
        | None => reject 404 "Mentee not found"
        | Some mentee =>
            match findOne records menteeId with
            | None =>
                accept 200 (mkRecord (u_id mentee) empty_array empty_array
                                     empty_array empty_array zero)
            | Some academicRecord => accept 200 academicRecord
            end
        end
  end.

Section Profiles.

(** A stored profile is returned as it is; the handlers only use the
    user it belongs to. *)
Variable MenteeProfile : Type.
Variable mp_user : MenteeProfile -> ObjectId.

Inductive ProfileView :=
| NotCompleted (user : ObjectId) (email : string)
| Completed (profile : MenteeProfile).

(** [mentorController.getMenteeProfile] *)
Definition getMenteeProfile (db : DB) (profiles : list MenteeProfile)
           (caller menteeId : ObjectId) : Reply ProfileView :=
  match User_findById db caller with
  | None => reject 404 "Mentor not found"
  | Some mentor =>
      if negb (Js.includes (mentees mentor) menteeId)
      then reject 403 "Not authorized to access this mentee's profile"
      else
        match User_findById db menteeId with
        | None => reject 404 "Mentee not found"
        | Some mentee =>
            if negb (profileCompleted mentee)
            then accept 200 (NotCompleted (u_id mentee) (email mentee))
            else
              match find (fun p => String.eqb (mp_user p) menteeId) profiles
              with
              | None => accept 200 (NotCompleted (u_id mentee) (email mentee))
              | Some profile => accept 200 (Completed profile)
              end
        end
  end.

End Profiles.

Arguments NotCompleted {MenteeProfile} user email.
Arguments Completed {MenteeProfile} profile.
Arguments getMenteeProfile {MenteeProfile} mp_user db profiles caller menteeId.

End Academics.

(** ** Further vocabulary *)

Module SpecX.

(** Newest first: no issue is followed by a newer one. *)
Definition newest_first (l : list Issue) : Prop :=
  StronglySorted (fun a b => i_createdAt b <= i_createdAt a) l.

(** [a] is not later than [b], [null] being before every date. *)
Definition date_le (a b : option Date) : Prop :=
  match a, b with
  | None, _ => True
  | Some _, None => False
  | Some x, Some y => x <= y
  end.

Definition latest_first (l : list Achievement) : Prop :=
  StronglySorted
    (fun a b => date_le (dateOfAchievement b) (dateOfAchievement a)) l.

(** Every stored issue has one of the four statuses. *)
Definition statuses_valid (db : DB) : Prop :=
  Forall (fun i => In (status i) status_enum) (issues db).

(** What never changes in a stored issue. *)
Definition same_parties (issue issue' : Issue) : Prop :=
  i_id issue' = i_id issue
  /\ i_mentee issue' = i_mentee issue
  /\ i_mentor issue' = i_mentor issue
  /\ issueType issue' = issueType issue
  /\ i_description issue' = i_description issue
  /\ i_createdAt issue' = i_createdAt issue.

Definition parties_kept (db db' : DB) : Prop :=
  forall id issue,
    Issue_findById db id = Some issue ->
    exists issue', Issue_findById db' id = Some issue'
                   /\ same_parties issue issue'.

(** No two stored users share an [_id]. *)
Definition unique_ids (db : DB) : Prop :=
  NoDup (map u_id (users db)).

(** The two ends of the assignment agree: [x] is in the roster of the
    stored user [m] exactly when the stored user [x] has [m] as assigned
    mentor. *)
Definition consistent (db : DB) : Prop :=
  forall m x,
    (exists mu, User_findById db m = Some mu /\ In x (mentees mu))
    <-> (exists xu, User_findById db x = Some xu
                    /\ assignedMentor xu = Some m).

(** No roster lists a mentee twice. *)
Definition rosters_nodup (db : DB) : Prop :=
  Forall (fun u => NoDup (mentees u)) (users db).

(** A mentor with one more mentee, a mentee with a mentor, and the store
    after both are saved. *)
Definition roster_plus (mentor : User) (x : ObjectId) : User :=
  mkUser (u_id mentor) (email mentor) (password mentor) (name mentor)
         (phone mentor) (role mentor) (mentees mentor ++ [x])
         (assignedMentor mentor) (profileCompleted mentor).

Definition assigned_to (mentee : User) (m : ObjectId) : User :=
  mkUser (u_id mentee) (email mentee) (password mentee) (name mentee)
         (phone mentee) (role mentee) (mentees mentee) (Some m)
         (profileCompleted mentee).

Definition linked (db : DB) (mentor mentee : User) : DB :=
  User_save (User_save db (roster_plus mentor (u_id mentee)))
            (assigned_to mentee (u_id mentor)).

(** [c] does not occur in [s]. *)
Fixpoint no_char (c : ascii) (s : string) : bool :=
  match s with
  | EmptyString => true
  | String a s' => negb (Ascii.eqb a c) && no_char c s'
  end.

(** The responses [protect] sends. *)
Definition Unauthenticated (r : Response) : Prop :=
  r = fail 401 "Not authorized to access this route"
  \/ r = fail 404 "No user found with this id".

(** Every other stored user reads the same in both databases. *)
Definition other_users_kept (db db' : DB) (ids : list ObjectId) : Prop :=
  forall id, ~ In id ids -> User_findById db' id = User_findById db id.

(** What [login] and [protect] read of a user, and two stores whose users
    agree on it, one by one. *)
Definition credentials (u : User) : ObjectId * string * string * string * bool :=
  (u_id u, email u, password u, role u, profileCompleted u).

Definition same_credentials (db db' : DB) : Prop :=
  map credentials (users db) = map credentials (users db').

(** The array paths of the academic record, each with its reader. *)
Definition array_paths
  : list (string * (Academics.AcademicRecord -> Js.value)) :=
  [("semesterGPA", Academics.semesterGPA);
   ("moocCourses", Academics.moocCourses);
   ("certifications", Academics.certifications);
   ("semesterMarksheets", Academics.semesterMarksheets)].

(** What is known of a mentee's academic record so far: the stored
    record, or the schema's defaults. *)
Definition previous (records : list Academics.AcademicRecord)
           (id : ObjectId) : Academics.AcademicRecord :=
  match Academics.findOne records id with
  | Some old => old
  | None =>
      Academics.mkRecord id Academics.empty_array Academics.empty_array
                         Academics.empty_array Academics.empty_array
                         Academics.zero
  end.



End SpecX.

(** ** Further sample data *)

Module SampleX.

(** Stand-ins for the library calls of the [User] schema. *)
Definition isEmail (s : string) : bool :=
  (1 <? List.length (AuthMiddleware.split_on "@"%char s))%nat.

Definition same (s : string) : string := s.

Definition hash (p : string) : string := String.append "hash-" p.

(** A registration naming mentor [m1]. *)
Definition registration : Js.object :=
  [("email", "c@x.com"); ("password", "secret1"); ("mentorId", "m1")].

(** A store with two achievements of [u1] and one of somebody else. *)
Definition achievement1 : Achievement :=
  mkAchievement "a1" "u1" "m1" "Award" "1st" "best paper" (Some 100) true.

Definition achievement2 : Achievement :=
  mkAchievement "a2" "u9" "m9" "Sports" "N/A" "run" (Some 200) true.

Definition achievement3 : Achievement :=
  mkAchievement "a3" "u1" "m1" "Hackathon" "Winner" "hack" (Some 300) true.

Definition db_achievements : DB :=
  mkDB (users Sample.db) (issues Sample.db)
       [achievement1; achievement2; achievement3].

(** The academic record of [u1]. *)
Definition quoted (s : string) : string :=
  String (ascii_of_nat 34) (String.append s (String (ascii_of_nat 34) "")).

Definition gpa1 : Js.value :=
  Js.Compound
    (String.append "[{"
       (String.append (quoted "semester")
          (String.append ":1,"
             (String.append (quoted "gpa") ":8.5}]")))).

Definition courses (names : list string) : Js.value :=
  Js.Compound
    (String.append "[" (String.append (String.concat "," (map quoted names))
                                      "]")).

Definition record1 : Academics.AcademicRecord :=
  Academics.mkRecord "u1" gpa1 (courses ["Coq"]) Academics.empty_array
                     Academics.empty_array Academics.one.

(** Stand-ins for the schema of the academic record: arrays are stored as
    given and anything else is refused; of the strings, only ["2"] and
    ["-1"] are numbers. *)
Definition two : spec_float := S754_finite false 2 0.

Definition minus_one : spec_float := S754_finite true 1 0.

Definition Number_of_string (s : string) : spec_float :=
  if String.eqb s "2" then two
  else if String.eqb s "-1" then minus_one
  else S754_nan.

Definition Number_of_object (json : string) : spec_float := S754_nan.

Definition castPath (path : string) (v : Js.value) : option Js.value :=
  match v with
  | Js.Compound _ => Some v
  | _ => None
  end.

Definition error_message (body : Js.json) : string :=
  "AcademicRecord validation failed".

(** Tokens are their user's id behind ["token-"]. *)
Definition verify (token : string) : option ObjectId :=
  if String.prefix "token-" token
  then Some (String.substring 6 (String.length token - 6) token)
  else None.

End SampleX.

(** * Properties *)

(** ** Facts about the store *)

Section StoreFacts.

Lemma Issue_findById_id db id i :
  Issue_findById db id = Some i -> i_id i = id /\ In i (issues db).
Proof.
  unfold Issue_findById. intros H.
  apply find_some in H. destruct H as [Hin Heq].
  apply String.eqb_eq in Heq. auto.
Qed.

Lemma find_replace_issue_same doc l old :
  find (fun i => String.eqb (i_id i) (i_id doc)) l = Some old ->
  find (fun i => String.eqb (i_id i) (i_id doc)) (replace_issue doc l)
  = Some doc.
Proof.
  induction l as [|x l IH]; simpl; [discriminate|].
  destruct (String.eqb (i_id x) (i_id doc)) eqn:E.
  - intros _. simpl. now rewrite String.eqb_refl.
  - intros H. simpl. rewrite E. auto.
Qed.

Lemma find_replace_issue_other doc l j :
  j <> i_id doc ->
  find (fun i => String.eqb (i_id i) j) (replace_issue doc l)
  = find (fun i => String.eqb (i_id i) j) l.
Proof.
  intros Hj. induction l as [|x l IH]; simpl; [reflexivity|].
  destruct (String.eqb (i_id x) (i_id doc)) eqn:E; simpl.
  - apply String.eqb_eq in E. rewrite E.
    assert (String.eqb (i_id doc) j = false) as ->
        by (apply String.eqb_neq; congruence).
    reflexivity.
  - destruct (String.eqb (i_id x) j); auto.
Qed.

(** Saving a loaded issue makes it the one found under its id and leaves
    every other lookup alone. *)
Lemma Issue_save_found db id old doc :
  Issue_findById db id = Some old -> i_id doc = id ->
  Issue_findById (Issue_save db doc) id = Some doc.
Proof.
  unfold Issue_findById, Issue_save. simpl. intros H <-.
  eapply find_replace_issue_same; eauto.
Qed.

Lemma Issue_save_others db doc :
  Spec.other_issues_kept db (Issue_save db doc) (i_id doc).
Proof.
  intros j Hj. unfold Issue_findById, Issue_save. simpl.
  now apply find_replace_issue_other.
Qed.

Lemma Issue_save_frame db doc :
  users (Issue_save db doc) = users db
  /\ achievements (Issue_save db doc) = achievements db.
Proof. split; reflexivity. Qed.

Lemma insert_desc_In x y l : In y (insert_desc x l) <-> y = x \/ In y l.
Proof.
  induction l as [|z l IH]; simpl.
  - intuition congruence.
  - destruct (i_createdAt z <? i_createdAt x); simpl.
    + intuition congruence.
    + rewrite IH. intuition congruence.
Qed.

Lemma sort_createdAt_desc_In y l : In y (sort_createdAt_desc l) <-> In y l.
Proof.
  induction l as [|x l IH]; simpl; [tauto|].
  rewrite insert_desc_In, IH. intuition congruence.
Qed.

Lemma insert_desc_perm x l : Permutation (x :: l) (insert_desc x l).
Proof.
  induction l as [|z l IH]; simpl; [apply Permutation_refl|].
  destruct (i_createdAt z <? i_createdAt x).
  - apply Permutation_refl.
  - eapply perm_trans; [apply perm_swap|]. now apply perm_skip.
Qed.

Lemma sort_createdAt_desc_perm l : Permutation l (sort_createdAt_desc l).
Proof.
  induction l as [|x l IH]; simpl; [constructor|].
  eapply perm_trans; [apply perm_skip, IH|apply insert_desc_perm].
Qed.

Lemma includes_In xs x : Js.includes xs x = true <-> In x xs.
Proof.
  unfold Js.includes. rewrite existsb_exists. split.
  - intros (y & Hy & E). apply String.eqb_eq in E. now subst.
  - intros H. exists x. split; [assumption|apply String.eqb_refl].
Qed.

End StoreFacts.

(** ** Listing *)

Section Listing.

Lemma mentor_listing db caller :
  forall i, In i (Spec.listed (MentorController.getIssues db caller)) ->
            In i (issues db) /\ i_mentor i = caller.
Proof.
  intros i. unfold MentorController.getIssues.
  destruct (User_findById db caller); [|simpl; tauto].
  unfold Spec.listed. cbn [payload ok].
  rewrite map_map. cbn [populate_mentee p_issue]. rewrite map_id.
  rewrite sort_createdAt_desc_In. unfold Issue_find_mentor.
  rewrite filter_In. intros [Hin E]. apply String.eqb_eq in E. auto.
Qed.

Lemma mentee_listing db caller :
  forall i, In i (Spec.listed (MenteeController.getIssues db caller)) <->
            In i (issues db) /\ i_mentee i = caller.
Proof.
  intros i. unfold MenteeController.getIssues, Spec.listed.
  cbn [payload ok]. rewrite sort_createdAt_desc_In. unfold Issue_find_mentee.
  rewrite filter_In. now rewrite String.eqb_eq.
Qed.

(** C1.  Listing for a mentor returns only stored issues whose [mentor]
    is the caller, and listing for a mentee only stored issues whose
    [mentee] is the caller: no issue recorded for somebody else is ever
    in the returned list. *)
Theorem listing_never_leaks db caller :
  Forall (fun i => In i (issues db) /\ i_mentor i = caller)
         (Spec.listed (MentorController.getIssues db caller))
  /\ Forall (fun i => In i (issues db) /\ i_mentee i = caller)
            (Spec.listed (MenteeController.getIssues db caller)).
Proof.
  split; apply Forall_forall; intros i Hi.
  - now apply mentor_listing.
  - now apply mentee_listing.
Qed.

(** The listings of the sample store, newest first. *)
Example sample_mentor_listing :
  Spec.listed (MentorController.getIssues Sample.db "m1")
  = [Sample.issue3; Sample.issue1].
Proof. reflexivity. Qed.

Example sample_mentee_listing :
  MenteeController.getIssues Sample.db "u1"
  = ok 200 (IssueList 2 [Sample.issue3; Sample.issue1]).
Proof. reflexivity. Qed.

End Listing.

(** ** Creation without an assigned mentor *)

Section Unassigned.

(** C3.  A mentee with no assigned mentor gets 400 "No assigned mentor
    found" from both create-issue and create-achievement, and the
    database after the call is the database before it. *)
Theorem create_requires_assigned_mentor
        castDate db caller mentee body newId now :
  User_findById db caller = Some mentee ->
  assignedMentor mentee = None ->
  let (r1, db1) := MenteeController.createIssue db caller body newId now in
  let (r2, db2) :=
    MenteeController.createAchievement castDate db caller body newId now in
  Spec.Unassigned r1 /\ statusCode r1 = 400%nat /\ db1 = db
  /\ Spec.Unassigned r2 /\ statusCode r2 = 400%nat /\ db2 = db.
Proof.
  intros Hu Ha.
  unfold MenteeController.createIssue, MenteeController.createAchievement.
  rewrite Hu, Ha. unfold Spec.Unassigned. simpl. auto 6.
Qed.

Lemma create_requires_assigned_mentor_witness :
  User_findById Sample.db "u2" = Some Sample.mentee2
  /\ assignedMentor Sample.mentee2 = None
  /\ let body := [("issueType", "Academic"); ("description", "d");
                  ("type", "Award")] in
     let (r1, db1) := MenteeController.createIssue Sample.db "u2" body "i9" 900 in
     let (r2, db2) :=
       MenteeController.createAchievement Sample.castDate Sample.db "u2" body
                                          "i9" 900 in
     Spec.Unassigned r1 /\ statusCode r1 = 400%nat /\ db1 = Sample.db
     /\ Spec.Unassigned r2 /\ statusCode r2 = 400%nat /\ db2 = Sample.db.
Proof.
  split; [reflexivity|]. split; [reflexivity|].
  exact (create_requires_assigned_mentor Sample.castDate Sample.db "u2"
           Sample.mentee2
           [("issueType", "Academic"); ("description", "d"); ("type", "Award")]
           "i9" 900 eq_refl eq_refl).
Defined.

(** With an assigned mentor the same requests do create a record. *)
Example assigned_mentee_creates :
  let body := [("issueType", "Academic"); ("description", "d")] in
  fst (MenteeController.createIssue Sample.db "u1" body "i9" 900)
  = ok 201 (IssueData (mkIssue "i9" "u1" "m1" "Academic" "d" "Open" [] 900 900))
  /\ List.length (issues (snd (MenteeController.createIssue Sample.db "u1" body "i9" 900)))
     = 4%nat.
Proof. split; reflexivity. Qed.

End Unassigned.

(** ** Comments *)

Section Comments.

Variables (db : DB) (caller issueId : ObjectId) (body : Js.object) (now : Date).

(** The mentee-side handler on a well-formed request of the owner. *)
Lemma mentee_addComment_ok text issue :
  Js.get body "text" = Some text -> text <> "" ->
  Issue_findById db issueId = Some issue -> i_mentee issue = caller ->
  exists issue',
    MenteeController.addComment db caller issueId body now
    = (ok 200 (CommentData (mkComment caller text now)), Issue_save db issue')
    /\ Issue_findById (Issue_save db issue') issueId = Some issue'
    /\ Spec.comment_appended issue issue' (mkComment caller text now)
    /\ status issue' = status issue.
Proof.
  intros Ht Hne Hi Hc. unfold MenteeController.addComment.
  rewrite Ht, Hi. apply String.eqb_neq in Hne. rewrite Hne.
  apply String.eqb_eq in Hc. rewrite Hc. cbn [negb].
  eexists. cbn [comments]. rewrite last_last.
  split; [reflexivity|]. split.
  - eapply Issue_save_found; [eassumption|].
    apply Issue_findById_id in Hi. tauto.
  - unfold Spec.comment_appended. simpl. repeat split; reflexivity.
Qed.

(** The mentor-side handler on a well-formed request of the assigned
    mentor. *)
Lemma mentor_addComment_ok text issue :
  Js.get body "text" = Some text -> text <> "" ->
  Issue_findById db issueId = Some issue -> i_mentor issue = caller ->
  exists issue',
    MentorController.addComment db caller issueId body now
    = (ok 200 (IssueData issue'), Issue_save db issue')
    /\ Issue_findById (Issue_save db issue') issueId = Some issue'
    /\ Spec.comment_appended issue issue' (mkComment caller text now)
    /\ (forall s, Spec.valid_newStatus body s -> status issue' = s)
    /\ (forall s, Js.get body "status" = Some s -> ~ In s status_enum ->
                  status issue' = status issue)
    /\ (Js.get body "status" = None -> status issue' = status issue).
Proof.
  intros Ht Hne Hi Hc. unfold MentorController.addComment.
  rewrite Ht, Hi. apply String.eqb_neq in Hne. rewrite Hne.
  apply String.eqb_eq in Hc. rewrite Hc. cbn [negb].
  eexists. split; [reflexivity|]. split; [|split; [|split; [|split]]].
  - eapply Issue_save_found; [eassumption|].
    apply Issue_findById_id in Hi. tauto.
  - unfold Spec.comment_appended. simpl. repeat split; reflexivity.
  - intros s [Hs Hin]. cbn [status]. rewrite Hs. cbn [opt_default].
    apply includes_In in Hin. rewrite Hin.
    assert (Js.truthy (Some s) = true) as ->; [|reflexivity].
    unfold Js.truthy, Js.falsy.
    destruct (String.eqb s "") eqn:E; [|reflexivity].
    apply String.eqb_eq in E. subst s. discriminate Hin.
  - intros s Hs Hnot. cbn [status]. rewrite Hs. cbn [opt_default].
    destruct (Js.includes status_enum s) eqn:E.
    + apply includes_In in E. contradiction.
    + now rewrite andb_false_r.
  - intros Hs. cbn [status]. now rewrite Hs.
Qed.

(** A 200 from either handler means the request was well formed, the
    issue stored and the caller its owner (resp. its mentor). *)
Lemma mentee_addComment_200 :
  statusCode (fst (MenteeController.addComment db caller issueId body now))
  = 200%nat ->
  exists text issue,
    Js.get body "text" = Some text /\ text <> ""
    /\ Issue_findById db issueId = Some issue /\ i_mentee issue = caller.
Proof.
  unfold MenteeController.addComment. intros H.
  destruct (Js.get body "text") as [text|]; [|discriminate H].
  destruct (String.eqb text "") eqn:E1; [discriminate H|].
  destruct (Issue_findById db issueId) as [issue|]; [|discriminate H].
  destruct (String.eqb (i_mentee issue) caller) eqn:E2; [|discriminate H].
  exists text, issue. apply String.eqb_neq in E1. apply String.eqb_eq in E2.
  auto.
Qed.

Lemma mentor_addComment_200 :
  statusCode (fst (MentorController.addComment db caller issueId body now))
  = 200%nat ->
  exists text issue,
    Js.get body "text" = Some text /\ text <> ""
    /\ Issue_findById db issueId = Some issue /\ i_mentor issue = caller.
Proof.
  unfold MentorController.addComment. intros H.
  destruct (Js.get body "text") as [text|]; [|discriminate H].
  destruct (String.eqb text "") eqn:E1; [discriminate H|].
  destruct (Issue_findById db issueId) as [issue|]; [|discriminate H].
  destruct (String.eqb (i_mentor issue) caller) eqn:E2; [|discriminate H].
  exists text, issue. apply String.eqb_neq in E1. apply String.eqb_eq in E2.
  auto.
Qed.


End Comments.

Section CommentClaims.




(** C4.  A successful comment, on the mentee side or on the mentor side,
    leaves the issue's comments equal to the former list followed by
    exactly one new element; nothing stored before is removed, edited or
    moved, and no other issue is touched. *)
Theorem comments_append_only db caller issueId body now :
  (statusCode (fst (MenteeController.addComment db caller issueId body now))
   = 200%nat ->
   exists issue issue' c,
     Issue_findById db issueId = Some issue
     /\ Issue_findById
          (snd (MenteeController.addComment db caller issueId body now))
          issueId = Some issue'
     /\ comments issue' = (comments issue ++ [c])%list
     /\ Spec.other_issues_kept
          db (snd (MenteeController.addComment db caller issueId body now))
          issueId)
  /\ (statusCode (fst (MentorController.addComment db caller issueId body now))
      = 200%nat ->
      exists issue issue' c,
        Issue_findById db issueId = Some issue
        /\ Issue_findById
             (snd (MentorController.addComment db caller issueId body now))
             issueId = Some issue'
        /\ comments issue' = (comments issue ++ [c])%list
        /\ Spec.other_issues_kept
             db (snd (MentorController.addComment db caller issueId body now))
             issueId).
Proof.
  split; intros H.
  - destruct (mentee_addComment_200 db caller issueId body now H)
      as (text & issue & Ht & Hne & Hi & Hc).
    destruct (mentee_addComment_ok db caller issueId body now text issue
                Ht Hne Hi Hc) as (issue' & Hrun & Hfind & Happ & _).
    exists issue, issue', (mkComment caller text now). rewrite Hrun. simpl.
    repeat split; try assumption; [apply Happ|].
    destruct Happ as (_ & Hid & _). apply Issue_findById_id in Hi.
    replace issueId with (i_id issue') by (destruct Hi; congruence).
    apply Issue_save_others.
  - destruct (mentor_addComment_200 db caller issueId body now H)
      as (text & issue & Ht & Hne & Hi & Hc).
    destruct (mentor_addComment_ok db caller issueId body now text issue
                Ht Hne Hi Hc) as (issue' & Hrun & Hfind & Happ & _).
    exists issue, issue', (mkComment caller text now). rewrite Hrun. simpl.
    repeat split; try assumption; [apply Happ|].
    destruct Happ as (_ & Hid & _). apply Issue_findById_id in Hi.
    replace issueId with (i_id issue') by (destruct Hi; congruence).
    apply Issue_save_others.
Qed.

Lemma comments_append_only_witness :
  statusCode (fst (MenteeController.addComment Sample.db "u1" "i1"
                     [("text", "thanks")] 1000)) = 200%nat
  /\ statusCode (fst (MentorController.addComment Sample.db "m1" "i1"
                        [("text", "noted")] 1000)) = 200%nat
  /\ (exists issue issue' c,
         Issue_findById Sample.db "i1" = Some issue
         /\ Issue_findById
              (snd (MenteeController.addComment Sample.db "u1" "i1"
                      [("text", "thanks")] 1000)) "i1" = Some issue'
         /\ comments issue' = (comments issue ++ [c])%list
         /\ Spec.other_issues_kept Sample.db
              (snd (MenteeController.addComment Sample.db "u1" "i1"
                      [("text", "thanks")] 1000)) "i1")
  /\ (exists issue issue' c,
         Issue_findById Sample.db "i1" = Some issue
         /\ Issue_findById
              (snd (MentorController.addComment Sample.db "m1" "i1"
                      [("text", "noted")] 1000)) "i1" = Some issue'
         /\ comments issue' = (comments issue ++ [c])%list
         /\ Spec.other_issues_kept Sample.db
              (snd (MentorController.addComment Sample.db "m1" "i1"
                      [("text", "noted")] 1000)) "i1").
Proof.
  split; [reflexivity|]. split; [reflexivity|]. split.
  - exact (proj1 (comments_append_only Sample.db "u1" "i1"
                    [("text", "thanks")] 1000) eq_refl).
  - exact (proj2 (comments_append_only Sample.db "m1" "i1"
                    [("text", "noted")] 1000) eq_refl).
Defined.

(** C10.  A successful call of the mentee comment endpoint keeps the
    status of the issue whatever else the body holds (a [status] or
    [newStatus] field included: the outcome depends on the body through
    [text] only); the comments gain the new comment, users,
    achievements and the other issues are as before, and the response
    data is the new comment alone. *)
Theorem mentee_comment_keeps_status db caller issueId body now :
  statusCode (fst (MenteeController.addComment db caller issueId body now))
  = 200%nat ->
  exists issue issue' c,
    Issue_findById db issueId = Some issue
    /\ MenteeController.addComment db caller issueId body now
       = (ok 200 (CommentData c), Issue_save db issue')
    /\ Issue_findById (Issue_save db issue') issueId = Some issue'
    /\ status issue' = status issue
    /\ Spec.comment_appended issue issue' c
    /\ users (Issue_save db issue') = users db
    /\ achievements (Issue_save db issue') = achievements db
    /\ Spec.other_issues_kept db (Issue_save db issue') issueId
    /\ forall body',
        Js.get body' "text" = Js.get body "text" ->
        MenteeController.addComment db caller issueId body' now
        = MenteeController.addComment db caller issueId body now.
Proof.
  intros H.
  destruct (mentee_addComment_200 db caller issueId body now H)
    as (text & issue & Ht & Hne & Hi & Hc).
  destruct (mentee_addComment_ok db caller issueId body now text issue
              Ht Hne Hi Hc) as (issue' & Hrun & Hfind & Happ & Hst).
  exists issue, issue', (mkComment caller text now).
  repeat split; try assumption; try apply Happ.
  - destruct Happ as (_ & Hid & _). apply Issue_findById_id in Hi.
    replace issueId with (i_id issue') by (destruct Hi; congruence).
    apply Issue_save_others.
  - intros body' Hb. unfold MenteeController.addComment. now rewrite Hb.
Qed.

Lemma mentee_comment_keeps_status_witness :
  statusCode (fst (MenteeController.addComment Sample.db "u1" "i1"
                     [("text", "thanks"); ("status", "Closed")] 1000))
  = 200%nat
  /\ exists issue issue' c,
      Issue_findById Sample.db "i1" = Some issue
      /\ MenteeController.addComment Sample.db "u1" "i1"
           [("text", "thanks"); ("status", "Closed")] 1000
         = (ok 200 (CommentData c), Issue_save Sample.db issue')
      /\ status issue' = status issue.
Proof.
  split; [reflexivity|].
  destruct (mentee_comment_keeps_status Sample.db "u1" "i1"
              [("text", "thanks"); ("status", "Closed")] 1000 eq_refl)
    as (issue & issue' & c & H1 & H2 & _ & H3 & _).
  exists issue, issue', c. auto.
Defined.

End CommentClaims.

(** ** Assignment *)

Section Assignment.

Variable lowercase : string -> string.
Variable trim : string -> string.

(** Whatever [assignMentee] answers in the source, it answers before the
    first save. *)
Lemma assignMentee_failure_frame db caller body r :
  fst (MentorController.assignMentee lowercase trim db caller body) = Some r ->
  snd (MentorController.assignMentee lowercase trim db caller body) = db
  /\ success r = false /\ statusCode r <> 200%nat.
Proof.
  unfold MentorController.assignMentee.
  destruct (Js.get body "email") as [e|];
    [|intros H; inversion H; repeat split; discriminate].
  destruct (String.eqb e "");
    [intros H; inversion H; repeat split; discriminate|].
  destruct (User_findOne_email_role lowercase trim db e "mentee")
    as [mentee|]; [|intros H; inversion H; repeat split; discriminate].
  destruct (assignedMentor mentee);
    [intros H; inversion H; repeat split; discriminate|].
  destruct (User_findById db caller) as [mentor|];
    [|intros H; inversion H; repeat split; discriminate].
  destruct (Js.includes (mentees mentor) (u_id mentee));
    [intros H; inversion H; repeat split; discriminate|].
  discriminate.
Qed.


End Assignment.

Section AssignmentWitness.


(** The remaining failures and the success, on the sample store. *)
Example assignMentee_unknown_email :
  MentorController.assignMentee Sample.lowercase Sample.trim
    Sample.db "m1" [("email", "nobody@x.com")]
  = (Some (fail 404 "Mentee not found with this email"), Sample.db).
Proof. reflexivity. Qed.

Example assignMentee_success :
  let (answer, db') :=
    MentorController.assignMentee Sample.lowercase Sample.trim
      Sample.db "m1" [("email", " B@x.com")] in
  answer = None
  /\ option_map mentees (User_findById db' "m1") = Some ["u1"; "u2"]
  /\ option_map assignedMentor (User_findById db' "u2") = Some (Some "m1").
Proof. simpl. auto. Qed.

(** A roster entry without the matching [assignedMentor]: the second
    check answers. *)
Example assignMentee_in_roster_only :
  let db :=
    mkDB [mkUser "m1" "m@x.com" "h" "M" "1" "mentor" ["u2"] None true;
          Sample.mentee2] [] [] in
  MentorController.assignMentee Sample.lowercase Sample.trim
    db "m1" [("email", "b@x.com")]
  = (Some (fail 400 "Mentee is already assigned to you"), db).
Proof. reflexivity. Qed.

End AssignmentWitness.

(** ** Login *)

Section LoginClaims.

Variable lowercase : string -> string.
Variable trim : string -> string.
Variable bcrypt_compare : string -> string -> bool.
Variable generateToken : ObjectId -> Date -> string.
Variable email_filter : Js.value -> string + (string -> bool).

(** With passwords that are strings, a login that names a stored email
    with a password the hash does not accept, and a login that names an
    email nobody has, get the same response, 401 "Invalid credentials":
    status, flag and message are equal. *)
Lemma login_failures_look_alike db body1 e1 p1 body2 e2 p2 user now1 now2 :
  Js.field body1 "email" = Some (Js.Str e1) -> e1 <> "" ->
  Js.field body1 "password" = Some (Js.Str p1) -> p1 <> "" ->
  Js.field body2 "email" = Some (Js.Str e2) -> e2 <> "" ->
  Js.field body2 "password" = Some (Js.Str p2) -> p2 <> "" ->
  User_findOne_email lowercase trim db e1 = Some user ->
  bcrypt_compare p1 (password user) = false ->
  User_findOne_email lowercase trim db e2 = None ->
  Spec.InvalidCredentials
    (AuthController.login lowercase trim bcrypt_compare generateToken
                          email_filter db body1 now1)
  /\ Spec.InvalidCredentials
       (AuthController.login lowercase trim bcrypt_compare generateToken
                             email_filter db body2 now2)
  /\ AuthController.login lowercase trim bcrypt_compare generateToken
                          email_filter db body1 now1
     = AuthController.login lowercase trim bcrypt_compare generateToken
                            email_filter db body2 now2.
Proof.
  intros He1 Hn1 Hp1 Hq1 He2 Hn2 Hp2 Hq2 Hu Hbad Hnone.
  apply String.eqb_neq in Hn1, Hq1, Hn2, Hq2.
  assert (AuthController.login lowercase trim bcrypt_compare generateToken
                               email_filter db body1 now1
          = fail 401 "Invalid credentials") as H1.
  { unfold AuthController.login, AuthController.User_findOne,
      AuthController.comparePassword.
    rewrite He1, Hp1. cbn [Js.falsy_value]. rewrite Hn1, Hq1. simpl.
    now rewrite Hu, Hbad. }
  assert (AuthController.login lowercase trim bcrypt_compare generateToken
                               email_filter db body2 now2
          = fail 401 "Invalid credentials") as H2.
  { unfold AuthController.login, AuthController.User_findOne.
    rewrite He2, Hp2. cbn [Js.falsy_value]. rewrite Hn2, Hq2. simpl.
    now rewrite Hnone. }
  unfold Spec.InvalidCredentials. rewrite H1, H2. auto.
Qed.

(** C6.  The two failures can be told apart.  With a password that is
    not a string (and not falsy), a login that names a stored email is
    answered 500 with the message of the error bcrypt throws, a login
    that names an email nobody has is answered 401 "Invalid
    credentials": the caller learns whether the email is registered. *)
Theorem login_tells_accounts_apart db body1 e1 body2 e2 v user now :
  Js.field body1 "email" = Some (Js.Str e1) -> e1 <> "" ->
  Js.field body2 "email" = Some (Js.Str e2) -> e2 <> "" ->
  Js.field body1 "password" = Some v ->
  Js.field body2 "password" = Some v ->
  Js.falsy_value (Some v) = false -> Js.typeof v <> "string" ->
  User_findOne_email lowercase trim db e1 = Some user ->
  User_findOne_email lowercase trim db e2 = None ->
  AuthController.login lowercase trim bcrypt_compare generateToken
                       email_filter db body1 now
  = fail 500 (String.append "Illegal arguments: "
                            (String.append (Js.typeof v) ", string"))
  /\ Spec.InvalidCredentials
       (AuthController.login lowercase trim bcrypt_compare generateToken
                             email_filter db body2 now)
  /\ AuthController.login lowercase trim bcrypt_compare generateToken
                          email_filter db body1 now
     <> AuthController.login lowercase trim bcrypt_compare generateToken
                             email_filter db body2 now.
Proof.
  intros He1 Hn1 He2 Hn2 Hp1 Hp2 Hv Hty Hu Hnone.
  apply String.eqb_neq in Hn1, Hn2.
  assert (AuthController.login lowercase trim bcrypt_compare generateToken
                               email_filter db body1 now
          = fail 500 (String.append "Illegal arguments: "
                                    (String.append (Js.typeof v) ", string")))
    as H1.
  { unfold AuthController.login, AuthController.User_findOne,
      AuthController.comparePassword.
    rewrite He1, Hp1, Hv. cbn [Js.falsy_value]. rewrite Hn1. cbn [orb].
    rewrite Hu. destruct v; try reflexivity. now contradiction Hty. }
  assert (AuthController.login lowercase trim bcrypt_compare generateToken
                               email_filter db body2 now
          = fail 401 "Invalid credentials") as H2.
  { unfold AuthController.login, AuthController.User_findOne.
    rewrite He2, Hp2, Hv. cbn [Js.falsy_value]. rewrite Hn2. cbn [orb].
    now rewrite Hnone. }
  rewrite H1, H2. unfold Spec.InvalidCredentials.
  split; [reflexivity|]. split; [auto|]. discriminate.
Qed.

End LoginClaims.

Section LoginWitness.

Import Sample.

(** The password 123456 sent as a number, for the email of [u1] and for
    an email nobody has. *)
Lemma login_tells_accounts_apart_witness :
  let password := Js.Number (S754_finite false 123456 0) in
  let body1 := [("email", Js.Str "a@x.com"); ("password", password)] in
  let body2 := [("email", Js.Str "nobody@x.com"); ("password", password)] in
  User_findOne_email lowercase trim Sample.db "a@x.com" = Some Sample.mentee1
  /\ User_findOne_email lowercase trim Sample.db "nobody@x.com" = None
  /\ AuthController.login lowercase trim compare token email_filter
                          Sample.db body1 0
     = fail 500 "Illegal arguments: number, string"
  /\ AuthController.login lowercase trim compare token email_filter
                          Sample.db body2 0
     = fail 401 "Invalid credentials".
Proof.
  intros password body1 body2.
  assert ("a@x.com" <> "") as Hn1 by discriminate.
  assert ("nobody@x.com" <> "") as Hn2 by discriminate.
  assert (Js.typeof password <> "string") as Hty by discriminate.
  destruct (login_tells_accounts_apart lowercase trim compare token
              email_filter Sample.db body1 "a@x.com" body2 "nobody@x.com"
              password Sample.mentee1 0
              eq_refl Hn1 eq_refl Hn2 eq_refl eq_refl eq_refl Hty
              eq_refl eq_refl) as (H1 & _ & _).
  split; [reflexivity|]. split; [reflexivity|].
  split; [exact H1|reflexivity].
Defined.

(** Typed as strings, a refused password and an unknown email look
    alike, the email of [u1] being found in capitals too. *)
Example login_failures_with_strings :
  AuthController.login lowercase trim compare token email_filter Sample.db
    [("email", Js.Str "A@X.com"); ("password", Js.Str "wrong")] 0
  = fail 401 "Invalid credentials"
  /\ AuthController.login lowercase trim compare token email_filter Sample.db
       [("email", Js.Str "nobody@x.com"); ("password", Js.Str "a")] 0
     = fail 401 "Invalid credentials".
Proof. split; reflexivity. Qed.

(** The right password does log in. *)
Example login_success :
  AuthController.login lowercase trim compare token email_filter Sample.db
    [("email", Js.Str "a@x.com"); ("password", Js.Str "a")] 0
  = ok 200 (LoginData "token-u1" "u1" "a@x.com" "mentee" true).
Proof. reflexivity. Qed.

(** A request without a password is a validation failure, not a
    credentials failure, whoever the email belongs to. *)
Example login_missing_password :
  AuthController.login lowercase trim compare token email_filter Sample.db
    [("email", Js.Str "a@x.com")] 0
  = fail 400 "Please provide email and password".
Proof. reflexivity. Qed.

End LoginWitness.

(** ** Client cache *)

Section Cache.

Import ApiService.

Variables (opts : MergedOptions) (st prev : APIServiceState) (now now' : Z)
          (call : settled) (options : ExecuteOptions).

(** The test guarding the early return of [execute], read as a
    proposition. *)
Lemma cache_test_spec :
  (negb (skipCache options)
   && match lastUpdated st with
      | Some t => negb (t =? 0) && (now - t <? m_cacheTime opts)
      | None => false
      end
   && truthy (data st)) = true
  <-> skipCache options = false /\ Spec.cache_usable opts st now.
Proof.
  unfold Spec.cache_usable. split.
  - intros H. apply andb_prop in H. destruct H as [H Hd].
    apply andb_prop in H. destruct H as [Hs Ht].
    destruct (lastUpdated st) as [t|]; [|discriminate Ht].
    apply andb_prop in Ht. destruct Ht as [Hz Hw].
    apply negb_true_iff in Hs. apply negb_true_iff in Hz.
    apply Z.eqb_neq in Hz. apply Z.ltb_lt in Hw.
    split; [assumption|]. split; [assumption|]. exists t. auto.
  - intros (Hs & Hd & t & Ht & Hz & Hw). rewrite Hs, Ht, Hd.
    apply Z.eqb_neq in Hz. apply Z.ltb_lt in Hw. now rewrite Hz, Hw.
Qed.

Lemma execute_hit :
  skipCache options = false -> Spec.cache_usable opts st now ->
  execute opts st prev now now' call options
  = mkRun (Return (data st)) prev 0 [].
Proof.
  intros Hs Hc. unfold execute.
  now rewrite (proj2 cache_test_spec (conj Hs Hc)).
Qed.

(** Every path through the [catch] block keeps [data] and [lastUpdated]
    and records a message. *)
Lemma execute_catch_keeps p e :
  let run := execute_catch opts p e in
  networkCalls run = 1%nat
  /\ result run = Throw e
  /\ data (state' run) = data p
  /\ lastUpdated (state' run) = lastUpdated p
  /\ isLoading (state' run) = false
  /\ error (state' run) = Some (handleError e (m_errorMessage opts)).
Proof. simpl. auto 6. Qed.

(** A run that went through the [catch] block. *)
Ltac through_catch e :=
  let H := fresh "H" in
  let Hn := fresh "Hn" in
  let Hr := fresh "Hr" in
  let Hk := fresh "Hk" in
  pose proof (execute_catch_keeps
                (mkState (data prev) true None (lastUpdated prev)) e) as H;
  cbv zeta in *; destruct H as (Hn & Hr & Hk);
  split; [exact Hn|]; split;
  [ intros ? Hv; rewrite Hr in Hv; discriminate Hv
  | intros ? He; rewrite Hr in He; inversion He; subst; exact Hk ].

Lemma execute_miss :
  skipCache options = true \/ ~ Spec.cache_usable opts st now ->
  let run := execute opts st prev now now' call options in
  networkCalls run = 1%nat
  /\ (forall v, result run = Return v ->
        call = Resolved v
        /\ (exists d, Spec.stored options v d
                      /\ state' run = mkState d false None (Some now')))
  /\ (forall e, result run = Throw e ->
        data (state' run) = data prev
        /\ lastUpdated (state' run) = lastUpdated prev
        /\ isLoading (state' run) = false
        /\ error (state' run) = Some (handleError e (m_errorMessage opts))).
Proof.
  intros Hmiss. unfold execute.
  match goal with |- context [if ?c then _ else _] => destruct c eqn:Htest end.
  { apply cache_test_spec in Htest. destruct Htest as [Hs Hc].
    destruct Hmiss as [Hk | Hn]; [congruence | contradiction]. }
  destruct call as [v | e]; [|through_catch e].
  destruct (truthy v && success_is_false v).
  { through_catch
      (ThrownError
         (Js.or_else (str_field v "message")
            (Js.or_else (str_field v "error") (m_errorMessage opts)))). }
  unfold Spec.stored. destruct (transform options) as [f|].
  - destruct (f v) as [d | e] eqn:Hf; [|through_catch e].
    simpl. split; [reflexivity|]. split.
    + intros v' Hv'. inversion Hv'; subst. split; [reflexivity|].
      exists d. auto.
    + intros e' He'. discriminate.
  - simpl. split; [reflexivity|]. split.
    + intros v' Hv'. inversion Hv'; subst. split; [reflexivity|].
      exists v'. auto.
    + intros e' He'. discriminate.
Qed.

End Cache.

Section CacheClaims.

Import ApiService.

Lemma refresh_calls opts st prev now now' call :
  networkCalls (refresh opts st prev now now' call) = 1%nat.
Proof.
  unfold refresh.
  apply (execute_miss opts st prev now now' call (mkExec None true)).
  left. reflexivity.
Qed.

(** C7 fails as stated when what was fetched is falsy.  A view starts
    with no data, fetches, and the API answers [null]; the hook records
    the time.  A second fetch a second later, far inside the five-minute
    window and without [skipCache], calls the API again. *)
Lemma execute_refetches_falsy_data :
  let opts := mergedOptions noOptions in
  let plain := mkExec None false in
  let st0 := initialState Null in
  let run1 := execute opts st0 st0 1000 1001 (Resolved Null) plain in
  let st1 := state' run1 in
  let run2 := execute opts st1 st1 2000 2001 (Resolved Null) plain in
  lastUpdated (state' run1) = Some 1001
  /\ 2000 - 1001 < m_cacheTime opts
  /\ m_cacheTime opts = 5 * 60 * 1000
  /\ skipCache plain = false
  /\ networkCalls run1 = 1%nat
  /\ networkCalls run2 = 1%nat.
Proof. cbv. repeat split; reflexivity. Qed.

(** C7, amended.  The threshold is [cacheTime], five minutes unless
    configured and thirty seconds for the mentor dashboard.  A fetch
    without [skipCache], made while the hook holds truthy data fetched
    at a recorded time less than [cacheTime] ago, returns that data,
    leaves the state alone and makes no network call.  Any other fetch
    makes the network call once: if it returns, the data is replaced by
    what the call delivered (transformed when a transform is given) and
    [lastUpdated] is the time the response was stored; if it throws, the
    message is recorded and data and [lastUpdated] stay.  A refresh
    always makes the network call.  ([st] is the state the call reads,
    [prev] the state its updates apply to; they are one state for a call
    made after the component has re-rendered.) *)
Theorem execute_cache_policy opts st prev now now' call options :
  m_cacheTime (mergedOptions noOptions) = 5 * 60 * 1000
  /\ m_cacheTime (mergedOptions mentorDashboardOptions) = 30 * 1000
  /\ (skipCache options = false -> Spec.cache_usable opts st now ->
        execute opts st prev now now' call options
        = mkRun (Return (data st)) prev 0 [])
  /\ (skipCache options = true \/ ~ Spec.cache_usable opts st now ->
        let run := execute opts st prev now now' call options in
        networkCalls run = 1%nat
        /\ (forall v, result run = Return v ->
              call = Resolved v
              /\ exists d, Spec.stored options v d
                           /\ state' run = mkState d false None (Some now'))
        /\ (forall e, result run = Throw e ->
              data (state' run) = data prev
              /\ lastUpdated (state' run) = lastUpdated prev
              /\ isLoading (state' run) = false
              /\ error (state' run)
                 = Some (handleError e (m_errorMessage opts))))
  /\ networkCalls (refresh opts st prev now now' call) = 1%nat.
Proof.
  split; [reflexivity|]. split; [reflexivity|]. split; [|split].
  - apply execute_hit.
  - apply execute_miss.
  - apply refresh_calls.
Qed.

End CacheClaims.

Section CacheWitness.

Import ApiService.

(** The mentor dashboard: a fetch 19 seconds after the last one is served
    from the hook, one 39 seconds after it goes to the network, and so
    does a refresh at any time. *)
Lemma execute_cache_policy_witness :
  let opts := mergedOptions mentorDashboardOptions in
  let st := Sample.dashboard_state in
  let plain := mkExec None false in
  Spec.cache_usable opts st 20000
  /\ ~ Spec.cache_usable opts st 40000
  /\ execute opts st st 20000 20001 (Resolved Sample.dashboard_reply) plain
     = mkRun (Return (data st)) st 0 []
  /\ networkCalls
       (execute opts st st 40000 40001 (Resolved Sample.dashboard_reply) plain)
     = 1%nat
  /\ networkCalls
       (refresh opts st st 20000 20001 (Resolved Sample.dashboard_reply))
     = 1%nat.
Proof.
  intros opts st plain.
  assert (Spec.cache_usable opts st 20000) as Hin.
  { split; [reflexivity|]. exists 1000.
    split; [reflexivity|]. split; [discriminate|reflexivity]. }
  assert (~ Spec.cache_usable opts st 40000) as Hout.
  { intros (_ & t & Ht & _ & Hw). inversion Ht; subst t.
    vm_compute in Hw. discriminate Hw. }
  split; [exact Hin|]. split; [exact Hout|].
  destruct (execute_cache_policy opts st st 20000 20001
              (Resolved Sample.dashboard_reply) plain)
    as (_ & _ & Hhit & _ & Hrefresh).
  destruct (execute_cache_policy opts st st 40000 40001
              (Resolved Sample.dashboard_reply) plain)
    as (_ & _ & _ & Hmiss & _).
  split; [exact (Hhit eq_refl Hin)|].
  split; [exact (proj1 (Hmiss (or_intror Hout)))|exact Hrefresh].
Defined.

(** What the second fetch stores. *)
Example dashboard_refetch :
  state' (execute (mergedOptions mentorDashboardOptions)
            Sample.dashboard_state Sample.dashboard_state 40000 40001
            (Resolved Sample.dashboard_reply) (mkExec None false))
  = mkState Sample.dashboard_reply false None (Some 40001).
Proof. reflexivity. Qed.

(** A failed call keeps what was fetched before. *)
Example dashboard_failed_refresh :
  state' (refresh (mergedOptions mentorDashboardOptions)
            Sample.dashboard_state Sample.dashboard_state 20000 20001
            (Rejected (ThrownError "Network Error")))
  = mkState (data Sample.dashboard_state) false
            (Some "Failed to load dashboard data") (Some 1000).
Proof. reflexivity. Qed.

End CacheWitness.

(** ** Health check *)

Section HealthClaims.

Import Health.

(** C9.  A process that has its [package.json] answers the health check
    with HTTP 200 whatever the state of the database, connected or not,
    answering the ping or not; the health is in the body's status: "up"
    when the connection is ready and the ping answers, "degraded"
    otherwise. *)
Theorem health_always_200 env version :
  package_json env = inr version ->
  fst (Health.get env) = 200%nat
  /\ body_status (snd (Health.get env))
     = (if Nat.eqb (readyState env) 1 && ping_resolves env
        then "up" else "degraded")
  /\ (readyState env <> 1%nat \/ ping_resolves env = false ->
      body_status (snd (Health.get env)) = "degraded").
Proof.
  intros Hp. unfold Health.get, pingDatabase, getMongoStatus. rewrite Hp.
  cbn [fst snd body_status connected].
  split; [reflexivity|]. split.
  - destruct (Nat.eqb (readyState env) 1); reflexivity.
  - intros [Hr | Hping].
    + apply Nat.eqb_neq in Hr. now rewrite Hr.
    + destruct (Nat.eqb (readyState env) 1); cbn [negb andb];
        [now rewrite Hping|reflexivity].
Qed.

Lemma health_always_200_witness :
  package_json Sample.env_disconnected = inr "1.0.0"
  /\ readyState Sample.env_disconnected <> 1%nat
  /\ fst (Health.get Sample.env_disconnected) = 200%nat
  /\ body_status (snd (Health.get Sample.env_disconnected)) = "degraded".
Proof.
  assert (readyState Sample.env_disconnected <> 1%nat) as Hr
      by discriminate.
  destruct (health_always_200 Sample.env_disconnected "1.0.0" eq_refl)
    as (H200 & _ & Hdegraded).
  split; [reflexivity|]. split; [exact Hr|].
  split; [exact H200|exact (Hdegraded (or_introl Hr))].
Defined.

Example health_up :
  fst (Health.get Sample.env_up) = 200%nat
  /\ body_status (snd (Health.get Sample.env_up)) = "up".
Proof. split; reflexivity. Qed.

(** The handler's [catch]: a process whose [package.json] cannot be
    loaded answers 500 with status "down" and the message of the
    error. *)
Example health_catch :
  Health.get Sample.env_no_package
  = (500%nat,
     Down "down" "2025-01-01T00:00:00.000Z"
          "Cannot find module '../package.json'").
Proof. reflexivity. Qed.

End HealthClaims.

(** ** Notification poller *)

Section Poller.

Import IssueNotifications.

(** The check counts an issue as old from two days and one millisecond
    on: rounding the elapsed days up and comparing with [>=] reaches the
    threshold of 3 as soon as two days are exceeded. *)
Lemma diffDays_threshold now createdAt :
  DAYS_THRESHOLD <= diffDays now createdAt
  <-> 2 * msPerDay < Z.abs (now - createdAt).
Proof.
  unfold diffDays, DAYS_THRESHOLD, msPerDay.
  set (d := Z.abs (now - createdAt)).
  change (1000 * 60 * 60 * 24) with 86400000.
  split; intros H.
  - destruct (Z_lt_le_dec (2 * 86400000) d) as [Hlt | Hle]; [assumption|].
    assert ((d + 86400000 - 1) / 86400000 < 3).
    { apply Z.div_lt_upper_bound; lia. }
    lia.
  - apply Z.div_le_lower_bound; lia.
Qed.

Lemma isOldPending_spec now issue :
  isOldPending now issue = true
  <-> (f_status issue = "Open" \/ f_status issue = "Under Review")
      /\ 2 * msPerDay < Z.abs (now - f_createdAt issue).
Proof.
  unfold isOldPending. rewrite <- diffDays_threshold.
  destruct (String.eqb_spec (f_status issue) "Open") as [E1 | E1];
    destruct (String.eqb_spec (f_status issue) "Under Review") as [E2 | E2];
    cbn [negb andb]; rewrite ?Z.leb_le; try tauto.
  split; [discriminate|tauto].
Qed.

(** A toast is shown only by a closure that believes none was shown, on
    a successful fetch holding at least one old pending issue. *)
Lemma toast_needs_old_issue h response now n :
  shownToast (checkPendingIssues h response now) = Some n ->
  h = false
  /\ exists issues,
      response = Fetched true issues
      /\ n = List.length (filter (isOldPending now) issues)
      /\ exists i, In i issues /\ isOldPending now i = true.
Proof.
  unfold checkPendingIssues.
  destruct h; [discriminate|].
  destruct response as [|[|] issues]; try discriminate.
  destruct (filter (isOldPending now) issues) as [|i l] eqn:E;
    [discriminate|].
  cbn. intros H. inversion H; subst n. split; [reflexivity|].
  exists issues. rewrite E. split; [reflexivity|]. split; [reflexivity|].
  exists i. apply filter_In. rewrite E. now left.
Qed.

(** The interval keeps the closure of the mounting render. *)
Lemma tick_keeps_closure c response now :
  intervalClosure (tick c response now) = intervalClosure c.
Proof.
  unfold tick. destruct (intervalClosure c) eqn:E; [|assumption].
  unfold apply_effects. simpl. assumption.
Qed.

Lemma session_closure first ticks :
  intervalClosure (session true first ticks) = Some false.
Proof.
  unfold session.
  assert (intervalClosure (mount true (fst first) (snd first)) = Some false)
    as H0 by reflexivity.
  revert H0. generalize (mount true (fst first) (snd first)).
  induction ticks as [|t ticks IH]; intros c Hc; simpl; [assumption|].
  apply IH. now rewrite tick_keeps_closure.
Qed.

(** Hence every firing that fetches an old pending issue shows a toast,
    whatever the session has shown before. *)
Lemma tick_shows_again first ticks issues now i :
  In i issues -> isOldPending now i = true ->
  let c := session true first ticks in
  shown (tick c (Fetched true issues) now)
  = (shown c ++ [List.length (filter (isOldPending now) issues)])%list.
Proof.
  intros Hin Hold c. unfold tick. unfold c at 1.
  rewrite session_closure. unfold checkPendingIssues.
  destruct (filter (isOldPending now) issues) as [|x l] eqn:E.
  - assert (In i (filter (isOldPending now) issues)) as Hf
        by (apply filter_In; auto).
    rewrite E in Hf. contradiction.
  - reflexivity.
Qed.

(** C8 against the code.  A mentor session is mounted four days after an
    issue was opened and the issue is still open when the interval fires
    an hour later: the notification is shown at the mount and shown
    again at the firing, although the state cell says it was shown. *)
Theorem poller_notifies_twice :
  let day := msPerDay in
  let c0 := mount true (Fetched true [Sample.pending]) (4 * day) in
  let c1 := tick c0 (Fetched true [Sample.pending]) (4 * day + Sample.hour) in
  shown c0 = [1%nat]
  /\ hasShownNotifications c0 = true
  /\ shown c1 = [1%nat; 1%nat]
  /\ polls c1 = 2%nat
  /\ c1 = session true (Fetched true [Sample.pending], 4 * day)
            [(Fetched true [Sample.pending], 4 * day + Sample.hour)].
Proof. cbv. repeat split; reflexivity. Qed.

(** An issue open for two days and one millisecond is announced as
    pending for more than 3 days. *)
Example poller_two_days_old :
  shown (mount true (Fetched true [Sample.pending]) (2 * msPerDay + 1))
  = [1%nat]
  /\ shown (mount true (Fetched true [Sample.pending]) (2 * msPerDay)) = [].
Proof. split; reflexivity. Qed.

(** Resolved and closed issues never count. *)
Example poller_ignores_resolved :
  shown (mount true (Fetched true [mkFetched "Resolved" 0;
                                   mkFetched "Closed" 0]) (9 * msPerDay))
  = [].
Proof. reflexivity. Qed.

End Poller.

(** * Further properties *)

(** ** Listings and single reads *)

Section ListingOrder.

Lemma insert_desc_sorted x l :
  SpecX.newest_first l -> SpecX.newest_first (insert_desc x l).
Proof.
  unfold SpecX.newest_first.
  induction l as [|y l IH]; intros Hs; simpl.
  - constructor; constructor.
  - inversion Hs as [|? ? Hl Hy]; subst.
    destruct (i_createdAt y <? i_createdAt x) eqn:E.
    + apply Z.ltb_lt in E. constructor; [assumption|].
      constructor; [lia|].
      eapply Forall_impl; [|exact Hy]. simpl. intros; lia.
    + apply Z.ltb_ge in E. constructor; [auto|].
      apply Forall_forall. intros z Hz. apply insert_desc_In in Hz.
      destruct Hz as [-> | Hz]; [assumption|].
      rewrite Forall_forall in Hy. auto.
Qed.

Lemma sort_createdAt_desc_sorted l :
  SpecX.newest_first (sort_createdAt_desc l).
Proof.
  induction l as [|x l IH]; simpl.
  - constructor.
  - now apply insert_desc_sorted.
Qed.

(** X1.  Both issue listings are newest first, hold every matching stored
    issue exactly as often as it is stored (mentor: the issues whose
    [mentor] is the caller; mentee: those whose [mentee] is the caller),
    and [count] is the length of the list. *)
Theorem listings_complete_and_ordered db caller :
  (let r := MenteeController.getIssues db caller in
   SpecX.newest_first (Spec.listed r)
   /\ Permutation (Issue_find_mentee db caller) (Spec.listed r)
   /\ payload r = IssueList (List.length (Issue_find_mentee db caller))
                            (Spec.listed r))
  /\ (forall mentor,
        User_findById db caller = Some mentor ->
        let r := MentorController.getIssues db caller in
        SpecX.newest_first (Spec.listed r)
        /\ Permutation (Issue_find_mentor db caller) (Spec.listed r)
        /\ exists items,
            payload r = PopulatedIssueList
                          (List.length (Issue_find_mentor db caller)) items
            /\ map p_issue items = Spec.listed r).
Proof.
  split.
  - unfold MenteeController.getIssues, Spec.listed. cbn [payload ok].
    split; [apply sort_createdAt_desc_sorted|].
    split; [apply sort_createdAt_desc_perm|].
    f_equal. symmetry. apply Permutation_length, sort_createdAt_desc_perm.
  - intros mentor Hm. unfold MentorController.getIssues, Spec.listed.
    rewrite Hm. cbn [payload ok].
    rewrite map_map. cbn [populate_mentee p_issue]. rewrite map_id.
    split; [apply sort_createdAt_desc_sorted|].
    split; [apply sort_createdAt_desc_perm|].
    eexists. split.
    + f_equal. rewrite length_map. symmetry.
      apply Permutation_length, sort_createdAt_desc_perm.
    + rewrite map_map. cbn [populate_mentee p_issue]. apply map_id.
Qed.

Lemma listings_complete_and_ordered_witness :
  User_findById Sample.db "m1" = Some Sample.mentor1
  /\ SpecX.newest_first (Spec.listed (MentorController.getIssues Sample.db "m1"))
  /\ Permutation (Issue_find_mentor Sample.db "m1")
                 (Spec.listed (MentorController.getIssues Sample.db "m1")).
Proof.
  split; [reflexivity|].
  destruct (proj2 (listings_complete_and_ordered Sample.db "m1")
                  Sample.mentor1 eq_refl) as (H1 & H2 & _).
  split; assumption.
Defined.

End ListingOrder.

Section SingleRead.

Import Reads.

Variable castError : string -> option string.


End SingleRead.

Section SingleReadWitness.

Import Reads.


End SingleReadWitness.

(** ** Issues: creation, statuses, parties *)

Section IssueStore.

Import Reads.

Lemma find_app_found {A} (f : A -> bool) l l' a :
  find f l = Some a -> find f (l ++ l') = Some a.
Proof.
  induction l as [|x l IH]; simpl; [discriminate|].
  destruct (f x); auto.
Qed.

Lemma find_app_fresh {A} (f : A -> bool) l l' :
  find f l = None -> find f (l ++ l') = find f l'.
Proof.
  induction l as [|x l IH]; simpl; [reflexivity|].
  destruct (f x); [discriminate|auto].
Qed.

Lemma enum_not_empty xs s :
  In s xs -> ~ In "" xs -> String.eqb s "" = false.
Proof.
  intros Hin Hnot. apply String.eqb_neq. intros ->. contradiction.
Qed.

(** A well-formed request of an assigned mentee creates the issue the
    request describes. *)
Lemma createIssue_ok db caller mentee m body newId now ty desc :
  User_findById db caller = Some mentee ->
  assignedMentor mentee = Some m ->
  Js.get body "issueType" = Some ty -> In ty issueType_enum ->
  Js.get body "description" = Some desc -> desc <> "" ->
  Js.get body "status" = None ->
  Js.get body "mentee" = None -> Js.get body "mentor" = None ->
  let issue := mkIssue newId caller m ty desc "Open" [] now now in
  MenteeController.createIssue db caller body newId now
  = (ok 201 (IssueData issue),
     mkDB (users db) (issues db ++ [issue]) (achievements db)).
Proof.
  intros Hu Ha Hty Hin Hd Hne Hs Hme Hmo issue.
  unfold MenteeController.createIssue.
  rewrite Hu, Ha, Hty, Hd, Hs, Hme, Hmo. cbn [required_in optional_in opt_default].
  rewrite (proj2 (includes_In _ _) Hin).
  rewrite (enum_not_empty issueType_enum ty Hin)
    by (simpl; intuition discriminate).
  unfold Js.truthy, Js.falsy. apply String.eqb_neq in Hne. rewrite Hne.
  reflexivity.
Qed.

(** X3.  An issue created by an assigned mentee (the body giving a valid
    type and a description, and none of [status], [mentee], [mentor],
    [_id], [comments], [createdAt] and [updatedAt]) under an unused,
    valid [_id] is stored open and without comments, with the caller as
    mentee and the caller's assigned mentor as mentor; after the call
    both of them read it, singly and in their listings, and nobody else
    can read it. *)
Theorem created_issue_is_read_by_both
        castError db caller mentee m body newId now ty desc :
  User_findById db caller = Some mentee ->
  assignedMentor mentee = Some m ->
  Js.get body "issueType" = Some ty -> In ty issueType_enum ->
  Js.get body "description" = Some desc -> desc <> "" ->
  Js.get body "status" = None ->
  Js.get body "mentee" = None -> Js.get body "mentor" = None ->
  Js.get body "_id" = None -> Js.get body "comments" = None ->
  Js.get body "createdAt" = None -> Js.get body "updatedAt" = None ->
  Issue_findById db newId = None ->
  castError newId = None ->
  let issue := mkIssue newId caller m ty desc "Open" [] now now in
  let run := MenteeController.createIssue db caller body newId now in
  fst run = ok 201 (IssueData issue)
  /\ r_data (mentee_getIssue castError (snd run) caller newId)
     = Some (mkDetails issue None [])
  /\ (exists d, r_data (mentor_getIssue castError (snd run) m newId) = Some d
                /\ d_issue d = issue /\ d_authors d = [])
  /\ In issue (Spec.listed (MenteeController.getIssues (snd run) caller))
  /\ (forall mentor, User_findById db m = Some mentor ->
        In issue (Spec.listed (MentorController.getIssues (snd run) m)))
  /\ (forall other, other <> caller ->
        r_code (mentee_getIssue castError (snd run) other newId) = 403%nat)
  /\ (forall other, other <> m ->
        r_code (mentor_getIssue castError (snd run) other newId) = 403%nat).
Proof.
  intros Hu Ha Hty Hin Hd Hne Hs Hme Hmo _ _ _ _ Hfresh Hcast issue run.
  unfold run.
  rewrite (createIssue_ok db caller mentee m body newId now ty desc)
    by assumption.
  cbn [fst snd]. fold issue.
  set (db' := mkDB (users db) (issues db ++ [issue]) (achievements db)).
  assert (Issue_findById db' newId = Some issue) as Hfind.
  { unfold Issue_findById, db'. cbn [issues].
    rewrite find_app_fresh by exact Hfresh.
    simpl. now rewrite String.eqb_refl. }
  assert (In issue (issues db')) as Hstored.
  { unfold db'. cbn [issues]. apply in_or_app. right. now left. }
  split; [reflexivity|].
  split.
  { unfold mentee_getIssue. rewrite Hcast, Hfind. cbn.
    now rewrite String.eqb_refl. }
  split.
  { unfold mentor_getIssue. rewrite Hcast, Hfind. cbn.
    rewrite String.eqb_refl.
    cbn. eexists. split; [reflexivity|]. split; reflexivity. }
  split.
  { apply mentee_listing. split; [exact Hstored|reflexivity]. }
  split.
  { intros mentor Hm. unfold MentorController.getIssues.
    change (User_findById db' m) with (User_findById db m). rewrite Hm.
    unfold Spec.listed. cbn [payload ok].
    rewrite map_map. cbn [populate_mentee p_issue]. rewrite map_id.
    apply sort_createdAt_desc_In. unfold Issue_find_mentor.
    apply filter_In. split; [exact Hstored|]. cbn. apply String.eqb_refl. }
  split.
  - intros other Hother. unfold mentee_getIssue. rewrite Hcast, Hfind. cbn.
    assert (String.eqb caller other = false) as ->
        by (apply String.eqb_neq; congruence).
    reflexivity.
  - intros other Hother. unfold mentor_getIssue. rewrite Hcast, Hfind. cbn.
    assert (String.eqb m other = false) as ->
        by (apply String.eqb_neq; congruence).
    reflexivity.
Qed.

Lemma created_issue_is_read_by_both_witness :
  let body := [("issueType", "Academic"); ("description", "d")] in
  let issue := mkIssue "i9" "u1" "m1" "Academic" "d" "Open" [] 900 900 in
  let run := MenteeController.createIssue Sample.db "u1" body "i9" 900 in
  Issue_findById Sample.db "i9" = None
  /\ fst run = ok 201 (IssueData issue)
  /\ r_data (mentee_getIssue Sample.castError (snd run) "u1" "i9")
     = Some (mkDetails issue None [])
  /\ r_code (mentee_getIssue Sample.castError (snd run) "u2" "i9") = 403%nat.
Proof.
  intros body issue run.
  assert (Issue_findById Sample.db "i9" = None) as Hfresh by reflexivity.
  assert (In "Academic" issueType_enum) as Hin by (simpl; auto).
  assert ("d" <> "") as Hne by discriminate.
  assert ("u2" <> "u1") as Hother by discriminate.
  destruct (created_issue_is_read_by_both Sample.castError
              Sample.db "u1" Sample.mentee1 "m1"
              body "i9" 900 "Academic" "d"
              eq_refl eq_refl eq_refl Hin eq_refl Hne eq_refl eq_refl eq_refl
              eq_refl eq_refl eq_refl eq_refl
              Hfresh eq_refl) as (H1 & H2 & _ & _ & _ & H6 & _).
  split; [exact Hfresh|]. split; [exact H1|]. split; [exact H2|].
  exact (H6 "u2" Hother).
Defined.

Lemma Forall_replace_issue (P : Issue -> Prop) doc l :
  Forall P l -> P doc -> Forall P (replace_issue doc l).
Proof.
  intros Hl Hd. induction Hl as [|x l Hx Hl IH]; simpl; [constructor|].
  destruct (String.eqb (i_id x) (i_id doc)); constructor; auto.
Qed.

(** X4.  If every stored issue has one of the four statuses before a
    call of [createIssue], of either [addComment] or of [assignMentee],
    every stored issue has one after it, whatever the request. *)
Theorem statuses_stay_valid lowercase trim db caller issueId body newId now :
  SpecX.statuses_valid db ->
  SpecX.statuses_valid
    (snd (MenteeController.createIssue db caller body newId now))
  /\ SpecX.statuses_valid
       (snd (MenteeController.addComment db caller issueId body now))
  /\ SpecX.statuses_valid
       (snd (MentorController.addComment db caller issueId body now))
  /\ SpecX.statuses_valid (snd (MentorController.assignMentee lowercase trim db caller body)).
Proof.
  unfold SpecX.statuses_valid. intros Hv. split; [|split; [|split]].
  - unfold MenteeController.createIssue.
    destruct (User_findById db caller) as [mentee|]; [|exact Hv].
    destruct (assignedMentor mentee) as [m|]; [|exact Hv].
    destruct (required_in issueType_enum (Js.get body "issueType")
              && Js.truthy (Js.get body "description")) ; [|exact Hv].
    cbn [andb].
    destruct (optional_in status_enum (Js.get body "status")) eqn:Hs;
      [|exact Hv].
    cbn [snd issues]. apply Forall_app. split; [exact Hv|].
    constructor; [|constructor]. cbn [status].
    unfold optional_in in Hs.
    destruct (Js.get body "status") as [s|]; cbn [opt_default].
    + now apply includes_In.
    + simpl. auto.
  - unfold MenteeController.addComment.
    destruct (Js.get body "text") as [text|]; [|exact Hv].
    destruct (String.eqb text ""); [exact Hv|].
    destruct (Issue_findById db issueId) as [issue|] eqn:Hi; [|exact Hv].
    destruct (negb (String.eqb (i_mentee issue) caller)); [exact Hv|].
    cbn [snd Issue_save issues]. apply Forall_replace_issue; [exact Hv|].
    cbn [status]. apply Issue_findById_id in Hi. destruct Hi as [_ Hin].
    rewrite Forall_forall in Hv. now apply Hv.
  - unfold MentorController.addComment.
    destruct (Js.get body "text") as [text|]; [|exact Hv].
    destruct (String.eqb text ""); [exact Hv|].
    destruct (Issue_findById db issueId) as [issue|] eqn:Hi; [|exact Hv].
    destruct (negb (String.eqb (i_mentor issue) caller)); [exact Hv|].
    cbn [snd Issue_save issues]. apply Forall_replace_issue; [exact Hv|].
    cbn [status]. apply Issue_findById_id in Hi. destruct Hi as [_ Hin].
    rewrite Forall_forall in Hv.
    destruct (Js.truthy (Js.get body "status")); cbn [andb]; [|now apply Hv].
    destruct (Js.includes status_enum (opt_default (Js.get body "status") ""))
      eqn:Hs; [|now apply Hv].
    now apply includes_In.
  - unfold MentorController.assignMentee.
    destruct (Js.get body "email") as [e|]; [|exact Hv].
    destruct (String.eqb e ""); [exact Hv|].
    destruct (User_findOne_email_role lowercase trim db e "mentee")
      as [mentee|]; [|exact Hv].
    destruct (assignedMentor mentee); [exact Hv|].
    destruct (User_findById db caller) as [mentor|]; [|exact Hv].
    destruct (Js.includes (mentees mentor) (u_id mentee)); exact Hv.
Qed.

Lemma statuses_stay_valid_witness :
  SpecX.statuses_valid Sample.db
  /\ SpecX.statuses_valid
       (snd (MentorController.addComment Sample.db "m1" "i1"
               [("text", "ok"); ("status", "Escalated")] 1000)).
Proof.
  assert (SpecX.statuses_valid Sample.db) as Hv.
  { unfold SpecX.statuses_valid. cbn [issues Sample.db].
    repeat (apply Forall_cons; [simpl; tauto|]). apply Forall_nil. }
  split; [exact Hv|].
  exact (proj1 (proj2 (proj2
           (statuses_stay_valid Sample.lowercase Sample.trim Sample.db
              "m1" "i1"
              [("text", "ok"); ("status", "Escalated")] "i9" 1000 Hv)))).
Defined.

End IssueStore.

Section Parties.

Lemma same_parties_refl issue : SpecX.same_parties issue issue.
Proof. unfold SpecX.same_parties. repeat split; reflexivity. Qed.

Lemma parties_kept_refl db : SpecX.parties_kept db db.
Proof.
  intros id issue H. exists issue. split; [exact H|apply same_parties_refl].
Qed.

Lemma parties_kept_save db issue issue' :
  Issue_findById db (i_id issue') = Some issue ->
  SpecX.same_parties issue issue' ->
  SpecX.parties_kept db (Issue_save db issue').
Proof.
  intros Hf Hs id i0 Hi0.
  destruct (String.eqb_spec id (i_id issue')) as [-> | Hne].
  - exists issue'. split.
    + eapply Issue_save_found; [exact Hf|reflexivity].
    + rewrite Hf in Hi0. inversion Hi0; subst. exact Hs.
  - exists i0. split; [|apply same_parties_refl].
    rewrite <- Hi0. now apply Issue_save_others.
Qed.

(** X5.  No call of [createIssue], of either [addComment] or of
    [assignMentee] changes the mentee, the mentor, the type, the
    description or the creation time of an issue that is stored: an issue
    keeps the parties it was created with, also when the mentee is
    assigned afterwards. *)
Theorem issue_parties_never_change
        lowercase trim db caller issueId body newId now :
  SpecX.parties_kept
    db (snd (MenteeController.createIssue db caller body newId now))
  /\ SpecX.parties_kept
       db (snd (MenteeController.addComment db caller issueId body now))
  /\ SpecX.parties_kept
       db (snd (MentorController.addComment db caller issueId body now))
  /\ issues (snd (MentorController.assignMentee lowercase trim db caller body)) = issues db.
Proof.
  split; [|split; [|split]].
  - unfold MenteeController.createIssue.
    destruct (User_findById db caller) as [mentee|];
      [|apply parties_kept_refl].
    destruct (assignedMentor mentee) as [m|]; [|apply parties_kept_refl].
    match goal with |- context [if ?c then _ else _] => destruct c end;
      [|apply parties_kept_refl].
    intros id issue Hf. exists issue. split; [|apply same_parties_refl].
    unfold Issue_findById in *. cbn [snd issues].
    now apply find_app_found.
  - unfold MenteeController.addComment.
    destruct (Js.get body "text") as [text|]; [|apply parties_kept_refl].
    destruct (String.eqb text ""); [apply parties_kept_refl|].
    destruct (Issue_findById db issueId) as [issue|] eqn:Hi;
      [|apply parties_kept_refl].
    destruct (negb (String.eqb (i_mentee issue) caller));
      [apply parties_kept_refl|].
    cbn [snd]. apply parties_kept_save with (issue := issue).
    + cbn [i_id]. destruct (Issue_findById_id _ _ _ Hi) as [-> _]. exact Hi.
    + unfold SpecX.same_parties. cbn. repeat split; reflexivity.
  - unfold MentorController.addComment.
    destruct (Js.get body "text") as [text|]; [|apply parties_kept_refl].
    destruct (String.eqb text ""); [apply parties_kept_refl|].
    destruct (Issue_findById db issueId) as [issue|] eqn:Hi;
      [|apply parties_kept_refl].
    destruct (negb (String.eqb (i_mentor issue) caller));
      [apply parties_kept_refl|].
    cbn [snd]. apply parties_kept_save with (issue := issue).
    + cbn [i_id]. destruct (Issue_findById_id _ _ _ Hi) as [-> _]. exact Hi.
    + unfold SpecX.same_parties. cbn. repeat split; reflexivity.
  - unfold MentorController.assignMentee.
    destruct (Js.get body "email") as [e|]; [|reflexivity].
    destruct (String.eqb e ""); [reflexivity|].
    destruct (User_findOne_email_role lowercase trim db e "mentee") as [mentee|];
      [|reflexivity].
    destruct (assignedMentor mentee); [reflexivity|].
    destruct (User_findById db caller) as [mentor|]; [|reflexivity].
    destruct (Js.includes (mentees mentor) (u_id mentee)); reflexivity.
Qed.

End Parties.

(** ** Assignment: both ends of the relation *)

Section UserStore.

Lemma User_findById_id db id u :
  User_findById db id = Some u -> u_id u = id /\ In u (users db).
Proof.
  unfold User_findById. intros H. apply find_some in H.
  destruct H as [Hin E]. apply String.eqb_eq in E. auto.
Qed.

Lemma findOne_email_role_In lowercase trim db e r u :
  User_findOne_email_role lowercase trim db e r = Some u ->
  In u (users db) /\ email u = email_setters lowercase trim e /\ role u = r.
Proof.
  unfold User_findOne_email_role. intros H. apply find_some in H.
  destruct H as [Hin E]. apply andb_prop in E. destruct E as [E1 E2].
  apply String.eqb_eq in E1, E2. auto.
Qed.

Lemma find_replace_user doc l id :
  find (fun u => String.eqb (u_id u) id) (replace_user doc l)
  = if String.eqb (u_id doc) id
    then match find (fun u => String.eqb (u_id u) id) l with
         | Some _ => Some doc
         | None => None
         end
    else find (fun u => String.eqb (u_id u) id) l.
Proof.
  induction l as [|x l IH]; simpl.
  - now destruct (String.eqb (u_id doc) id).
  - destruct (String.eqb_spec (u_id x) (u_id doc)) as [E | E]; simpl.
    + rewrite E. destruct (String.eqb (u_id doc) id); reflexivity.
    + destruct (String.eqb_spec (u_id x) id) as [E1 | E1].
      * destruct (String.eqb_spec (u_id doc) id) as [E2 | E2];
          [congruence|reflexivity].
      * exact IH.
Qed.

Lemma User_save_lookup db doc id :
  User_findById (User_save db doc) id
  = if String.eqb (u_id doc) id
    then match User_findById db id with
         | Some _ => Some doc
         | None => None
         end
    else User_findById db id.
Proof. unfold User_findById, User_save. simpl. apply find_replace_user. Qed.

Lemma unique_ids_lookup db u :
  SpecX.unique_ids db -> In u (users db) -> User_findById db (u_id u) = Some u.
Proof.
  unfold SpecX.unique_ids, User_findById.
  induction (users db) as [|x l IH]; simpl; [tauto|].
  intros Hnd [-> | Hin].
  - now rewrite String.eqb_refl.
  - inversion Hnd as [|? ? Hx Hl]; subst.
    destruct (String.eqb_spec (u_id x) (u_id u)) as [E | E]; [|auto].
    exfalso. apply Hx. rewrite E. now apply in_map.
Qed.

Lemma Forall_replace_user (P : User -> Prop) doc l :
  Forall P l -> P doc -> Forall P (replace_user doc l).
Proof.
  intros Hl Hd. induction Hl as [|x l Hx Hl IH]; simpl; [constructor|].
  destruct (String.eqb (u_id x) (u_id doc)); constructor; auto.
Qed.

Lemma map_u_id_replace_user doc l :
  map u_id (replace_user doc l) = map u_id l.
Proof.
  induction l as [|x l IH]; simpl; [reflexivity|].
  destruct (String.eqb_spec (u_id x) (u_id doc)) as [E | E]; simpl;
    congruence.
Qed.

Section Link.

Variables (db : DB) (mentor mentee : User).
Hypothesis Hm : User_findById db (u_id mentor) = Some mentor.
Hypothesis Hx : User_findById db (u_id mentee) = Some mentee.
Hypothesis Hne : u_id mentee <> u_id mentor.

(** What the store answers after the two saves. *)
Lemma linked_lookup id :
  User_findById (SpecX.linked db mentor mentee) id
  = if String.eqb (u_id mentee) id
    then Some (SpecX.assigned_to mentee (u_id mentor))
    else if String.eqb (u_id mentor) id
         then Some (SpecX.roster_plus mentor (u_id mentee))
         else User_findById db id.
Proof.
  unfold SpecX.linked. rewrite !User_save_lookup. cbn [u_id SpecX.assigned_to
    SpecX.roster_plus].
  destruct (String.eqb_spec (u_id mentee) id) as [E1 | E1].
  - subst id. assert (String.eqb (u_id mentor) (u_id mentee) = false) as ->
        by (apply String.eqb_neq; congruence).
    now rewrite Hx.
  - destruct (String.eqb_spec (u_id mentor) id) as [E2 | E2];
      [subst id; now rewrite Hm|reflexivity].
Qed.

Lemma linked_roster m x :
  (exists mu, User_findById (SpecX.linked db mentor mentee) m = Some mu
              /\ In x (mentees mu))
  <-> (exists mu, User_findById db m = Some mu /\ In x (mentees mu))
      \/ (m = u_id mentor /\ x = u_id mentee).
Proof.
  rewrite linked_lookup.
  destruct (String.eqb_spec (u_id mentee) m) as [E1 | E1].
  - subst m. split.
    + intros (mu & Hmu & Hin). inversion Hmu; subst mu.
      left. exists mentee. auto.
    + intros [(mu & Hmu & Hin) | [E _]]; [|congruence].
      rewrite Hx in Hmu. inversion Hmu; subst mu.
      eexists. split; [reflexivity|exact Hin].
  - destruct (String.eqb_spec (u_id mentor) m) as [E2 | E2].
    + subst m. split.
      * intros (mu & Hmu & Hin). inversion Hmu; subst mu.
        cbn in Hin. apply in_app_or in Hin. destruct Hin as [Hin | [<- | []]].
        -- left. exists mentor. auto.
        -- right. auto.
      * intros [(mu & Hmu & Hin) | [_ ->]].
        -- rewrite Hm in Hmu. inversion Hmu; subst mu.
           eexists. split; [reflexivity|]. cbn. apply in_or_app. now left.
        -- eexists. split; [reflexivity|]. cbn. apply in_or_app.
           right. now left.
    + split; [auto|]. intros [H | [E _]]; [exact H|congruence].
Qed.

Lemma linked_assigned m x :
  assignedMentor mentee = None ->
  (exists xu, User_findById (SpecX.linked db mentor mentee) x = Some xu
              /\ assignedMentor xu = Some m)
  <-> (exists xu, User_findById db x = Some xu /\ assignedMentor xu = Some m)
      \/ (m = u_id mentor /\ x = u_id mentee).
Proof.
  intros Hun. rewrite linked_lookup.
  destruct (String.eqb_spec (u_id mentee) x) as [E1 | E1].
  - subst x. split.
    + intros (xu & Hxu & Ha). inversion Hxu; subst xu. cbn in Ha.
      inversion Ha. right. auto.
    + intros [(xu & Hxu & Ha) | [-> _]].
      * rewrite Hx in Hxu. inversion Hxu; subst xu. congruence.
      * eexists. split; reflexivity.
  - destruct (String.eqb_spec (u_id mentor) x) as [E2 | E2].
    + subst x. split.
      * intros (xu & Hxu & Ha). inversion Hxu; subst xu. cbn in Ha.
        left. exists mentor. auto.
      * intros [(xu & Hxu & Ha) | [_ E]]; [|congruence].
        rewrite Hm in Hxu. inversion Hxu; subst xu.
        eexists. split; [reflexivity|exact Ha].
    + split; [auto|]. intros [H | [_ E]]; [exact H|congruence].
Qed.

Lemma linked_consistent :
  assignedMentor mentee = None ->
  SpecX.consistent db -> SpecX.consistent (SpecX.linked db mentor mentee).
Proof.
  intros Hun Hc m x. rewrite linked_roster, (linked_assigned m x Hun).
  rewrite (Hc m x). tauto.
Qed.

End Link.

End UserStore.

Section SampleFacts.

Lemma sample_unique_ids : SpecX.unique_ids Sample.db.
Proof.
  unfold SpecX.unique_ids. cbn.
  repeat (constructor; [simpl; intuition discriminate|]). constructor.
Qed.

Lemma sample_consistent : SpecX.consistent Sample.db.
Proof.
  intros m x. unfold User_findById. cbn [users Sample.db find u_id
    Sample.mentor1 Sample.mentee1 Sample.mentee2].
  split.
  - intros (mu & Hmu & Hin).
    destruct (String.eqb_spec "m1" m) as [<- | Em].
    + inversion Hmu; subst mu. cbn in Hin. destruct Hin as [<- | []].
      cbn. eexists. split; reflexivity.
    + destruct (String.eqb_spec "u1" m) as [<- | E1].
      * inversion Hmu; subst mu. destruct Hin.
      * destruct (String.eqb_spec "u2" m) as [<- | E2];
          [|discriminate].
        inversion Hmu; subst mu. destruct Hin.
  - intros (xu & Hxu & Ha).
    destruct (String.eqb_spec "m1" x) as [<- | Ex].
    + inversion Hxu; subst xu. discriminate Ha.
    + destruct (String.eqb_spec "u1" x) as [<- | E1].
      * inversion Hxu; subst xu. cbn in Ha. inversion Ha; subst m.
        cbn. eexists. split; [reflexivity|]. cbn. auto.
      * destruct (String.eqb_spec "u2" x) as [<- | E2];
          [|discriminate].
        inversion Hxu; subst xu. discriminate Ha.
Qed.

End SampleFacts.

Section AssignSuccess.

Variable lowercase : string -> string.
Variable trim : string -> string.

Lemma assignMentee_ok db caller body e mentee mentor :
  Js.get body "email" = Some e -> e <> "" ->
  User_findOne_email_role lowercase trim db e "mentee" = Some mentee ->
  assignedMentor mentee = None ->
  User_findById db caller = Some mentor ->
  ~ In (u_id mentee) (mentees mentor) ->
  MentorController.assignMentee lowercase trim db caller body
  = (None, SpecX.linked db mentor mentee).
Proof.
  intros He Hne Hf Ha Hm Hnot. unfold MentorController.assignMentee.
  apply String.eqb_neq in Hne. rewrite He, Hne, Hf, Ha, Hm.
  destruct (Js.includes (mentees mentor) (u_id mentee)) eqn:E.
  - apply includes_In in E. contradiction.
  - reflexivity.
Qed.

(** The handler gets to its saves only past every check. *)
Lemma assignMentee_saved db caller body :
  fst (MentorController.assignMentee lowercase trim db caller body) = None ->
  exists e mentee mentor,
    Js.get body "email" = Some e /\ e <> ""
    /\ User_findOne_email_role lowercase trim db e "mentee" = Some mentee
    /\ assignedMentor mentee = None
    /\ User_findById db caller = Some mentor
    /\ ~ In (u_id mentee) (mentees mentor).
Proof.
  unfold MentorController.assignMentee.
  destruct (Js.get body "email") as [e|]; [|discriminate].
  destruct (String.eqb_spec e "") as [E|E]; [discriminate|].
  destruct (User_findOne_email_role lowercase trim db e "mentee")
    as [mentee|] eqn:Hf; [|discriminate].
  destruct (assignedMentor mentee) eqn:Ha; [discriminate|].
  destruct (User_findById db caller) as [mentor|] eqn:Hm; [|discriminate].
  destruct (Js.includes (mentees mentor) (u_id mentee)) eqn:Hi;
    [discriminate|].
  intros _. exists e, mentee, mentor. repeat split; auto.
  intros Hin. apply includes_In in Hin. congruence.
Qed.

(** The mentee found by email and the mentor found by id are two users
    with two ids, once ids are unique and the caller is a mentor. *)
Lemma mentee_is_not_the_mentor db caller e mentee mentor :
  SpecX.unique_ids db ->
  User_findOne_email_role lowercase trim db e "mentee" = Some mentee ->
  User_findById db caller = Some mentor -> role mentor = "mentor" ->
  User_findById db (u_id mentor) = Some mentor
  /\ User_findById db (u_id mentee) = Some mentee
  /\ u_id mentee <> u_id mentor
  /\ u_id mentor = caller.
Proof.
  intros Hu Hf Hm Hr.
  destruct (findOne_email_role_In _ _ _ _ _ _ Hf) as (Hin & _ & Hrole).
  destruct (User_findById_id _ _ _ Hm) as [Hid Hinm].
  pose proof (unique_ids_lookup db mentee Hu Hin) as Hx.
  split; [now rewrite Hid|]. split; [exact Hx|]. split; [|exact Hid].
  intros E. rewrite E, Hid, Hm in Hx. inversion Hx; subst. congruence.
Qed.

(** X6.  When ids are unique, the caller is a stored mentor and the body
    gives the email (in any spelling the schema's setters bring to the
    stored one) of a stored mentee who has no mentor and is not in the
    caller's roster, [assignMentee] sends none of its failure responses
    and changes both ends and nothing else: the caller's roster is the
    former roster followed by the mentee's id, the mentee's
    [assignedMentor] is the caller, every other user, every issue and
    every achievement is as before. *)
Theorem assignMentee_links_both_ends db caller body mentor e mentee :
  SpecX.unique_ids db ->
  User_findById db caller = Some mentor -> role mentor = "mentor" ->
  Js.get body "email" = Some e -> e <> "" ->
  User_findOne_email_role lowercase trim db e "mentee" = Some mentee ->
  assignedMentor mentee = None ->
  ~ In (u_id mentee) (mentees mentor) ->
  let run := MentorController.assignMentee lowercase trim db caller body in
  fst run = None
  /\ email mentee = email_setters lowercase trim e
  /\ User_findById (snd run) caller
     = Some (SpecX.roster_plus mentor (u_id mentee))
  /\ mentees (SpecX.roster_plus mentor (u_id mentee))
     = (mentees mentor ++ [u_id mentee])%list
  /\ User_findById (snd run) (u_id mentee)
     = Some (SpecX.assigned_to mentee caller)
  /\ assignedMentor (SpecX.assigned_to mentee caller) = Some caller
  /\ SpecX.other_users_kept db (snd run) [caller; u_id mentee]
  /\ issues (snd run) = issues db
  /\ achievements (snd run) = achievements db.
Proof.
  intros Hu Hm Hr He Hne Hf Ha Hnot run.
  destruct (mentee_is_not_the_mentor db caller e mentee mentor Hu Hf Hm Hr)
    as (Hm' & Hx & Hdiff & Hid).
  unfold run.
  rewrite (assignMentee_ok db caller body e mentee mentor) by assumption.
  cbn [fst snd].
  split; [reflexivity|].
  split; [exact (proj1 (proj2 (findOne_email_role_In _ _ _ _ _ _ Hf)))|].
  split.
  { rewrite (linked_lookup db mentor mentee Hm' Hx Hdiff).
    rewrite <- Hid.
    assert (String.eqb (u_id mentee) (u_id mentor) = false) as ->
        by (now apply String.eqb_neq).
    now rewrite String.eqb_refl. }
  split; [reflexivity|].
  split.
  { rewrite (linked_lookup db mentor mentee Hm' Hx Hdiff).
    rewrite String.eqb_refl. now rewrite Hid. }
  split; [reflexivity|].
  split.
  { intros id Hid'. rewrite (linked_lookup db mentor mentee Hm' Hx Hdiff).
    assert (String.eqb (u_id mentee) id = false) as ->
        by (apply String.eqb_neq; intros E; apply Hid'; simpl; auto).
    assert (String.eqb (u_id mentor) id = false) as ->
        by (apply String.eqb_neq; intros E; apply Hid'; simpl; left;
            congruence).
    reflexivity. }
  split; reflexivity.
Qed.

(** The agreement of the two ends survives [assignMentee]. *)
Lemma assignMentee_consistent db caller body :
  SpecX.unique_ids db ->
  (forall mentor, User_findById db caller = Some mentor ->
                  role mentor = "mentor") ->
  SpecX.consistent db ->
  SpecX.consistent
    (snd (MentorController.assignMentee lowercase trim db caller body)).
Proof.
  intros Hu Hr Hc.
  destruct (fst (MentorController.assignMentee lowercase trim db caller body))
    as [r|] eqn:Hanswer.
  - now rewrite (proj1 (assignMentee_failure_frame lowercase trim
                          db caller body r Hanswer)).
  - destruct (assignMentee_saved db caller body Hanswer)
      as (e & mentee & mentor & He & Hne & Hf & Ha & Hm & Hnot).
    destruct (mentee_is_not_the_mentor db caller e mentee mentor Hu Hf Hm
                (Hr mentor Hm)) as (Hm' & Hx & Hdiff & Hid).
    rewrite (assignMentee_ok db caller body e mentee mentor) by assumption.
    cbn [snd]. now apply linked_consistent.
Qed.

Lemma assignMentee_ids db caller body :
  map u_id
      (users (snd (MentorController.assignMentee lowercase trim
                     db caller body)))
  = map u_id (users db).
Proof.
  unfold MentorController.assignMentee.
  destruct (Js.get body "email") as [e|]; [|reflexivity].
  destruct (String.eqb e ""); [reflexivity|].
  destruct (User_findOne_email_role lowercase trim db e "mentee")
    as [mentee|]; [|reflexivity].
  destruct (assignedMentor mentee); [reflexivity|].
  destruct (User_findById db caller) as [mentor|]; [|reflexivity].
  destruct (Js.includes (mentees mentor) (u_id mentee)); [reflexivity|].
  cbn [snd users User_save]. now rewrite !map_u_id_replace_user.
Qed.

(** X7.  Under the same conditions every call of [assignMentee], failed
    or not, keeps the two ends in agreement: if before the call a mentee
    is in a mentor's roster exactly when that mentor is the mentee's
    [assignedMentor], the same holds after it; and the stored ids are the
    same, so they stay unique. *)
Theorem assignMentee_keeps_both_ends_agreeing db caller body :
  SpecX.unique_ids db ->
  (forall mentor, User_findById db caller = Some mentor ->
                  role mentor = "mentor") ->
  SpecX.consistent db ->
  SpecX.consistent
    (snd (MentorController.assignMentee lowercase trim db caller body))
  /\ SpecX.unique_ids
       (snd (MentorController.assignMentee lowercase trim db caller body)).
Proof.
  intros Hu Hr Hc. split.
  - now apply assignMentee_consistent.
  - unfold SpecX.unique_ids in *. now rewrite assignMentee_ids.
Qed.

(** X8.  [assignMentee] never lists a mentee twice: if no stored roster
    has a duplicate before the call, none has one after it. *)
Theorem assignMentee_keeps_rosters_duplicate_free db caller body :
  SpecX.rosters_nodup db ->
  SpecX.rosters_nodup
    (snd (MentorController.assignMentee lowercase trim db caller body)).
Proof.
  intros Hn.
  destruct (fst (MentorController.assignMentee lowercase trim db caller body))
    as [r|] eqn:Hanswer.
  - now rewrite (proj1 (assignMentee_failure_frame lowercase trim
                          db caller body r Hanswer)).
  - destruct (assignMentee_saved db caller body Hanswer)
      as (e & mentee & mentor & He & Hne & Hf & Ha & Hm & Hnot).
    rewrite (assignMentee_ok db caller body e mentee mentor) by assumption.
    cbn [snd]. unfold SpecX.rosters_nodup, SpecX.linked, User_save in *.
    cbn [users]. rewrite Forall_forall in Hn.
    destruct (findOne_email_role_In _ _ _ _ _ _ Hf) as (Hin & _).
    destruct (User_findById_id _ _ _ Hm) as [_ Hinm].
    apply Forall_replace_user; [apply Forall_replace_user|].
    + now apply Forall_forall.
    + cbn. pose proof (Hn mentor Hinm) as Hnd.
      apply NoDup_app; [exact Hnd | repeat constructor; simpl; tauto |].
      intros x Hx [<- | []]. contradiction.
    + cbn. now apply Hn.
Qed.

End AssignSuccess.

Section AssignSuccessWitness.

(** [m1] assigns [u2], whose email is typed with a capital and a
    space. *)
Lemma assignMentee_links_both_ends_witness :
  let body := [("email", " B@x.com")] in
  let run := MentorController.assignMentee Sample.lowercase Sample.trim
               Sample.db "m1" body in
  SpecX.unique_ids Sample.db
  /\ User_findById Sample.db "m1" = Some Sample.mentor1
  /\ User_findOne_email_role Sample.lowercase Sample.trim Sample.db
                             " B@x.com" "mentee" = Some Sample.mentee2
  /\ fst run = None
  /\ option_map mentees (User_findById (snd run) "m1") = Some ["u1"; "u2"]
  /\ option_map assignedMentor (User_findById (snd run) "u2")
     = Some (Some "m1").
Proof.
  intros body run.
  pose proof sample_unique_ids as Hu.
  assert (" B@x.com" <> "") as Hne by discriminate.
  assert (~ In (u_id Sample.mentee2) (mentees Sample.mentor1)) as Hnot
      by (simpl; intros [H | []]; discriminate).
  destruct (assignMentee_links_both_ends Sample.lowercase Sample.trim
              Sample.db "m1" body Sample.mentor1 " B@x.com" Sample.mentee2
              Hu eq_refl eq_refl eq_refl Hne eq_refl eq_refl Hnot)
    as (H0 & _ & H1 & _ & H2 & _).
  split; [exact Hu|]. split; [reflexivity|]. split; [reflexivity|].
  split; [exact H0|]. split; reflexivity.
Defined.

Lemma assignMentee_keeps_both_ends_agreeing_witness :
  SpecX.unique_ids Sample.db
  /\ SpecX.consistent Sample.db
  /\ SpecX.consistent
       (snd (MentorController.assignMentee Sample.lowercase Sample.trim
               Sample.db "m1" [("email", "b@x.com")])).
Proof.
  pose proof sample_unique_ids as Hu.
  assert (forall mentor, User_findById Sample.db "m1" = Some mentor ->
                         role mentor = "mentor") as Hr.
  { intros mentor H. inversion H. reflexivity. }
  pose proof sample_consistent as Hc.
  split; [exact Hu|]. split; [exact Hc|].
  exact (proj1 (assignMentee_keeps_both_ends_agreeing
                  Sample.lowercase Sample.trim Sample.db "m1"
                  [("email", "b@x.com")] Hu Hr Hc)).
Defined.

Lemma assignMentee_keeps_rosters_duplicate_free_witness :
  SpecX.rosters_nodup Sample.db
  /\ SpecX.rosters_nodup
       (snd (MentorController.assignMentee Sample.lowercase Sample.trim
               Sample.db "m1" [("email", "b@x.com")])).
Proof.
  assert (SpecX.rosters_nodup Sample.db) as Hn.
  { unfold SpecX.rosters_nodup. cbn.
    repeat (constructor; [cbn; repeat constructor; simpl; tauto|]).
    constructor. }
  split; [exact Hn|].
  exact (assignMentee_keeps_rosters_duplicate_free
           Sample.lowercase Sample.trim Sample.db "m1"
           [("email", "b@x.com")] Hn).
Defined.

End AssignSuccessWitness.

(** ** Registration *)

Section Registration.

Import Register.

Variable isEmail : string -> bool.
Variable lowercase : string -> string.
Variable trim : string -> string.
Variable bcrypt_hash : string -> string.
Variable generateToken : ObjectId -> Date -> string.

Lemma User_create_stored db newId email password name phone role user db1 :
  User_create isEmail lowercase trim bcrypt_hash db newId email password
              name phone role = inr (user, db1) ->
  u_id user = newId /\ Models.role user = role
  /\ assignedMentor user = None /\ mentees user = []
  /\ (exists e, email = Some e /\ Models.email user = email_setters lowercase trim e
                /\ isEmail (email_setters lowercase trim e) = true)
  /\ (exists p, password = Some p /\ Models.password user = bcrypt_hash p
                /\ (6 <= String.length p)%nat)
  /\ db1 = mkDB (users db ++ [user]) (issues db) (achievements db).
Proof.
  unfold User_create.
  destruct email as [e|]; [|destruct password; discriminate].
  destruct password as [p|]; [|discriminate].
  destruct (String.eqb (email_setters lowercase trim e) ""); [discriminate|].
  destruct (isEmail (email_setters lowercase trim e)) eqn:Hemail; [|discriminate].
  cbn [negb].
  destruct (String.eqb p ""); [discriminate|].
  destruct (String.length p <? 6)%nat eqn:Hlen; [discriminate|].
  destruct (existsb _ (users db)); [discriminate|].
  intros H. inversion H; subst. cbn.
  apply Nat.ltb_ge in Hlen.
  repeat split; try reflexivity.
  - exists e. auto.
  - exists p. auto.
Qed.

(** Lookups in a store that gained one user under an unused id. *)
Lemma appended_lookup db user id :
  User_findById db (u_id user) = None ->
  User_findById (mkDB (users db ++ [user]) (issues db) (achievements db)) id
  = match User_findById db id with
    | Some u => Some u
    | None => if String.eqb (u_id user) id then Some user else None
    end.
Proof.
  intros Hfresh. unfold User_findById in *. cbn [users].
  destruct (find (fun u => String.eqb (u_id u) id) (users db)) as [u|] eqn:E.
  - now apply find_app_found.
  - rewrite find_app_fresh by exact E. reflexivity.
Qed.

Lemma appended_consistent db user :
  User_findById db (u_id user) = None ->
  assignedMentor user = None -> mentees user = [] ->
  SpecX.consistent db ->
  SpecX.consistent (mkDB (users db ++ [user]) (issues db) (achievements db)).
Proof.
  intros Hfresh Ha Hr Hc m x. rewrite !appended_lookup by exact Hfresh.
  assert ((exists mu,
              match User_findById db m with
              | Some u => Some u
              | None => if String.eqb (u_id user) m then Some user else None
              end = Some mu /\ In x (mentees mu))
          <-> (exists mu, User_findById db m = Some mu /\ In x (mentees mu)))
    as ->.
  { destruct (User_findById db m) as [u|]; [tauto|]. split.
    - intros (mu & Hmu & Hin).
      destruct (String.eqb (u_id user) m); [|discriminate].
      inversion Hmu; subst. rewrite Hr in Hin. destruct Hin.
    - intros (mu & Hmu & _). discriminate. }
  assert ((exists xu,
              match User_findById db x with
              | Some u => Some u
              | None => if String.eqb (u_id user) x then Some user else None
              end = Some xu /\ assignedMentor xu = Some m)
          <-> (exists xu, User_findById db x = Some xu
                          /\ assignedMentor xu = Some m))
    as ->.
  { destruct (User_findById db x) as [u|]; [tauto|]. split.
    - intros (xu & Hxu & Hxa).
      destruct (String.eqb (u_id user) x); [|discriminate].
      inversion Hxu; subst. congruence.
    - intros (xu & Hxu & _). discriminate. }
  apply Hc.
Qed.



Lemma registerMentee_201 db body newId now :
  r_code (fst (registerMentee isEmail lowercase trim bcrypt_hash generateToken
                 db body newId now)) = 201%nat ->
  exists name mentee db1,
    User_create isEmail lowercase trim bcrypt_hash db newId
                (Js.get body "email") (Js.get body "password") name
                (Js.get body "phone") "mentee" = inr (mentee, db1)
    /\ registerMentee isEmail lowercase trim bcrypt_hash generateToken
                      db body newId now
       = (accept 201 (registered generateToken mentee now),
          autoAssign db1 mentee (Js.get body "mentorId")).
Proof.
  unfold registerMentee.
  destruct (existingUser lowercase trim db (Js.get body "email")); [discriminate|].
  destruct (name_or_local_part (Js.get body "name") (Js.get body "email"))
    as [name|]; [|discriminate].
  destruct (User_create isEmail lowercase trim bcrypt_hash db newId
              (Js.get body "email") (Js.get body "password") name
              (Js.get body "phone") "mentee") as [msg | [mentee db1]] eqn:Hc;
    [discriminate|].
  intros _. exists name, mentee, db1. auto.
Qed.




Lemma registerMentee_failure_frame db body newId now :
  r_code (fst (registerMentee isEmail lowercase trim bcrypt_hash generateToken
                 db body newId now)) <> 201%nat ->
  snd (registerMentee isEmail lowercase trim bcrypt_hash generateToken
         db body newId now) = db.
Proof.
  unfold registerMentee.
  destruct (existingUser lowercase trim db (Js.get body "email")); [reflexivity|].
  destruct (name_or_local_part (Js.get body "name") (Js.get body "email"))
    as [name|]; [|reflexivity].
  destruct (User_create isEmail lowercase trim bcrypt_hash db newId
              (Js.get body "email") (Js.get body "password") name
              (Js.get body "phone") "mentee") as [msg | [mentee db1]];
    [reflexivity|].
  cbn. intros H. now contradiction H.
Qed.

(** X10.  A registration (mentor or mentee) whose email is found stored is
    answered 400 "Email already in use"; one whose password is missing or
    has fewer than six characters is answered 500, the schema's
    validation error being caught by the handler; and whenever the answer
    is not 201 nothing has been stored. *)
Theorem register_rejections db body newId now :
  let mentor_run := registerMentor isEmail lowercase trim bcrypt_hash
                                   generateToken db body newId now in
  let mentee_run := registerMentee isEmail lowercase trim bcrypt_hash
                                   generateToken db body newId now in
  (forall u, existingUser lowercase trim db (Js.get body "email") = Some u ->
        mentor_run = (reject 400 "Email already in use", db)
        /\ mentee_run = (reject 400 "Email already in use", db))
  /\ (existingUser lowercase trim db (Js.get body "email") = None ->
      (forall p, Js.get body "password" = Some p ->
                 (String.length p < 6)%nat) ->
      r_code (fst mentor_run) = 500%nat /\ r_code (fst mentee_run) = 500%nat)
  /\ (r_code (fst mentor_run) <> 201%nat -> snd mentor_run = db)
  /\ (r_code (fst mentee_run) <> 201%nat -> snd mentee_run = db).
Proof.
  intros mentor_run mentee_run. unfold mentor_run, mentee_run.
  unfold registerMentor, registerMentee.
  destruct (existingUser lowercase trim db (Js.get body "email")) as [u|] eqn:He.
  { split; [auto|]. split; [discriminate|]. split; reflexivity. }
  split; [discriminate|].
  destruct (name_or_local_part (Js.get body "name") (Js.get body "email"))
    as [name|].
  2:{ split; [auto|]. split; reflexivity. }
  split.
  - intros _ Hshort. unfold User_create.
    destruct (Js.get body "email") as [e|];
      [|destruct (Js.get body "password"); auto].
    destruct (Js.get body "password") as [p|]; [|auto].
    specialize (Hshort p eq_refl). apply Nat.ltb_lt in Hshort.
    destruct (String.eqb (email_setters lowercase trim e) ""); [auto|].
    destruct (negb (isEmail (email_setters lowercase trim e))); [auto|].
    destruct (String.eqb p ""); [auto|].
    rewrite Hshort. auto.
  - split.
    + destruct (User_create isEmail lowercase trim bcrypt_hash db newId
                  (Js.get body "email") (Js.get body "password") name
                  (Js.get body "phone") "mentor") as [msg | [mentor db1]];
        [reflexivity|].
      cbn. intros H. now contradiction H.
    + destruct (User_create isEmail lowercase trim bcrypt_hash db newId
                  (Js.get body "email") (Js.get body "password") name
                  (Js.get body "phone") "mentee") as [msg | [mentee db1]];
        [reflexivity|].
      cbn. intros H. now contradiction H.
Qed.

Lemma fresh_id_not_listed db id :
  User_findById db id = None -> ~ In id (map u_id (users db)).
Proof.
  unfold User_findById. intros Hn Hin. apply in_map_iff in Hin.
  destruct Hin as (u & Hu & Hin).
  apply (find_none _ _ Hn) in Hin. cbn in Hin.
  apply String.eqb_neq in Hin. congruence.
Qed.

(** X11.  Registering a mentee under an unused id keeps the two ends of
    the assignment in agreement and the ids unique, whether or not the
    registration succeeds and whether or not it assigns a mentor. *)
Theorem registerMentee_keeps_both_ends_agreeing db body newId now :
  User_findById db newId = None ->
  SpecX.consistent db -> SpecX.unique_ids db ->
  let db' := snd (registerMentee isEmail lowercase trim bcrypt_hash
                                 generateToken db body newId now) in
  SpecX.consistent db' /\ SpecX.unique_ids db'.
Proof.
  intros Hfresh Hc Hu db'. unfold db'.
  destruct (Nat.eq_dec
              (r_code (fst (registerMentee isEmail lowercase trim bcrypt_hash
                              generateToken db body newId now))) 201)
    as [H201 | Hfail].
  2:{ rewrite (registerMentee_failure_frame db body newId now Hfail). auto. }
  destruct (registerMentee_201 db body newId now H201)
    as (name & mentee & db1 & Hcr & Hrun).
  rewrite Hrun. cbn [snd].
  destruct (User_create_stored _ _ _ _ _ _ _ _ _ Hcr)
    as (Hid & Hrole & Ha & Hr & _ & _ & Hdb1).
  assert (User_findById db (u_id mentee) = None) as Hfresh'
      by now rewrite Hid.
  assert (SpecX.consistent db1) as Hc1
      by (subst db1; now apply appended_consistent).
  assert (SpecX.unique_ids db1) as Hu1.
  { subst db1. unfold SpecX.unique_ids in *. cbn [users].
    rewrite map_app. cbn [map]. apply NoDup_app; [exact Hu| |].
    - repeat constructor. simpl. tauto.
    - intros x Hx [<- | []]. revert Hx. now apply fresh_id_not_listed. }
  unfold autoAssign.
  destruct (Js.truthy (Js.get body "mentorId")); [|auto].
  destruct (User_findById db1 (opt_default (Js.get body "mentorId") ""))
    as [mentor|] eqn:Hm; [|auto].
  destruct (String.eqb_spec (role mentor) "mentor") as [Hmentor | Hnot];
    cbn [negb]; [|auto].
  destruct (User_findById_id _ _ _ Hm) as [Hmid Hin].
  assert (User_findById db1 (u_id mentor) = Some mentor) as Hm'
      by now rewrite Hmid.
  assert (User_findById db1 (u_id mentee) = Some mentee) as Hx.
  { subst db1. rewrite appended_lookup by exact Hfresh'.
    rewrite Hfresh'. now rewrite String.eqb_refl. }
  assert (u_id mentee <> u_id mentor) as Hdiff.
  { intros E. rewrite E, Hm' in Hx. inversion Hx; subst. congruence. }
  split.
  - exact (linked_consistent db1 mentor mentee Hm' Hx Hdiff Ha Hc1).
  - unfold SpecX.unique_ids. cbn [users User_save].
    now rewrite !map_u_id_replace_user.
Qed.

End Registration.

Section RegistrationWitness.

Import Register.


Lemma register_rejections_witness :
  let body := [("email", "A@X.com"); ("password", "12345")] in
  let short := [("email", "d@x.com"); ("password", "12345")] in
  existingUser Sample.lowercase Sample.trim Sample.db (Js.get body "email")
  = Some Sample.mentee1
  /\ registerMentee SampleX.isEmail Sample.lowercase Sample.trim SampleX.hash
                    Sample.token Sample.db body "u3" 0
     = (reject 400 "Email already in use", Sample.db)
  /\ r_code (fst (registerMentee SampleX.isEmail Sample.lowercase Sample.trim
                    SampleX.hash Sample.token Sample.db short "u3" 0))
     = 500%nat.
Proof.
  intros body short.
  assert (existingUser Sample.lowercase Sample.trim Sample.db
                       (Js.get body "email") = Some Sample.mentee1)
    as He by reflexivity.
  assert (existingUser Sample.lowercase Sample.trim Sample.db
                       (Js.get short "email") = None) as Hn
      by reflexivity.
  assert (forall p, Js.get short "password" = Some p ->
                    (String.length p < 6)%nat) as Hshort.
  { intros p Hp. inversion Hp. simpl. lia. }
  split; [exact He|]. split.
  - exact (proj2 (proj1 (register_rejections SampleX.isEmail Sample.lowercase
                           Sample.trim SampleX.hash Sample.token
                           Sample.db body "u3" 0) Sample.mentee1 He)).
  - exact (proj2 (proj1 (proj2 (register_rejections SampleX.isEmail
                                  Sample.lowercase Sample.trim SampleX.hash
                                  Sample.token Sample.db short "u3" 0))
                        Hn Hshort)).
Defined.

End RegistrationWitness.

Section RegistrationInvariantWitness.

Import Register.

Lemma registerMentee_keeps_both_ends_agreeing_witness :
  User_findById Sample.db "u3" = None
  /\ SpecX.consistent
       (snd (registerMentee SampleX.isEmail Sample.lowercase Sample.trim
               SampleX.hash Sample.token Sample.db SampleX.registration
               "u3" 0)).
Proof.
  assert (User_findById Sample.db "u3" = None) as Hfresh by reflexivity.
  split; [exact Hfresh|].
  exact (proj1 (registerMentee_keeps_both_ends_agreeing
                  SampleX.isEmail Sample.lowercase Sample.trim SampleX.hash
                  Sample.token Sample.db SampleX.registration "u3" 0
                  Hfresh sample_consistent sample_unique_ids)).
Defined.

End RegistrationInvariantWitness.

(** ** Authentication and the role gates *)

Section Middleware.

Import AuthMiddleware.

Variable jwt_verify : string -> option ObjectId.

Lemma split_on_nonempty c s : split_on c s <> [].
Proof.
  destruct s as [|a s]; simpl; [discriminate|].
  destruct (Ascii.eqb a c); [discriminate|].
  destruct (split_on c s); discriminate.
Qed.

Lemma split_on_no_char c s :
  SpecX.no_char c s = true -> split_on c s = [s].
Proof.
  induction s as [|a s IH]; simpl; [reflexivity|].
  intros H. apply andb_prop in H. destruct H as [Ha Hs].
  apply negb_true_iff in Ha. rewrite Ha, (IH Hs). reflexivity.
Qed.

(** What the server takes from the header the client builds. *)
Lemma bearer_client_header token :
  bearer (Some (client_header token))
  = Some (hd EmptyString (split_on " "%char token)).
Proof.
  unfold bearer, client_header. cbn.
  pose proof (split_on_nonempty " "%char token) as Hne.
  destruct (split_on " "%char token) as [|w ws]; [contradiction|].
  reflexivity.
Qed.

(** X12.  The header the client's interceptor builds from a token
    without spaces gives the server that very token: the request is then
    authenticated as the stored user the token verifies to, with that
    user's role; it is refused with 401 when the token is empty or does
    not verify and with 404 when the user is not stored.  A request
    without header, or whose header does not start with "Bearer", is
    refused with 401. *)
Theorem bearer_token_round_trip db token :
  SpecX.no_char " "%char token = true ->
  bearer (Some (client_header token)) = Some token
  /\ (forall id user,
        token <> "" -> jwt_verify token = Some id ->
        User_findById db id = Some user ->
        protect jwt_verify db (Some (client_header token))
        = inr (mkReqUser id (role user)))
  /\ (token = "" \/ jwt_verify token = None ->
        protect jwt_verify db (Some (client_header token))
        = inl (fail 401 "Not authorized to access this route"))
  /\ (forall id,
        token <> "" -> jwt_verify token = Some id ->
        User_findById db id = None ->
        protect jwt_verify db (Some (client_header token))
        = inl (fail 404 "No user found with this id"))
  /\ protect jwt_verify db None
     = inl (fail 401 "Not authorized to access this route")
  /\ (forall h, String.prefix "Bearer" h = false ->
        protect jwt_verify db (Some h)
        = inl (fail 401 "Not authorized to access this route")).
Proof.
  intros Hns.
  assert (bearer (Some (client_header token)) = Some token) as Hb.
  { rewrite bearer_client_header, (split_on_no_char _ _ Hns). reflexivity. }
  split; [exact Hb|]. unfold protect. rewrite Hb.
  split; [|split; [|split; [|split]]].
  - intros id user Hne Hv Hu. apply String.eqb_neq in Hne.
    rewrite Hne, Hv, Hu. destruct (User_findById_id _ _ _ Hu) as [-> _].
    reflexivity.
  - intros [-> | Hv]; [reflexivity|].
    destruct (String.eqb token ""); [reflexivity|]. now rewrite Hv.
  - intros id Hne Hv Hu. apply String.eqb_neq in Hne.
    now rewrite Hne, Hv, Hu.
  - reflexivity.
  - intros h Hp. unfold bearer. rewrite Hp. now rewrite andb_false_r.
Qed.

End Middleware.

Section MiddlewareWitness.

Import AuthMiddleware.

Lemma bearer_token_round_trip_witness :
  SpecX.no_char " "%char "token-u1" = true
  /\ client_header "token-u1" = "Bearer token-u1"
  /\ protect SampleX.verify Sample.db (Some "Bearer token-u1")
     = inr (mkReqUser "u1" "mentee")
  /\ protect SampleX.verify Sample.db (Some "Basic token-u1")
     = inl (fail 401 "Not authorized to access this route").
Proof.
  assert (SpecX.no_char " "%char "token-u1" = true) as Hns by reflexivity.
  assert ("token-u1" <> "") as Hne by discriminate.
  destruct (bearer_token_round_trip SampleX.verify Sample.db "token-u1" Hns)
    as (_ & Hok & _ & _ & _ & Hscheme).
  split; [exact Hns|]. split; [reflexivity|]. split.
  - exact (Hok "u1" Sample.mentee1 Hne eq_refl eq_refl).
  - exact (Hscheme "Basic token-u1" eq_refl).
Defined.

(** The scheme is matched as a prefix and the token is the second
    space-separated field. *)
Example bearer_edge_cases :
  bearer (Some "Bearer") = None
  /\ bearer (Some "Bearer  abc") = Some ""
  /\ bearer (Some "Bearerabc def") = Some "def"
  /\ bearer (Some "bearer abc") = None
  /\ bearer (Some "Bearer abc def") = Some "abc".
Proof. repeat split; reflexivity. Qed.

End MiddlewareWitness.

Section Routes.

Import AuthMiddleware.

Variable jwt_verify : string -> option ObjectId.
Variable lowercase : string -> string.
Variable trim : string -> string.

Lemma protect_accepts db authorization u :
  protect jwt_verify db authorization = inr u ->
  exists user, User_findById db (ru_id u) = Some user
               /\ ru_role u = role user.
Proof.
  unfold protect.
  destruct (bearer authorization) as [token|]; [|discriminate].
  destruct (String.eqb token ""); [discriminate|].
  destruct (jwt_verify token) as [id|]; [|discriminate].
  destruct (User_findById db id) as [user|] eqn:Hu; [|discriminate].
  intros H. inversion H; subst u. cbn. exists user.
  destruct (User_findById_id _ _ _ Hu) as [-> _]. auto.
Qed.

Lemma protect_refuses db authorization r :
  protect jwt_verify db authorization = inl r -> SpecX.Unauthenticated r.
Proof.
  unfold protect, SpecX.Unauthenticated.
  destruct (bearer authorization) as [token|];
    [|intros H; inversion H; auto].
  destruct (String.eqb token ""); [intros H; inversion H; auto|].
  destruct (jwt_verify token) as [id|]; [|intros H; inversion H; auto].
  destruct (User_findById db id) as [user|]; [discriminate|].
  intros H; inversion H; auto.
Qed.

(** X13.  The routers keep the roles apart.  A request that [protect]
    refuses gets that refusal (401 or 404) from every route; an
    authenticated user who is not a mentor gets 403 from every mentor
    route and one who is not a mentee gets 403 from every mentee route;
    in all these cases the database is left as it was. *)
Theorem routes_keep_roles_apart db authorization issueId body newId now :
  (forall r,
      protect jwt_verify db authorization = inl r ->
      SpecX.Unauthenticated r
      /\ GET_mentor_issues jwt_verify db authorization = r
      /\ POST_mentor_issue_comment jwt_verify db authorization issueId body now
         = (r, db)
      /\ POST_mentor_mentees_assign jwt_verify lowercase trim db authorization
                                    body = (Some r, db)
      /\ GET_mentee_issues jwt_verify db authorization = r
      /\ POST_mentee_issues jwt_verify db authorization body newId now = (r, db)
      /\ POST_mentee_issue_comments jwt_verify db authorization issueId body now
         = (r, db))
  /\ (forall u,
        protect jwt_verify db authorization = inr u ->
        ru_role u <> "mentor" ->
        let r := fail 403 "Only mentors can access this route" in
        GET_mentor_issues jwt_verify db authorization = r
        /\ POST_mentor_issue_comment jwt_verify db authorization issueId body now
           = (r, db)
        /\ POST_mentor_mentees_assign jwt_verify lowercase trim db
                                      authorization body = (Some r, db))
  /\ (forall u,
        protect jwt_verify db authorization = inr u ->
        ru_role u <> "mentee" ->
        let r := fail 403 "Only mentees can access this route" in
        GET_mentee_issues jwt_verify db authorization = r
        /\ POST_mentee_issues jwt_verify db authorization body newId now
           = (r, db)
        /\ POST_mentee_issue_comments jwt_verify db authorization issueId
                                      body now = (r, db)).
Proof.
  unfold GET_mentor_issues, POST_mentor_issue_comment,
    POST_mentor_mentees_assign, GET_mentee_issues, POST_mentee_issues,
    POST_mentee_issue_comments, behind.
  split; [|split].
  - intros r Hr. rewrite Hr. split; [now apply protect_refuses with (1 := Hr)|].
    repeat split; reflexivity.
  - intros u Hu Hrole. rewrite Hu. unfold isMentor.
    apply String.eqb_neq in Hrole. rewrite Hrole. cbn. auto.
  - intros u Hu Hrole. rewrite Hu. unfold isMentee.
    apply String.eqb_neq in Hrole. rewrite Hrole. cbn. auto.
Qed.

(** X14.  Behind the router the mentor listing answers 200 exactly for a
    request that [protect] authenticates as a user whose role is mentor;
    the answer is then the handler's for that user, who is stored, and
    lists only stored issues whose mentor is that user.  Any other answer
    is one of the three refusals of the middleware: the handler's own
    "Mentor not found" is never sent. *)
Theorem mentor_listing_route db authorization :
  let r := GET_mentor_issues jwt_verify db authorization in
  (statusCode r = 200%nat
   <-> exists u, protect jwt_verify db authorization = inr u
                 /\ ru_role u = "mentor")
  /\ (forall u,
        protect jwt_verify db authorization = inr u ->
        ru_role u = "mentor" ->
        statusCode r = 200%nat
        /\ r = MentorController.getIssues db (ru_id u)
        /\ (exists user, User_findById db (ru_id u) = Some user
                         /\ role user = "mentor")
        /\ Forall (fun i => In i (issues db) /\ i_mentor i = ru_id u)
                  (Spec.listed r))
  /\ (statusCode r <> 200%nat ->
        SpecX.Unauthenticated r
        \/ r = fail 403 "Only mentors can access this route").
Proof.
  unfold GET_mentor_issues, behind. cbv zeta.
  destruct (protect jwt_verify db authorization) as [r | u] eqn:Hp.
  - pose proof (protect_refuses _ _ _ Hp) as Hr.
    split; [|split; [discriminate|auto]].
    split; [|intros (u & Hu & _); discriminate].
    destruct Hr as [-> | ->]; discriminate.
  - destruct (protect_accepts _ _ _ Hp) as (user & Hu & Hrole).
    unfold isMentor.
    destruct (String.eqb_spec (ru_role u) "mentor") as [E | E]; cbn [negb].
    + assert (statusCode (MentorController.getIssues db (ru_id u)) = 200%nat)
        as H200
          by (unfold MentorController.getIssues; now rewrite Hu).
      split; [|split].
      * split; [intros _; exists u; auto|intros _; exact H200].
      * intros u0 Hu0 _. inversion Hu0; subst u0.
        split; [exact H200|]. split; [reflexivity|].
        split; [exists user; split; [exact Hu|congruence]|].
        apply Forall_forall. intros i Hi. now apply mentor_listing.
      * intros H. now contradiction H.
    + split; [|split].
      * split; [discriminate|].
        intros (u0 & Hu0 & Hr0). inversion Hu0; subst u0. contradiction.
      * intros u0 Hu0 Hr0. inversion Hu0; subst u0. contradiction.
      * auto.
Qed.

(** X15.  Behind the router [assignMentee] keeps the two ends of the
    assignment in agreement for every request, the role being checked by
    the middleware: with unique ids, if rosters and [assignedMentor]
    agree before the request they agree after it. *)
Theorem assign_route_keeps_both_ends_agreeing db authorization body :
  SpecX.unique_ids db -> SpecX.consistent db ->
  SpecX.consistent
    (snd (POST_mentor_mentees_assign jwt_verify lowercase trim db
                                     authorization body)).
Proof.
  intros Hu Hc. unfold POST_mentor_mentees_assign, behind.
  destruct (protect jwt_verify db authorization) as [r | u] eqn:Hp;
    [exact Hc|].
  destruct (protect_accepts _ _ _ Hp) as (user & Huser & Hrole).
  unfold isMentor.
  destruct (String.eqb_spec (ru_role u) "mentor") as [E | E]; cbn [negb];
    [|exact Hc].
  apply (assignMentee_consistent lowercase trim db (ru_id u) body Hu);
    [|exact Hc].
  intros mentor Hm. rewrite Huser in Hm. inversion Hm; subst. congruence.
Qed.

End Routes.

Section RoutesWitness.

Import AuthMiddleware.

Lemma routes_keep_roles_apart_witness :
  protect SampleX.verify Sample.db (Some "Bearer token-u1")
  = inr (mkReqUser "u1" "mentee")
  /\ POST_mentor_mentees_assign SampleX.verify Sample.lowercase Sample.trim
       Sample.db (Some "Bearer token-u1") [("email", "b@x.com")]
     = (Some (fail 403 "Only mentors can access this route"), Sample.db).
Proof.
  assert (protect SampleX.verify Sample.db (Some "Bearer token-u1")
          = inr (mkReqUser "u1" "mentee")) as Hp by reflexivity.
  assert (ru_role (mkReqUser "u1" "mentee") <> "mentor") as Hr
      by discriminate.
  split; [exact Hp|].
  exact (proj2 (proj2 (proj1 (proj2
           (routes_keep_roles_apart SampleX.verify Sample.lowercase
              Sample.trim Sample.db
              (Some "Bearer token-u1") "i1" [("email", "b@x.com")] "i9" 0))
           (mkReqUser "u1" "mentee") Hp Hr))).
Defined.

Lemma mentor_listing_route_witness :
  protect SampleX.verify Sample.db (Some "Bearer token-m1")
  = inr (mkReqUser "m1" "mentor")
  /\ statusCode (GET_mentor_issues SampleX.verify Sample.db
                   (Some "Bearer token-m1")) = 200%nat
  /\ Spec.listed (GET_mentor_issues SampleX.verify Sample.db
                    (Some "Bearer token-m1"))
     = [Sample.issue3; Sample.issue1]
  /\ Forall (fun i => In i (issues Sample.db) /\ i_mentor i = "m1")
            (Spec.listed (GET_mentor_issues SampleX.verify Sample.db
                            (Some "Bearer token-m1"))).
Proof.
  assert (protect SampleX.verify Sample.db (Some "Bearer token-m1")
          = inr (mkReqUser "m1" "mentor")) as Hp by reflexivity.
  destruct (proj1 (proj2 (mentor_listing_route SampleX.verify Sample.db
                            (Some "Bearer token-m1")))
              (mkReqUser "m1" "mentor") Hp eq_refl)
    as (H200 & _ & _ & Hall).
  split; [exact Hp|]. split; [exact H200|]. split; [reflexivity|exact Hall].
Defined.

Lemma assign_route_keeps_both_ends_agreeing_witness :
  SpecX.unique_ids Sample.db /\ SpecX.consistent Sample.db
  /\ SpecX.consistent
       (snd (POST_mentor_mentees_assign SampleX.verify Sample.lowercase
               Sample.trim Sample.db
               (Some "Bearer token-m1") [("email", "b@x.com")])).
Proof.
  split; [exact sample_unique_ids|]. split; [exact sample_consistent|].
  exact (assign_route_keeps_both_ends_agreeing SampleX.verify
           Sample.lowercase Sample.trim Sample.db
           (Some "Bearer token-m1") [("email", "b@x.com")]
           sample_unique_ids sample_consistent).
Defined.

End RoutesWitness.

(** ** Client cache: sequences of calls *)

Section CacheSequences.

Import ApiService.

(** X16.  Two fetches in a row cost one network call.  After a fetch
    that went to the network and returned, storing truthy data at a
    non-zero time [now1'], a second fetch without [skipCache] made less
    than [cacheTime] after [now1'] makes no call, leaves the state alone
    and returns the stored data (the transformed value, where the first
    fetch returned the raw response); a refresh at that moment makes a
    call. *)
Theorem two_fetches_one_network_call
        opts st prev now1 now1' v options now2 now2' call1 call2 options2 :
  skipCache options = true \/ ~ Spec.cache_usable opts st now1 ->
  let run1 := execute opts st prev now1 now1' call1 options in
  result run1 = Return v ->
  truthy (data (state' run1)) = true ->
  now1' <> 0 -> now2 - now1' < m_cacheTime opts ->
  skipCache options2 = false ->
  let st1 := state' run1 in
  let run2 := execute opts st1 st1 now2 now2' call2 options2 in
  (networkCalls run1 + networkCalls run2 = 1)%nat
  /\ Spec.stored options v (data st1)
  /\ result run2 = Return (data st1)
  /\ state' run2 = st1
  /\ networkCalls (refresh opts st1 st1 now2 now2' call2) = 1%nat.
Proof.
  intros Hmiss run1 Hret Htruthy Hnz Hwin Hskip st1 run2.
  destruct (execute_miss opts st prev now1 now1' call1 options Hmiss)
    as (Hcalls & Hok & _).
  destruct (Hok v Hret) as (_ & d & Hstored & Hstate).
  fold run1 in Hcalls, Hstate.
  assert (Spec.cache_usable opts st1 now2) as Husable.
  { unfold st1. split; [exact Htruthy|]. exists now1'.
    rewrite Hstate. cbn. auto. }
  assert (run2 = mkRun (Return (data st1)) st1 0 []) as Hrun2
      by (apply execute_hit; assumption).
  rewrite Hrun2, Hcalls. cbn [networkCalls result state'].
  split; [reflexivity|]. split.
  - unfold st1. rewrite Hstate. exact Hstored.
  - split; [reflexivity|]. split; [reflexivity|]. apply refresh_calls.
Qed.

Lemma two_fetches_one_network_call_witness :
  let opts := mergedOptions noOptions in
  let plain := mkExec None false in
  let st0 := initialState Null in
  let run1 := execute opts st0 st0 1000 1001
                      (Resolved Sample.dashboard_reply) plain in
  let run2 := execute opts (state' run1) (state' run1) 2000 2001
                      (Resolved Null) plain in
  ~ Spec.cache_usable opts st0 1000
  /\ result run1 = Return Sample.dashboard_reply
  /\ (networkCalls run1 + networkCalls run2 = 1)%nat
  /\ result run2 = Return Sample.dashboard_reply.
Proof.
  intros opts plain st0 run1 run2.
  assert (~ Spec.cache_usable opts st0 1000) as Hcold.
  { intros (Ht & _). discriminate Ht. }
  assert (result run1 = Return Sample.dashboard_reply) as Hret
      by reflexivity.
  assert (1001 <> 0) as Hnz by discriminate.
  assert (2000 - 1001 < m_cacheTime opts) as Hwin by reflexivity.
  destruct (two_fetches_one_network_call opts st0 st0 1000 1001
              Sample.dashboard_reply plain 2000 2001
              (Resolved Sample.dashboard_reply) (Resolved Null) plain
              (or_intror Hcold) Hret eq_refl Hnz Hwin eq_refl)
    as (H1 & _ & H3 & _).
  split; [exact Hcold|]. split; [exact Hret|]. split; [exact H1|exact H3].
Defined.

Lemma cache_hit_or_miss opts st now options :
  (skipCache options = false /\ Spec.cache_usable opts st now)
  \/ (skipCache options = true \/ ~ Spec.cache_usable opts st now).
Proof.
  destruct (skipCache options) eqn:Hs; [right; now left|].
  pose proof (cache_test_spec opts st now options) as Hspec.
  rewrite Hs in Hspec.
  match type of Hspec with ?b = true <-> _ => destruct b end.
  - left. now apply Hspec.
  - right. right. intros Hu.
    assert (false = true) by (apply Hspec; auto). discriminate.
Qed.

(** X17.  The message the hook records for a failed call is the
    configured [errorMessage] whenever that is not empty, whatever the
    server or the network reported; the default options configure "An
    error occurred".  Only with an empty [errorMessage] does a failure
    declared by the API ([success: false] with a message) record the
    API's message. *)
Theorem recorded_error_is_the_configured_message
        opts st prev now now' call options e :
  result (execute opts st prev now now' call options) = Throw e ->
  m_errorMessage (mergedOptions noOptions) = "An error occurred"
  /\ (m_errorMessage opts <> "" ->
        error (state' (execute opts st prev now now' call options))
        = Some (m_errorMessage opts))
  /\ (m_errorMessage opts = "" ->
      forall v msg,
        call = Resolved v -> success_is_false v = true ->
        str_field v "message" = Some msg -> msg <> "" ->
        error (state' (execute opts st prev now now' call options))
        = Some msg).
Proof.
  intros Hthrow. split; [reflexivity|].
  destruct (cache_hit_or_miss opts st now options) as [Hhit | Hmiss].
  - destruct Hhit as [Hs Hu].
    rewrite (execute_hit opts st prev now now' call options Hs Hu) in Hthrow.
    discriminate Hthrow.
  - destruct (execute_miss opts st prev now now' call options Hmiss)
      as (_ & _ & Hfail).
    destruct (Hfail e Hthrow) as (_ & _ & _ & Herr). split.
    + intros Hne. rewrite Herr. unfold handleError.
      apply String.eqb_neq in Hne. now rewrite Hne.
    + intros Hempty v msg Hcall Hsf Hmsg Hmne. subst call.
      revert Hthrow Herr. unfold execute.
      match goal with |- context [if ?c then _ else _] => destruct c end;
        [discriminate|].
      assert (truthy v = true) as Htv.
      { unfold success_is_false, field in Hsf. destruct v; try discriminate.
        reflexivity. }
      rewrite Htv, Hsf. cbn [andb]. intros He _.
      cbn. rewrite Hempty. cbn. rewrite Hmsg. cbn.
      apply String.eqb_neq in Hmne. now rewrite Hmne.
Qed.

Lemma recorded_error_is_the_configured_message_witness :
  let opts := mergedOptions noOptions in
  let st := Sample.dashboard_state in
  let run := execute opts st st 900000 900001
                     (Rejected (ThrownError "Network Error"))
                     (mkExec None false) in
  result run = Throw (ThrownError "Network Error")
  /\ m_errorMessage opts <> ""
  /\ error (state' run) = Some "An error occurred".
Proof.
  intros opts st run.
  assert (result run = Throw (ThrownError "Network Error")) as Hthrow
      by reflexivity.
  assert (m_errorMessage opts <> "") as Hne by discriminate.
  split; [exact Hthrow|]. split; [exact Hne|].
  exact (proj1 (proj2 (recorded_error_is_the_configured_message
                         opts st st 900000 900001
                         (Rejected (ThrownError "Network Error"))
                         (mkExec None false) (ThrownError "Network Error")
                         Hthrow)) Hne).
Defined.

End CacheSequences.

(** ** Notification poller: what is counted and when it polls *)

Section PollerMore.

Import IssueNotifications.

(** X18.  A check shows a toast exactly when it was defined by a render
    that had shown none, the fetch succeeded with [success] set, and at
    least one fetched issue is overdue; the number in the toast is the
    number of overdue issues, an issue being overdue when its status is
    Open or Under Review and more than two days lie between its creation
    and now. *)
Theorem toast_counts_overdue_issues h response now n :
  (shownToast (checkPendingIssues h response now) = Some n
   <-> h = false
       /\ exists issues,
           response = Fetched true issues
           /\ n = List.length (filter (isOldPending now) issues)
           /\ (0 < n)%nat)
  /\ (forall issues i,
        In i (filter (isOldPending now) issues)
        <-> In i issues
            /\ (f_status i = "Open" \/ f_status i = "Under Review")
            /\ 2 * msPerDay < Z.abs (now - f_createdAt i)).
Proof.
  split.
  - unfold checkPendingIssues. split.
    + destruct h; [discriminate|].
      destruct response as [|[|] issues]; try discriminate.
      destruct (0 <? List.length (filter (isOldPending now) issues))%nat
        eqn:E; [|discriminate].
      cbn. intros H. inversion H; subst n. split; [reflexivity|].
      exists issues. apply Nat.ltb_lt in E. auto.
    + intros (-> & issues & -> & -> & Hpos).
      apply Nat.ltb_lt in Hpos. now rewrite Hpos.
  - intros issues i. rewrite filter_In, isOldPending_spec. tauto.
Qed.

Lemma toast_counts_overdue_issues_witness :
  let now := (3 * 24 * Sample.hour)%Z in
  let fresh := mkFetched "Open" (2 * 24 * Sample.hour) in
  shownToast (checkPendingIssues false
                (Fetched true [Sample.pending; fresh; Sample.pending]) now)
  = Some 2%nat
  /\ shownToast (checkPendingIssues true
                   (Fetched true [Sample.pending; fresh; Sample.pending]) now)
     = None.
Proof.
  intros now fresh.
  destruct (toast_counts_overdue_issues
              false (Fetched true [Sample.pending; fresh; Sample.pending])
              now 2%nat) as [[_ Hshow] _].
  destruct (toast_counts_overdue_issues
              true (Fetched true [Sample.pending; fresh; Sample.pending])
              now 2%nat) as [[Hnone _] _].
  split.
  - apply Hshow. split; [reflexivity|].
    exists [Sample.pending; fresh; Sample.pending].
    split; [reflexivity|]. split; [reflexivity|]. cbn. lia.
  - destruct (shownToast
                (checkPendingIssues true
                   (Fetched true [Sample.pending; fresh; Sample.pending]) now))
      as [k|] eqn:E; [discriminate|reflexivity].
Defined.

Lemma tick_invariant c response now :
  intervalClosure c = Some false ->
  (hasShownNotifications c = true <-> shown c <> []) ->
  let c' := tick c response now in
  intervalClosure c' = Some false
  /\ polls c' = S (polls c)
  /\ (hasShownNotifications c' = true <-> shown c' <> []).
Proof.
  intros Hc Hinv. unfold tick. rewrite Hc.
  unfold checkPendingIssues, apply_effects.
  destruct response as [|[|] issues];
    [cbn; split; [exact Hc|]; split; [reflexivity|]; exact Hinv
    | | cbn; split; [exact Hc|]; split; [reflexivity|]; exact Hinv].
  destruct (0 <? List.length (filter (isOldPending now) issues))%nat; cbn.
  - split; [exact Hc|]. split; [reflexivity|]. split; [|reflexivity].
    intros _. destruct (shown c); discriminate.
  - split; [exact Hc|]. split; [reflexivity|]. exact Hinv.
Qed.

(** X19.  A mounted poller with [autoCheck] calls the API at the mount
    and again at every firing of the interval, whatever it has shown; the
    state cell [hasShownNotifications] is set exactly when a toast has
    been shown.  Without [autoCheck] it never calls the API and never
    shows anything. *)
Theorem poller_polls_at_every_firing first ticks :
  (let c := session true first ticks in
   polls c = S (List.length ticks)
   /\ (hasShownNotifications c = true <-> shown c <> []))
  /\ (let c := session false first ticks in
      polls c = 0%nat /\ shown c = [] /\ hasShownNotifications c = false).
Proof.
  split.
  - unfold session.
    assert (intervalClosure (mount true (fst first) (snd first)) = Some false
            /\ polls (mount true (fst first) (snd first)) = 1%nat
            /\ (hasShownNotifications (mount true (fst first) (snd first))
                = true
                <-> shown (mount true (fst first) (snd first)) <> []))
      as H0.
    { unfold mount, checkPendingIssues, apply_effects.
      destruct (fst first) as [|[|] issues];
        [cbn; split; [reflexivity|]; split; [reflexivity|];
         split; [discriminate|intros H; now contradiction H]
        | | cbn; split; [reflexivity|]; split; [reflexivity|];
            split; [discriminate|intros H; now contradiction H]].
      destruct (0 <? List.length (filter (isOldPending (snd first)) issues))%nat;
        cbn; (split; [reflexivity|]); (split; [reflexivity|]).
      - split; [discriminate|reflexivity].
      - split; [discriminate|intros H; now contradiction H]. }
    revert H0. generalize (mount true (fst first) (snd first)).
    assert (forall c n,
               intervalClosure c = Some false /\ polls c = n
               /\ (hasShownNotifications c = true <-> shown c <> []) ->
               let c' := fold_left (fun c t => tick c (fst t) (snd t)) ticks c in
               polls c' = (n + List.length ticks)%nat
               /\ (hasShownNotifications c' = true <-> shown c' <> []))
      as Hgen.
    { induction ticks as [|t ticks IH]; intros c n (Hc & Hp & Hinv); cbn.
      - split; [lia|exact Hinv].
      - destruct (tick_invariant c (fst t) (snd t) Hc Hinv)
          as (Hc' & Hp' & Hinv').
        destruct (IH (tick c (fst t) (snd t)) (S n)) as [Hp'' Hinv''].
        { split; [exact Hc'|]. split; [lia|exact Hinv']. }
        split; [cbn in Hp''; lia|exact Hinv'']. }
    intros c H. destruct H as (Hc & Hp & Hinv).
    destruct (Hgen c 1%nat (conj Hc (conj Hp Hinv))) as [H1 H2].
    cbv zeta in H1, H2. split; [exact H1|exact H2].
  - unfold session, mount. cbv zeta.
    induction ticks as [|t ticks IH]; cbn; [auto|exact IH].
Qed.

End PollerMore.

(** ** Reconnection *)

Section Reconnect.

Import ConnectDB.

Lemma getRetryTime_small retry :
  (retry <= 4)%nat -> getRetryTime retry = 2 ^ Z.of_nat retry * 1000.
Proof.
  intros H. unfold getRetryTime. apply Z.min_l.
  assert (2 ^ Z.of_nat retry <= 2 ^ 4) by (apply Z.pow_le_mono_r; lia).
  change (2 ^ 4) with 16 in *. lia.
Qed.

Lemma getRetryTime_capped retry :
  (5 <= retry)%nat -> getRetryTime retry = 30000.
Proof.
  intros H. unfold getRetryTime. apply Z.min_r.
  assert (2 ^ 5 <= 2 ^ Z.of_nat retry) by (apply Z.pow_le_mono_r; lia).
  change (2 ^ 5) with 32 in *. lia.
Qed.

(** X20.  The reconnection delay is [2^retry] seconds up to four
    retries and 30 seconds from the fifth on; it never decreases with the
    retry count and always lies between 1 and 30 seconds. *)
Theorem getRetryTime_bounds retry :
  1000 <= getRetryTime retry <= 30000
  /\ ((retry <= 4)%nat -> getRetryTime retry = 2 ^ Z.of_nat retry * 1000)
  /\ ((5 <= retry)%nat -> getRetryTime retry = 30000)
  /\ getRetryTime retry <= getRetryTime (S retry).
Proof.
  assert (1 <= 2 ^ Z.of_nat retry) as Hpos
      by (apply (Z.pow_le_mono_r 2 0); lia).
  assert (2 ^ Z.of_nat retry <= 2 ^ Z.of_nat (S retry)) as Hmono
      by (apply Z.pow_le_mono_r; lia).
  split; [|split; [|split]].
  - unfold getRetryTime. lia.
  - apply getRetryTime_small.
  - apply getRetryTime_capped.
  - unfold getRetryTime. lia.
Qed.

Lemma getRetryTime_bounds_witness :
  (3 <= 4)%nat /\ getRetryTime 3 = 8000
  /\ (5 <= 7)%nat /\ getRetryTime 7 = 30000.
Proof.
  assert (3 <= 4)%nat as H3 by lia.
  assert (5 <= 7)%nat as H7 by lia.
  split; [exact H3|]. split.
  - exact (proj1 (proj2 (getRetryTime_bounds 3)) H3).
  - split; [exact H7|].
    exact (proj1 (proj2 (proj2 (getRetryTime_bounds 7))) H7).
Defined.

Lemma handleConnectionError_retries st :
  (retryCount st < 5)%nat ->
  handleConnectionError st
  = mkState (isConnecting st) (S (retryCount st))
            (Some (getRetryTime (S (retryCount st)))) (exited st).
Proof.
  intros H. unfold handleConnectionError, MAX_RETRY_COUNT.
  apply Nat.ltb_lt in H. now rewrite H.
Qed.

Lemma handleConnectionError_exits st :
  (5 <= retryCount st)%nat ->
  handleConnectionError st
  = mkState (isConnecting st) (retryCount st) (retryTimeout st) (Some 1).
Proof.
  intros H. unfold handleConnectionError, MAX_RETRY_COUNT.
  apply Nat.ltb_ge in H. now rewrite H.
Qed.

(** After [process.exit] nothing happens. *)
Lemma run_exited uri trace st code :
  exited st = Some code ->
  run uri trace st = st /\ reported uri trace st = 0%nat.
Proof.
  intros He. induction trace as [|e trace IH]; [auto|].
  assert (step uri e st = st) as Hs by (unfold step; now rewrite He).
  assert (reports e st = false) as Hr by (unfold reports; now rewrite He).
  change (run uri (e :: trace) st) with (run uri trace (step uri e st)).
  cbn [reported]. rewrite Hs, Hr. exact IH.
Qed.

(** One event that is not a success: the retry count moves by what the
    event reports, up to the exit. *)
Lemma step_reports uri e st :
  exited st = None -> e <> Resolves ->
  let st' := step uri e st in
  if reports e st
  then st' = handleConnectionError
               (mkState (match e with
                         | Rejects => false
                         | _ => isConnecting st
                         end)
                        (retryCount st) (retryTimeout st) (exited st))
  else retryCount st' = retryCount st /\ exited st' = None.
Proof.
  intros He Hne. unfold step, reports. rewrite He.
  destruct e as [| | | |closeCalled|name]; cbn.
  - unfold connectDB. destruct (isConnecting st); [auto|].
    destruct (Js.falsy uri); auto.
  - contradiction.
  - unfold rejected. destruct (isConnecting st) eqn:Hc; [|auto].
    now rewrite He.
  - destruct (retryTimeout st); [|auto]. unfold connectDB. cbn.
    destruct (isConnecting st); [auto|].
    destruct (Js.falsy uri); auto.
  - destruct closeCalled; cbn; [auto|]. now destruct st; cbn in *; subst.
  - destruct (fatal name); [|auto]. now destruct st; cbn in *; subst.
Qed.

Lemma run_counts uri trace :
  Forall (fun e => e <> Resolves) trace ->
  forall st,
    exited st = None -> (retryCount st <= 5)%nat ->
    let n := (retryCount st + reported uri trace st)%nat in
    retryCount (run uri trace st) = Nat.min n 5
    /\ (exited (run uri trace st) = None <-> (n <= 5)%nat)
    /\ (exited (run uri trace st) = None
        \/ exited (run uri trace st) = Some 1).
Proof.
  induction 1 as [|e trace Hne Hall IH]; intros st He Hle n; unfold n.
  - cbn. rewrite Nat.add_0_r, Nat.min_l by exact Hle.
    split; [reflexivity|]. split; [tauto|auto].
  - change (run uri (e :: trace) st) with (run uri trace (step uri e st)).
    cbn [reported].
    pose proof (step_reports uri e st He Hne) as Hstep. cbv zeta in Hstep.
    destruct (reports e st).
    + destruct (Nat.lt_ge_cases (retryCount st) 5) as [Hlt | Hge].
      * rewrite handleConnectionError_retries in Hstep by exact Hlt.
        cbn [retryCount isConnecting retryTimeout exited] in Hstep.
        assert (exited (step uri e st) = None) as He'
            by (rewrite Hstep; exact He).
        assert (retryCount (step uri e st) = S (retryCount st)) as Hc'
            by (rewrite Hstep; reflexivity).
        destruct (IH (step uri e st) He' ltac:(lia)) as (H1 & H2 & H3).
        rewrite Hc' in H1, H2.
        replace (retryCount st + (1 + reported uri trace (step uri e st)))%nat
          with (S (retryCount st) + reported uri trace (step uri e st))%nat
          by lia.
        auto.
      * rewrite handleConnectionError_exits in Hstep by exact Hge.
        cbn [retryCount isConnecting retryTimeout exited] in Hstep.
        assert (exited (step uri e st) = Some 1) as He'
            by (rewrite Hstep; reflexivity).
        destruct (run_exited uri trace _ 1 He') as [Hrun Hrep].
        rewrite Hrun, Hrep, He', Hstep.
        cbn [retryCount]. rewrite Nat.min_r by lia.
        split; [lia|]. split; [|auto]. split; [discriminate|lia].
    + destruct Hstep as [Hc' He'].
      destruct (IH (step uri e st) He' ltac:(lia)) as (H1 & H2 & H3).
      rewrite Hc' in H1, H2. auto.
Qed.

(** X21.  Whoever reports a failure (the [catch] of a connection
    attempt, the ['disconnected'] listener after a disconnect that was
    not asked for, the ['error'] listener on a network or timeout
    error), the reports share one retry count.  Each of the first five
    reports after a success raises the count by one and schedules the
    next attempt after [getRetryTime] of the new count; the report that
    finds the count at five calls [process.exit(1)].  Over any run of
    events without a successful attempt, from a running process, the
    count is its start value plus the number of reports, capped at five,
    and the process has exited exactly when that sum is above five.  A
    successful attempt sets the count back to 0.  Without a connection
    string [connectDB] throws. *)
Theorem reconnection_gives_up_after_five_retries uri trace st :
  exited st = None -> (retryCount st <= 5)%nat ->
  Forall (fun e => e <> Resolves) trace ->
  let n := (retryCount st + reported uri trace st)%nat in
  retryCount (run uri trace st) = Nat.min n 5
  /\ (exited (run uri trace st) = None <-> (n <= 5)%nat)
  /\ (exited (run uri trace st) = None \/ exited (run uri trace st) = Some 1)
  /\ ((retryCount st < 5)%nat ->
        retryCount (handleConnectionError st) = S (retryCount st)
        /\ retryTimeout (handleConnectionError st)
           = Some (getRetryTime (S (retryCount st)))
        /\ exited (handleConnectionError st) = None)
  /\ (retryCount st = 5%nat ->
        exited (handleConnectionError st) = Some 1)
  /\ (isConnecting st = true -> retryCount (step uri Resolves st) = 0%nat)
  /\ (isConnecting st = false -> connectDB None st = None).
Proof.
  intros He Hle Hall n.
  destruct (run_counts uri trace Hall st He Hle) as (H1 & H2 & H3).
  split; [exact H1|]. split; [exact H2|]. split; [exact H3|].
  split; [|split; [|split]].
  - intros Hlt. rewrite handleConnectionError_retries by exact Hlt.
    cbn. auto.
  - intros H5. rewrite handleConnectionError_exits by lia. reflexivity.
  - intros Hc. unfold step. now rewrite He, Hc.
  - intros Hc. unfold connectDB. now rewrite Hc.
Qed.

(** A first attempt that fails, Mongoose emitting ['disconnected'] before
    the promise rejects, is reported twice; three such attempts exit the
    process. *)
Lemma reconnection_gives_up_after_five_retries_witness :
  let uri := Some "mongodb://localhost/reportverse" in
  let attempt := [Call; Disconnected false; Rejects] in
  let retry := [TimerFires; Disconnected false; Rejects] in
  run uri attempt initial = mkState false 2 (Some 4000) None
  /\ reported uri (attempt ++ retry ++ retry) initial = 6%nat
  /\ retryCount (run uri (attempt ++ retry ++ retry) initial) = 5%nat
  /\ exited (run uri (attempt ++ retry ++ retry) initial) = Some 1.
Proof.
  intros uri attempt retry.
  assert (exited initial = None) as He by reflexivity.
  assert (retryCount initial <= 5)%nat as Hle by (simpl; lia).
  assert (Forall (fun e => e <> Resolves) (attempt ++ retry ++ retry))
    as Hall by (repeat constructor; discriminate).
  destruct (reconnection_gives_up_after_five_retries
              uri (attempt ++ retry ++ retry) initial He Hle Hall)
    as (Hcount & _ & Hexit & _).
  split; [reflexivity|]. split; [reflexivity|].
  split; [exact Hcount|].
  destruct Hexit as [Hnone | Hsome]; [discriminate Hnone|exact Hsome].
Defined.

End Reconnect.

(** ** Mentor dashboard and achievements *)

Section MentorReads.

Import Reads.

Lemma StronglySorted_app_inv {A} (R : A -> A -> Prop) l1 l2 :
  StronglySorted R (l1 ++ l2) ->
  forall a b, In a l1 -> In b l2 -> R a b.
Proof.
  induction l1 as [|x l1 IH]; simpl; intros Hs a b Ha Hb; [destruct Ha|].
  inversion Hs as [|? ? Hl Hx]; subst.
  destruct Ha as [<- | Ha].
  - rewrite Forall_forall in Hx. apply Hx. apply in_or_app. now right.
  - now apply IH.
Qed.

Lemma StronglySorted_app_l {A} (R : A -> A -> Prop) l1 l2 :
  StronglySorted R (l1 ++ l2) -> StronglySorted R l1.
Proof.
  induction l1 as [|x l1 IH]; simpl; intros Hs; [constructor|].
  inversion Hs as [|? ? Hl Hx]; subst. constructor; [auto|].
  apply Forall_app in Hx. tauto.
Qed.

Lemma In_firstn {A} (x : A) n l : In x (firstn n l) -> In x l.
Proof.
  intros H. rewrite <- (firstn_skipn n l). apply in_or_app. now left.
Qed.

(** X22.  For a stored mentor the dashboard reports the length of the
    roster, the number of the caller's issues whose status is not
    "Resolved" (closed issues are counted as pending), and the newest of
    these issues, five at most: the recent list has [min 5 pending]
    entries, is newest first, holds no issue of another mentor and no
    resolved one, and no pending issue left out is newer than one that is
    shown. *)
Theorem mentor_dashboard_counts db caller mentor :
  User_findById db caller = Some mentor ->
  exists d,
    mentor_getDashboard db caller = accept 200 d
    /\ totalMentees d = List.length (mentees mentor)
    /\ pendingIssues d
       = List.length
           (filter (fun i => String.eqb (i_mentor i) caller
                             && negb (String.eqb (status i) "Resolved"))
                   (issues db))
    /\ List.length (recentIssues d) = Nat.min 5 (pendingIssues d)
    /\ SpecX.newest_first (map p_issue (recentIssues d))
    /\ (forall i, In i (map p_issue (recentIssues d)) ->
          In i (issues db) /\ i_mentor i = caller /\ status i <> "Resolved")
    /\ (forall i j,
          In i (map p_issue (recentIssues d)) ->
          In j (issues db) -> i_mentor j = caller -> status j <> "Resolved" ->
          ~ In j (map p_issue (recentIssues d)) ->
          i_createdAt j <= i_createdAt i)
    /\ (forall i, In i (issues db) -> i_mentor i = caller ->
          status i = "Closed" -> (0 < pendingIssues d)%nat).
Proof.
  intros Hm. unfold mentor_getDashboard. rewrite Hm.
  eexists. split; [reflexivity|]. cbn [totalMentees pendingIssues recentIssues].
  set (pending := Issue_find_unresolved db caller).
  set (sorted := sort_createdAt_desc pending).
  assert (forall i, In i pending
                    <-> In i (issues db) /\ i_mentor i = caller
                        /\ status i <> "Resolved") as Hpending.
  { intros i. unfold pending, Issue_find_unresolved. rewrite filter_In.
    rewrite andb_true_iff, negb_true_iff, String.eqb_eq, String.eqb_neq.
    tauto. }
  assert (forall i, In i sorted <-> In i pending) as Hsorted
      by (intros i; apply sort_createdAt_desc_In).
  assert (List.length sorted = List.length pending) as Hlen
      by (symmetry; apply Permutation_length, sort_createdAt_desc_perm).
  assert (map p_issue (map (populate_mentee db) (firstn 5 sorted))
          = firstn 5 sorted) as Hmap.
  { rewrite map_map. cbn [populate_mentee p_issue]. apply map_id. }
  rewrite Hmap.
  split; [reflexivity|]. split; [reflexivity|].
  split; [now rewrite length_map, length_firstn, Hlen|].
  assert (SpecX.newest_first sorted) as Hs
      by apply sort_createdAt_desc_sorted.
  split.
  { unfold SpecX.newest_first in *. rewrite <- (firstn_skipn 5 sorted) in Hs.
    now apply StronglySorted_app_l in Hs. }
  split.
  { intros i Hi. apply Hpending, Hsorted. now apply In_firstn in Hi. }
  split.
  { intros i j Hi Hj Hjm Hjs Hnot.
    assert (In j sorted) as Hjsorted by (apply Hsorted, Hpending; auto).
    rewrite <- (firstn_skipn 5 sorted) in Hjsorted.
    apply in_app_or in Hjsorted. destruct Hjsorted as [Hin | Hin];
      [contradiction|].
    unfold SpecX.newest_first in Hs. rewrite <- (firstn_skipn 5 sorted) in Hs.
    exact (StronglySorted_app_inv _ _ _ Hs i j Hi Hin). }
  intros i Hi Him Hclosed.
  assert (In i pending) as Hin.
  { apply Hpending. split; [exact Hi|]. split; [exact Him|].
    rewrite Hclosed. discriminate. }
  destruct pending; [destruct Hin|simpl; lia].
Qed.

Lemma mentor_dashboard_counts_witness :
  User_findById Sample.db "m1" = Some Sample.mentor1
  /\ exists d,
      mentor_getDashboard Sample.db "m1" = accept 200 d
      /\ totalMentees d = 1%nat /\ pendingIssues d = 2%nat
      /\ map p_issue (recentIssues d) = [Sample.issue3; Sample.issue1].
Proof.
  split; [reflexivity|].
  destruct (mentor_dashboard_counts Sample.db "m1" Sample.mentor1 eq_refl)
    as (d & Hd & _).
  exists d. split; [exact Hd|].
  inversion Hd; subst d. repeat split; reflexivity.
Defined.

Lemma insert_achievement_In x y l :
  In y (insert_achievement x l) <-> y = x \/ In y l.
Proof.
  induction l as [|z l IH]; simpl.
  - intuition congruence.
  - destruct (date_ltb (dateOfAchievement z) (dateOfAchievement x)); simpl.
    + intuition congruence.
    + rewrite IH. intuition congruence.
Qed.

Lemma insert_achievement_perm x l :
  Permutation (x :: l) (insert_achievement x l).
Proof.
  induction l as [|z l IH]; simpl; [apply Permutation_refl|].
  destruct (date_ltb (dateOfAchievement z) (dateOfAchievement x)).
  - apply Permutation_refl.
  - eapply perm_trans; [apply perm_swap|]. now apply perm_skip.
Qed.

Lemma sort_dateOfAchievement_desc_perm l :
  Permutation l (sort_dateOfAchievement_desc l).
Proof.
  induction l as [|x l IH]; simpl; [constructor|].
  eapply perm_trans; [apply perm_skip, IH|apply insert_achievement_perm].
Qed.

Lemma date_ltb_true a b : date_ltb a b = true -> SpecX.date_le a b.
Proof.
  destruct a as [x|], b as [y|]; simpl; try discriminate; auto.
  intros H. apply Z.ltb_lt in H. lia.
Qed.

Lemma date_ltb_false a b : date_ltb a b = false -> SpecX.date_le b a.
Proof.
  destruct a as [x|], b as [y|]; simpl; try discriminate; auto.
  intros H. apply Z.ltb_ge in H. exact H.
Qed.

Lemma date_le_trans a b c :
  SpecX.date_le a b -> SpecX.date_le b c -> SpecX.date_le a c.
Proof.
  destruct a as [x|], b as [y|], c as [z|]; simpl; try tauto. lia.
Qed.

Lemma insert_achievement_sorted x l :
  SpecX.latest_first l -> SpecX.latest_first (insert_achievement x l).
Proof.
  unfold SpecX.latest_first.
  induction l as [|y l IH]; intros Hs; simpl.
  - constructor; constructor.
  - inversion Hs as [|? ? Hl Hy]; subst.
    destruct (date_ltb (dateOfAchievement y) (dateOfAchievement x)) eqn:E.
    + apply date_ltb_true in E. constructor; [assumption|].
      constructor; [exact E|].
      eapply Forall_impl; [|exact Hy]. simpl. intros z Hz.
      exact (date_le_trans _ _ _ Hz E).
    + apply date_ltb_false in E. constructor; [auto|].
      apply Forall_forall. intros z Hz. apply insert_achievement_In in Hz.
      destruct Hz as [-> | Hz]; [assumption|].
      rewrite Forall_forall in Hy. auto.
Qed.

Lemma sort_dateOfAchievement_desc_sorted l :
  SpecX.latest_first (sort_dateOfAchievement_desc l).
Proof.
  induction l as [|x l IH]; simpl; [constructor|].
  now apply insert_achievement_sorted.
Qed.

(** X23.  A mentor reads the achievements of a mentee exactly when the
    mentee is in the mentor's roster: the answer is then 200 with every
    stored achievement of that mentee and no other, latest first, and
    [count] their number; for a mentee outside the roster it is 403 and
    for an unknown caller 404.  A mentee reading their own achievements
    gets them the same way. *)
Theorem achievements_are_roster_scoped db caller menteeId :
  (forall n l,
      r_data (getMenteeAchievements db caller menteeId) = Some (n, l) ->
      (exists mentor, User_findById db caller = Some mentor
                      /\ In menteeId (mentees mentor))
      /\ n = List.length l
      /\ Permutation (Achievement_find_mentee db menteeId) l
      /\ SpecX.latest_first l
      /\ (forall a, In a l <-> In a (achievements db) /\ a_mentee a = menteeId))
  /\ (forall mentor,
        User_findById db caller = Some mentor ->
        (In menteeId (mentees mentor) ->
           r_code (getMenteeAchievements db caller menteeId) = 200%nat)
        /\ (~ In menteeId (mentees mentor) ->
              r_code (getMenteeAchievements db caller menteeId) = 403%nat))
  /\ (User_findById db caller = None ->
        r_code (getMenteeAchievements db caller menteeId) = 404%nat)
  /\ (exists l,
        mentee_getAchievements db caller = accept 200 (List.length l, l)
        /\ Permutation (Achievement_find_mentee db caller) l
        /\ SpecX.latest_first l
        /\ forall a, In a l <-> In a (achievements db) /\ a_mentee a = caller).
Proof.
  assert (forall id a,
             In a (sort_dateOfAchievement_desc (Achievement_find_mentee db id))
             <-> In a (achievements db) /\ a_mentee a = id) as Hin.
  { intros id a. split.
    - intros H.
      apply (Permutation_in _ (Permutation_sym
               (sort_dateOfAchievement_desc_perm _))) in H.
      unfold Achievement_find_mentee in H. apply filter_In in H.
      now rewrite String.eqb_eq in H.
    - intros [H E].
      apply (Permutation_in _ (sort_dateOfAchievement_desc_perm _)).
      unfold Achievement_find_mentee. apply filter_In.
      now rewrite String.eqb_eq. }
  unfold getMenteeAchievements, mentee_getAchievements.
  split; [|split; [|split]].
  - intros n l.
    destruct (User_findById db caller) as [mentor|]; [|discriminate].
    destruct (Js.includes (mentees mentor) menteeId) eqn:E; cbn;
      [|discriminate].
    intros H. inversion H; subst n l.
    split; [exists mentor; split; [reflexivity|now apply includes_In]|].
    split; [reflexivity|].
    split; [apply sort_dateOfAchievement_desc_perm|].
    split; [apply sort_dateOfAchievement_desc_sorted|apply Hin].
  - intros mentor Hm. rewrite Hm. split; intros H.
    + apply includes_In in H. now rewrite H.
    + destruct (Js.includes (mentees mentor) menteeId) eqn:E; [|reflexivity].
      apply includes_In in E. contradiction.
  - intros Hn. now rewrite Hn.
  - eexists. split; [reflexivity|].
    split; [apply sort_dateOfAchievement_desc_perm|].
    split; [apply sort_dateOfAchievement_desc_sorted|apply Hin].
Qed.

Lemma achievements_are_roster_scoped_witness :
  User_findById SampleX.db_achievements "m1" = Some Sample.mentor1
  /\ In "u1" (mentees Sample.mentor1)
  /\ ~ In "u2" (mentees Sample.mentor1)
  /\ getMenteeAchievements SampleX.db_achievements "m1" "u1"
     = accept 200 (2%nat, [SampleX.achievement3; SampleX.achievement1])
  /\ SpecX.latest_first [SampleX.achievement3; SampleX.achievement1]
  /\ r_code (getMenteeAchievements SampleX.db_achievements "m1" "u2")
     = 403%nat.
Proof.
  assert (User_findById SampleX.db_achievements "m1" = Some Sample.mentor1)
    as Hm by reflexivity.
  assert (In "u1" (mentees Sample.mentor1)) as Hin by (simpl; auto).
  assert (~ In "u2" (mentees Sample.mentor1)) as Hout
      by (simpl; intros [H | []]; discriminate).
  assert (r_data (getMenteeAchievements SampleX.db_achievements "m1" "u1")
          = Some (2%nat, [SampleX.achievement3; SampleX.achievement1]))
    as Hd by reflexivity.
  destruct (achievements_are_roster_scoped SampleX.db_achievements "m1" "u1")
    as (Hdata & _).
  destruct (Hdata _ _ Hd) as (_ & _ & _ & Hsorted & _).
  destruct (achievements_are_roster_scoped SampleX.db_achievements "m1" "u2")
    as (_ & Hcode & _).
  destruct (Hcode Sample.mentor1 Hm) as [_ H403].
  split; [exact Hm|]. split; [exact Hin|]. split; [exact Hout|].
  split; [reflexivity|]. split; [exact Hsorted|exact (H403 Hout)].
Defined.

End MentorReads.

(** ** Academic records *)

Section AcademicsFacts.

Import Academics.

Lemma findOne_mentee records id r :
  findOne records id = Some r -> ar_mentee r = id /\ In r records.
Proof.
  unfold findOne. intros H. apply find_some in H. destruct H as [Hin E].
  apply String.eqb_eq in E. auto.
Qed.

Lemma findOne_None records id :
  findOne records id = None <-> ~ In id (map ar_mentee records).
Proof.
  unfold findOne. induction records as [|r l IH]; simpl; [tauto|].
  destruct (String.eqb_spec (ar_mentee r) id) as [E | E].
  - split; [discriminate|]. intros H. exfalso. auto.
  - rewrite IH. tauto.
Qed.


Lemma replace_record_mentees doc l :
  map ar_mentee (replace_record doc l) = map ar_mentee l.
Proof.
  induction l as [|x l IH]; simpl; [reflexivity|].
  destruct (String.eqb_spec (ar_mentee x) (ar_mentee doc)) as [E | E]; simpl.
  - now rewrite E.
  - now rewrite IH.
Qed.

Variable Number_of_string : string -> spec_float.
Variable Number_of_object : string -> spec_float.
Variable castPath : string -> Js.value -> option Js.value.
Variable error_message : Js.json -> string.




(** What the document holds after the assignments. *)
Lemma edited_fields body base record :
  edited Number_of_string Number_of_object castPath body base = Some record ->
  ar_mentee record = ar_mentee base
  /\ (forall path get,
         In (path, get) SpecX.array_paths ->
         match Js.field body path with
         | Some v => castPath path v = Some (get record)
         | None => get record = get base
         end)
  /\ match Js.field body "backlogs" with
     | Some v =>
         backlogs record = number_or_zero Number_of_string Number_of_object v
     | None => backlogs record = backlogs base
     end.
Proof.
  unfold edited, assigned, assigned_backlogs. intros H.
  destruct (match Js.field body "semesterGPA" with
            | Some v => castPath "semesterGPA" v
            | None => Some (semesterGPA base)
            end) as [gpa|] eqn:H1; [|discriminate].
  destruct (match Js.field body "moocCourses" with
            | Some v => castPath "moocCourses" v
            | None => Some (moocCourses base)
            end) as [courses|] eqn:H2; [|discriminate].
  destruct (match Js.field body "certifications" with
            | Some v => castPath "certifications" v
            | None => Some (certifications base)
            end) as [certs|] eqn:H3; [|discriminate].
  destruct (match Js.field body "semesterMarksheets" with
            | Some v => castPath "semesterMarksheets" v
            | None => Some (semesterMarksheets base)
            end) as [sheets|] eqn:H4; [|discriminate].
  destruct (match Js.field body "backlogs" with
            | Some v =>
                if below_min
                     (number_or_zero Number_of_string Number_of_object v)
                then None
                else Some (number_or_zero Number_of_string Number_of_object v)
            | None => Some (backlogs base)
            end) as [n|] eqn:H5; [|discriminate].
  injection H as H. subst record. cbn [ar_mentee backlogs].
  split; [reflexivity|]. split.
  - intros path get [E | [E | [E | [E | []]]]]; injection E as Hp Hg;
      subst path get;
      cbn [semesterGPA moocCourses certifications semesterMarksheets].
    + destruct (Js.field body "semesterGPA"); congruence.
    + destruct (Js.field body "moocCourses"); congruence.
    + destruct (Js.field body "certifications"); congruence.
    + destruct (Js.field body "semesterMarksheets"); congruence.
  - destruct (Js.field body "backlogs") as [v|]; [|congruence].
    destruct (below_min (number_or_zero Number_of_string Number_of_object v));
      congruence.
Qed.

(** The answer of [updateAcademics] and the store it leaves, by the
    outcome of validation. *)
Lemma updateAcademics_run records caller body :
  let run :=
    updateAcademics Number_of_string Number_of_object castPath error_message
                    records caller body in
  match edited Number_of_string Number_of_object castPath body
               (SpecX.previous records caller) with
  | Some record =>
      run = (accept 200 record,
             match findOne records caller with
             | Some _ => replace_record record records
             | None => (records ++ [record])%list
             end)
  | None =>
      run = (reject 500 (Js.or_else (Some (error_message body))
                                    "Server error"), records)
  end.
Proof.
  unfold updateAcademics, SpecX.previous.
  destruct (findOne records caller) as [old|];
    destruct (edited _ _ _ _ _); reflexivity.
Qed.

Lemma previous_mentee records caller :
  ar_mentee (SpecX.previous records caller) = caller.
Proof.
  unfold SpecX.previous.
  destruct (findOne records caller) as [old|] eqn:Hf; [|reflexivity].
  now destruct (findOne_mentee _ _ _ Hf).
Qed.



(** X25.  [updateAcademics] keeps one record per mentee: if no two stored
    records belong to the same mentee before a call, none do after it,
    whatever the body.  The mentees that have a record after the call
    are those that had one, and the caller when the call answered 200. *)
Theorem updateAcademics_one_record_per_mentee records caller body :
  NoDup (map ar_mentee records) ->
  let run :=
    Academics.updateAcademics Number_of_string Number_of_object castPath
                              error_message records caller body in
  NoDup (map ar_mentee (snd run))
  /\ (forall m, In m (map ar_mentee (snd run))
                <-> In m (map ar_mentee records)
                    \/ (m = caller /\ r_code (fst run) = 200%nat))
  /\ (List.length (snd run)
      = if r_code (getAcademics records caller) =? 404
        then if r_code (fst run) =? 200
             then S (List.length records) else List.length records
        else List.length records)%nat.
Proof.
  intros Hnd run.
  pose proof (updateAcademics_run records caller body) as Hrun.
  cbv zeta in Hrun. fold run in Hrun.
  destruct (edited Number_of_string Number_of_object castPath body
                   (SpecX.previous records caller)) as [record|] eqn:He.
  2:{ rewrite Hrun. cbn [fst snd r_code reject]. split; [exact Hnd|]. split.
      - intros m. split; [auto|]. intros [H | [_ H]]; [exact H|discriminate].
      - now destruct (r_code (getAcademics records caller) =? 404)%nat. }
  destruct (edited_fields _ _ _ He) as (Hm & _).
  rewrite previous_mentee in Hm.
  rewrite Hrun. cbn [fst snd r_code accept]. unfold getAcademics.
  destruct (findOne records caller) as [old|] eqn:Hf.
  - destruct (findOne_mentee _ _ _ Hf) as [Ho Hin].
    assert (In caller (map ar_mentee records)) as Hc
        by (rewrite <- Ho; now apply in_map).
    rewrite replace_record_mentees. split; [exact Hnd|]. split.
    + intros m. split; [auto|]. intros [H | [-> _]]; assumption.
    + cbn. rewrite <- (length_map ar_mentee), replace_record_mentees.
      now rewrite length_map.
  - apply findOne_None in Hf.
    rewrite map_app. cbn [map]. rewrite Hm. split.
    + apply (Permutation_NoDup (Permutation_cons_append _ caller)).
      now constructor.
    + split.
      * intros m. rewrite in_app_iff. simpl. split.
        -- intros [H | [H | []]]; auto.
        -- intros [H | [H _]]; auto.
      * rewrite length_app. simpl. lia.
Qed.


End AcademicsFacts.

Section AcademicsWitness.

Import Academics.


Lemma updateAcademics_one_record_per_mentee_witness :
  let body := [("backlogs", Js.Number SampleX.two)] in
  let update := updateAcademics SampleX.Number_of_string
                                SampleX.Number_of_object SampleX.castPath
                                SampleX.error_message in
  NoDup (map ar_mentee [SampleX.record1])
  /\ NoDup (map ar_mentee (snd (update [SampleX.record1] "u2" body)))
  /\ List.length (snd (update [SampleX.record1] "u2" body)) = 2%nat
  /\ List.length (snd (update [SampleX.record1] "u1" body)) = 1%nat.
Proof.
  intros body update.
  assert (NoDup (map ar_mentee [SampleX.record1])) as Hnd
      by (repeat constructor; simpl; tauto).
  destruct (updateAcademics_one_record_per_mentee SampleX.Number_of_string
              SampleX.Number_of_object SampleX.castPath SampleX.error_message
              [SampleX.record1] "u2" body Hnd) as (H1 & _ & H2).
  destruct (updateAcademics_one_record_per_mentee SampleX.Number_of_string
              SampleX.Number_of_object SampleX.castPath SampleX.error_message
              [SampleX.record1] "u1" body Hnd) as (_ & _ & H3).
  split; [exact Hnd|]. split; [exact H1|]. split; [exact H2|exact H3].
Defined.


(** A malformed entry of [semesterGPA] is answered 500 as well, and a
    [backlogs] that is not a number is stored as 0. *)
Example updateAcademics_cast_failure :
  r_code (fst (updateAcademics SampleX.Number_of_string
                 SampleX.Number_of_object SampleX.castPath
                 SampleX.error_message [SampleX.record1] "u1"
                 [("semesterGPA", Js.Str "first")])) = 500%nat.
Proof. reflexivity. Qed.

Example updateAcademics_coerces_backlogs :
  option_map backlogs
    (r_data (fst (updateAcademics SampleX.Number_of_string
                    SampleX.Number_of_object SampleX.castPath
                    SampleX.error_message [SampleX.record1] "u1"
                    [("backlogs", Js.Null)]))) = Some zero.
Proof. reflexivity. Qed.

End AcademicsWitness.

(** ** What a mentor reads about a mentee *)

Section MenteeData.

Import Academics.

Variable MenteeProfile : Type.
Variable mp_user : MenteeProfile -> ObjectId.

(** X27.  A mentor gets the profile or the academic record of a mentee
    only when the mentee is in the mentor's roster and stored: outside
    the roster the answer is 403, for a roster entry that is not stored
    404.  What is returned is about the requested mentee: a stored
    profile of that user (only when the mentee's [profileCompleted] is
    set) or the placeholder with the mentee's id and email; the stored
    academic record of that mentee or, when there is none, an empty
    record under the mentee's id. *)
Theorem mentor_reads_are_roster_scoped db records
        (profiles : list MenteeProfile) caller menteeId :
  (forall v,
      r_data (getMenteeProfile mp_user db profiles caller menteeId) = Some v ->
      exists mentor mentee,
        User_findById db caller = Some mentor
        /\ In menteeId (mentees mentor)
        /\ User_findById db menteeId = Some mentee
        /\ match v with
           | Completed p =>
               mp_user p = menteeId /\ In p profiles
               /\ profileCompleted mentee = true
           | NotCompleted u e => u = menteeId /\ e = email mentee
           end)
  /\ (forall r,
        r_data (getMenteeAcademics db records caller menteeId) = Some r ->
        (exists mentor mentee,
            User_findById db caller = Some mentor
            /\ In menteeId (mentees mentor)
            /\ User_findById db menteeId = Some mentee)
        /\ ar_mentee r = menteeId
        /\ (In r records
            \/ (r = mkRecord menteeId empty_array empty_array empty_array
                              empty_array zero
                /\ ~ In menteeId (map ar_mentee records))))
  /\ (forall mentor,
        User_findById db caller = Some mentor ->
        ~ In menteeId (mentees mentor) ->
        r_code (getMenteeProfile mp_user db profiles caller menteeId)
        = 403%nat
        /\ r_code (getMenteeAcademics db records caller menteeId) = 403%nat)
  /\ (forall mentor,
        User_findById db caller = Some mentor ->
        In menteeId (mentees mentor) ->
        User_findById db menteeId = None ->
        r_code (getMenteeProfile mp_user db profiles caller menteeId)
        = 404%nat
        /\ r_code (getMenteeAcademics db records caller menteeId) = 404%nat)
  /\ (forall mentor mentee,
        User_findById db caller = Some mentor ->
        In menteeId (mentees mentor) ->
        User_findById db menteeId = Some mentee ->
        r_code (getMenteeProfile mp_user db profiles caller menteeId)
        = 200%nat
        /\ r_code (getMenteeAcademics db records caller menteeId) = 200%nat).
Proof.
  unfold getMenteeProfile, getMenteeAcademics.
  split; [|split; [|split; [|split]]].
  - intros v.
    destruct (User_findById db caller) as [mentor|]; [|discriminate].
    destruct (Js.includes (mentees mentor) menteeId) eqn:E; cbn [negb];
      [|discriminate].
    apply includes_In in E.
    destruct (User_findById db menteeId) as [mentee|] eqn:Hm; [|discriminate].
    destruct (User_findById_id _ _ _ Hm) as [Hid _].
    destruct (profileCompleted mentee) eqn:Hp; cbn [negb].
    + destruct (find (fun p => String.eqb (mp_user p) menteeId) profiles)
        as [p|] eqn:Hf; cbn; intros H; inversion H; subst v;
        exists mentor, mentee; repeat split; auto.
      * apply find_some in Hf. now apply String.eqb_eq.
      * apply find_some in Hf. tauto.
    + cbn. intros H; inversion H; subst v.
      exists mentor, mentee. repeat split; auto.
  - intros r.
    destruct (User_findById db caller) as [mentor|]; [|discriminate].
    destruct (Js.includes (mentees mentor) menteeId) eqn:E; cbn [negb];
      [|discriminate].
    apply includes_In in E.
    destruct (User_findById db menteeId) as [mentee|] eqn:Hm; [|discriminate].
    destruct (User_findById_id _ _ _ Hm) as [Hid _].
    destruct (findOne records menteeId) as [rec|] eqn:Hf; cbn;
      intros H; inversion H; subst r.
    + destruct (findOne_mentee _ _ _ Hf) as [Hr Hin].
      split; [exists mentor, mentee; auto|]. split; [exact Hr|now left].
    + split; [exists mentor, mentee; auto|]. split; [exact Hid|].
      right. rewrite Hid. split; [reflexivity|]. now apply findOne_None.
  - intros mentor Hmentor Hout. rewrite Hmentor.
    destruct (Js.includes (mentees mentor) menteeId) eqn:E.
    + apply includes_In in E. contradiction.
    + split; reflexivity.
  - intros mentor Hmentor Hin Hnone. rewrite Hmentor.
    apply includes_In in Hin. rewrite Hin, Hnone. split; reflexivity.
  - intros mentor mentee Hmentor Hin Hm. rewrite Hmentor.
    apply includes_In in Hin. rewrite Hin, Hm. cbn [negb]. split.
    + destruct (negb (profileCompleted mentee)); [reflexivity|].
      destruct (find _ profiles); reflexivity.
    + destruct (findOne records menteeId); reflexivity.
Qed.

End MenteeData.

Section MenteeDataWitness.

Import Academics.

Lemma mentor_reads_are_roster_scoped_witness :
  getMenteeAcademics Sample.db [SampleX.record1] "m1" "u1"
  = accept 200 SampleX.record1
  /\ ar_mentee SampleX.record1 = "u1"
  /\ r_code (getMenteeProfile (@fst string string) Sample.db
               [("u2", "profile of u2")] "m1" "u2") = 403%nat
  /\ r_code (getMenteeAcademics Sample.db [SampleX.record1] "m1" "u2")
     = 403%nat.
Proof.
  assert (~ In "u2" (mentees Sample.mentor1)) as Hout
      by (simpl; intros [H | []]; discriminate).
  destruct (mentor_reads_are_roster_scoped (string * string) (@fst string string)
              Sample.db [SampleX.record1] [("u2", "profile of u2")] "m1" "u2")
    as (_ & _ & H403 & _).
  destruct (mentor_reads_are_roster_scoped (string * string) (@fst string string)
              Sample.db [SampleX.record1] [("u2", "profile of u2")] "m1" "u1")
    as (_ & Hdata & _).
  assert (r_data (getMenteeAcademics Sample.db [SampleX.record1] "m1" "u1")
          = Some SampleX.record1) as Hd by reflexivity.
  destruct (Hdata _ Hd) as (_ & Hm & _).
  destruct (H403 Sample.mentor1 eq_refl Hout) as [Hp Ha].
  split; [reflexivity|]. split; [exact Hm|]. split; [exact Hp|exact Ha].
Defined.

End MenteeDataWitness.

(** ** Achievements: from creation to the readers *)

Section AchievementStore.

Import Reads.

Variable castDate : string -> option (option Date).

Lemma createAchievement_ok
      db caller mentee m mentor body newId now ty desc date completed :
  User_findById db caller = Some mentee ->
  assignedMentor mentee = Some m ->
  User_findById db m = Some mentor ->
  Js.get body "type" = Some ty -> In ty achievementType_enum ->
  Js.get body "description" = Some desc -> desc <> "" ->
  optional_in position_enum (Js.get body "position") = true ->
  Js.get body "mentee" = None -> Js.get body "mentor" = None ->
  match Js.get body "dateOfAchievement" with
  | Some s => castDate s = Some date
  | None => date = Some now
  end ->
  match Js.get body "isCompleted" with
  | Some s => castBoolean s = Some completed
  | None => completed = true
  end ->
  let achievement :=
    mkAchievement newId caller m ty
                  (opt_default (Js.get body "position") "N/A") desc
                  date completed in
  MenteeController.createAchievement castDate db caller body newId now
  = (ok 201 (AchievementData achievement),
     mkDB (users db) (issues db) (achievements db ++ [achievement])).
Proof.
  intros Hu Ha Hm Hty Hin Hd Hne Hp Hme Hmo Hdate Hcompleted achievement.
  unfold MenteeController.createAchievement.
  rewrite Hu, Ha, Hm, Hty, Hd, Hp, Hme, Hmo. cbn [required_in opt_default].
  rewrite (proj2 (includes_In _ _) Hin).
  rewrite (enum_not_empty achievementType_enum ty Hin)
    by (simpl; intuition discriminate).
  unfold Js.truthy, Js.falsy. apply String.eqb_neq in Hne. rewrite Hne.
  destruct (User_findById_id _ _ _ Hu) as [-> _].
  destruct (Js.get body "dateOfAchievement") as [s|];
    destruct (Js.get body "isCompleted") as [c|];
    rewrite ?Hdate, ?Hcompleted; subst; reflexivity.
Qed.

(** X28.  A mentee with an assigned mentor reports an achievement, the
    body giving a valid type, a description, a valid position or none, a
    date that casts or none, a flag that casts or none, and none of
    [mentee], [mentor], [_id], [createdAt] and [updatedAt].  If the
    assigned mentor is not stored the answer is 404 and nothing is
    stored.  Otherwise the answer is 201, the achievement is stored under
    the caller and that mentor with the date and the flag of the body
    (now and true when it gives none, position "N/A" when it gives none),
    the caller's listing holds it and is one longer than before, the
    mentor reads it when the caller is in the roster, and the listings of
    all other mentees are what they were. *)
Theorem created_achievement_is_read_back
        db caller mentee m body newId now ty desc date completed :
  User_findById db caller = Some mentee ->
  assignedMentor mentee = Some m ->
  Js.get body "type" = Some ty -> In ty achievementType_enum ->
  Js.get body "description" = Some desc -> desc <> "" ->
  optional_in position_enum (Js.get body "position") = true ->
  Js.get body "mentee" = None -> Js.get body "mentor" = None ->
  Js.get body "_id" = None ->
  Js.get body "createdAt" = None -> Js.get body "updatedAt" = None ->
  match Js.get body "dateOfAchievement" with
  | Some s => castDate s = Some date
  | None => date = Some now
  end ->
  match Js.get body "isCompleted" with
  | Some s => castBoolean s = Some completed
  | None => completed = true
  end ->
  let achievement :=
    mkAchievement newId caller m ty
                  (opt_default (Js.get body "position") "N/A") desc
                  date completed in
  let run :=
    MenteeController.createAchievement castDate db caller body newId now in
  (User_findById db m = None ->
     run = (fail 404 "Assigned mentor not found", db))
  /\ (forall mentor,
        User_findById db m = Some mentor ->
        fst run = ok 201 (AchievementData achievement)
        /\ (exists l,
              mentee_getAchievements (snd run) caller
              = accept 200 (List.length l, l)
              /\ In achievement l
              /\ List.length l
                 = S (List.length (Achievement_find_mentee db caller)))
        /\ (In caller (mentees mentor) ->
              exists l,
                getMenteeAchievements (snd run) m caller
                = accept 200 (List.length l, l)
                /\ In achievement l)
        /\ (forall other, other <> caller ->
              mentee_getAchievements (snd run) other
              = mentee_getAchievements db other)).
Proof.
  intros Hu Ha Hty Hin Hd Hne Hp Hme Hmo _ _ _ Hdate Hcompleted
         achievement run.
  split.
  { intros Hnone. unfold run, MenteeController.createAchievement.
    now rewrite Hu, Ha, Hnone. }
  intros mentor Hm. unfold run.
  rewrite (createAchievement_ok db caller mentee m mentor body newId now
             ty desc date completed) by assumption.
  cbn [fst snd]. fold achievement.
  set (db' := mkDB (users db) (issues db) (achievements db ++ [achievement])).
  assert (Achievement_find_mentee db' caller
          = (Achievement_find_mentee db caller ++ [achievement])%list)
    as Hfind.
  { unfold Achievement_find_mentee, db'. cbn [achievements].
    rewrite filter_app. cbn. now rewrite String.eqb_refl. }
  assert (In achievement
             (sort_dateOfAchievement_desc (Achievement_find_mentee db' caller)))
    as Hsorted.
  { apply (Permutation_in _ (sort_dateOfAchievement_desc_perm _)).
    rewrite Hfind. apply in_or_app. right. now left. }
  split; [reflexivity|].
  split.
  { unfold mentee_getAchievements. eexists. split; [reflexivity|].
    split; [exact Hsorted|].
    rewrite <- (Permutation_length (sort_dateOfAchievement_desc_perm _)).
    rewrite Hfind, length_app. simpl. lia. }
  split.
  - intros Hroster. unfold getMenteeAchievements.
    change (User_findById db' m) with (User_findById db m). rewrite Hm.
    apply includes_In in Hroster. rewrite Hroster. cbn [negb].
    eexists. split; [reflexivity|exact Hsorted].
  - intros other Ho. unfold mentee_getAchievements.
    assert (Achievement_find_mentee db' other
            = Achievement_find_mentee db other) as ->; [|reflexivity].
    unfold Achievement_find_mentee, db'. cbn [achievements].
    rewrite filter_app. cbn.
    assert (String.eqb caller other = false) as ->
        by (apply String.eqb_neq; congruence).
    apply app_nil_r.
Qed.

End AchievementStore.

Section AchievementStoreWitness.

Import Reads.

(** What the client's form posts: type, position, description and a
    date. *)
Lemma created_achievement_is_read_back_witness :
  let body := [("type", "Award"); ("position", "1st"); ("description", "d");
               ("dateOfAchievement", "1970-01-02")] in
  let achievement :=
    mkAchievement "a9" "u1" "m1" "Award" "1st" "d" (Some 86400000) true in
  let run :=
    MenteeController.createAchievement Sample.castDate SampleX.db_achievements
                                       "u1" body "a9" 900 in
  fst run = ok 201 (AchievementData achievement)
  /\ getMenteeAchievements (snd run) "m1" "u1"
     = accept 200 (3%nat, [achievement; SampleX.achievement3;
                           SampleX.achievement1]).
Proof.
  intros body achievement run.
  assert (In "Award" achievementType_enum) as Hin by (simpl; auto 6).
  assert ("d" <> "") as Hne by discriminate.
  destruct (created_achievement_is_read_back Sample.castDate
              SampleX.db_achievements "u1"
              Sample.mentee1 "m1" body "a9" 900 "Award" "d"
              (Some 86400000) true
              eq_refl eq_refl eq_refl Hin eq_refl Hne eq_refl eq_refl eq_refl
              eq_refl eq_refl eq_refl eq_refl eq_refl) as (_ & Hok).
  destruct (Hok Sample.mentor1 eq_refl) as (H1 & _).
  split; [exact H1|reflexivity].
Defined.

End AchievementStoreWitness.

(** ** Sessions: registration, login and the token check *)

Section Session.

Import Register AuthMiddleware.

Variable isEmail : string -> bool.
Variable lowercase : string -> string.
Variable trim : string -> string.
Variable bcrypt_hash : string -> string.
Variable generateToken : ObjectId -> Date -> string.
Variable bcrypt_compare : string -> string -> bool.
Variable email_filter : Js.value -> string + (string -> bool).
Variable jwt_verify : string -> option ObjectId.

Lemma find_by_credentials (f : _ -> bool) l l' :
  map SpecX.credentials l = map SpecX.credentials l' ->
  option_map SpecX.credentials (find (fun u => f (SpecX.credentials u)) l)
  = option_map SpecX.credentials (find (fun u => f (SpecX.credentials u)) l').
Proof.
  revert l'. induction l as [|x l IH]; intros [|y l'] H; try discriminate;
    [reflexivity|].
  cbn [map] in H.
  assert (SpecX.credentials x = SpecX.credentials y) as Hx by congruence.
  assert (map SpecX.credentials l = map SpecX.credentials l') as Hl
      by congruence.
  cbn [find]. rewrite Hx.
  destruct (f (SpecX.credentials y)); cbn [option_map];
    [now rewrite Hx|auto].
Qed.

Lemma lookup_same_credentials db db' id :
  SpecX.same_credentials db db' ->
  option_map SpecX.credentials (User_findById db id)
  = option_map SpecX.credentials (User_findById db' id).
Proof.
  intros H.
  exact (find_by_credentials
           (fun c => String.eqb (fst (fst (fst (fst c)))) id) _ _ H).
Qed.

(** The lookup of a login reads the stored emails only. *)
Lemma findOne_same_credentials db db' email :
  SpecX.same_credentials db db' ->
  (exists message,
      AuthController.User_findOne lowercase trim email_filter db email
      = inl message
      /\ AuthController.User_findOne lowercase trim email_filter db' email
         = inl message)
  \/ (exists u u',
         AuthController.User_findOne lowercase trim email_filter db email
         = inr u
         /\ AuthController.User_findOne lowercase trim email_filter db' email
            = inr u'
         /\ option_map SpecX.credentials u = option_map SpecX.credentials u').
Proof.
  intros H. unfold AuthController.User_findOne.
  assert (forall v,
             (exists message,
                 match email_filter v with
                 | inl message => inl message
                 | inr matches =>
                     inr (find (fun u => matches (Models.email u)) (users db))
                 end = inl message
                 /\ match email_filter v with
                    | inl message => inl message
                    | inr matches =>
                        inr (find (fun u => matches (Models.email u))
                                  (users db'))
                    end = inl message)
             \/ (exists u u',
                    match email_filter v with
                    | inl message => inl message
                    | inr matches =>
                        inr (find (fun u => matches (Models.email u))
                                  (users db))
                    end = inr u
                    /\ match email_filter v with
                       | inl message => inl message
                       | inr matches =>
                           inr (find (fun u => matches (Models.email u))
                                     (users db'))
                       end = inr u'
                    /\ option_map SpecX.credentials u
                       = option_map SpecX.credentials u')) as Hother.
  { intros v. destruct (email_filter v) as [message | matches].
    - left. exists message. auto.
    - right. eexists. eexists. split; [reflexivity|]. split; [reflexivity|].
      exact (find_by_credentials
               (fun c => matches (snd (fst (fst (fst c))))) _ _ H). }
  destruct email as [v|].
  - destruct v; try apply Hother.
    right. eexists. eexists. split; [reflexivity|]. split; [reflexivity|].
    exact (find_by_credentials
             (fun c => String.eqb (snd (fst (fst (fst c))))
                                  (email_setters lowercase trim s)) _ _ H).
  - right. exists None, None. auto.
Qed.

Lemma login_same_credentials db db' body now :
  SpecX.same_credentials db db' ->
  AuthController.login lowercase trim bcrypt_compare generateToken
                       email_filter db body now
  = AuthController.login lowercase trim bcrypt_compare generateToken
                         email_filter db' body now.
Proof.
  intros H. unfold AuthController.login.
  destruct (Js.falsy_value (Js.field body "email")
            || Js.falsy_value (Js.field body "password")); [reflexivity|].
  destruct (findOne_same_credentials db db' (Js.field body "email") H)
    as [(message & -> & ->) | (u & u' & -> & -> & Hc)]; [reflexivity|].
  destruct u as [u|], u' as [u'|]; try discriminate; [|reflexivity].
  cbn in Hc. unfold SpecX.credentials in Hc.
  inversion Hc as [[H1 H2 H3 H4 H5]].
  unfold AuthController.comparePassword. now rewrite H1, H2, H3, H4, H5.
Qed.

Lemma protect_same_credentials db db' authorization :
  SpecX.same_credentials db db' ->
  protect jwt_verify db authorization = protect jwt_verify db' authorization.
Proof.
  intros H. unfold protect.
  destruct (bearer authorization) as [token|]; [|reflexivity].
  destruct (String.eqb token ""); [reflexivity|].
  destruct (jwt_verify token) as [id|]; [|reflexivity].
  pose proof (lookup_same_credentials db db' id H) as Hf.
  destruct (User_findById db id) as [u|];
    destruct (User_findById db' id) as [u'|]; try discriminate;
    [|reflexivity].
  cbn in Hf. unfold SpecX.credentials in Hf. inversion Hf as [[H1 H2 H3 H4 H5]].
  now rewrite H1, H4.
Qed.

(** Saving a document that agrees on the credentials with the stored one
    it replaces. *)
Lemma save_same_credentials db doc :
  (forall u, User_findById db (u_id doc) = Some u ->
             SpecX.credentials doc = SpecX.credentials u) ->
  SpecX.same_credentials db (User_save db doc).
Proof.
  unfold SpecX.same_credentials, User_save, User_findById. cbn [users].
  induction (users db) as [|x l IH]; intros H; simpl; [reflexivity|].
  simpl in H. destruct (String.eqb (u_id x) (u_id doc)); simpl.
  - now rewrite (H x eq_refl).
  - now rewrite <- IH.
Qed.

Lemma linked_same_credentials db mentor mentee :
  User_findById db (u_id mentor) = Some mentor ->
  User_findById db (u_id mentee) = Some mentee ->
  SpecX.same_credentials db (SpecX.linked db mentor mentee).
Proof.
  intros Hm Hx. unfold SpecX.linked.
  assert (SpecX.same_credentials db
            (User_save db (SpecX.roster_plus mentor (u_id mentee)))) as H1.
  { apply save_same_credentials. cbn [u_id SpecX.roster_plus].
    intros u Hu. rewrite Hm in Hu. now inversion Hu. }
  unfold SpecX.same_credentials in *. rewrite H1.
  apply save_same_credentials. cbn [u_id SpecX.assigned_to].
  intros u Hu.
  pose proof (lookup_same_credentials _ _ (u_id mentee) H1) as Hl.
  rewrite Hx, Hu in Hl. cbn [option_map] in Hl.
  transitivity (SpecX.credentials mentee); [reflexivity|congruence].
Qed.

(** X29.  Assigning a mentee touches nobody's credentials: when ids are
    unique, every login request and every token check is answered after
    a call of [assignMentee] as it was before the call. *)
Theorem assignMentee_keeps_credentials db caller body :
  SpecX.unique_ids db ->
  let db' :=
    snd (MentorController.assignMentee lowercase trim db caller body) in
  (forall request now,
      AuthController.login lowercase trim bcrypt_compare generateToken
                           email_filter db' request now
      = AuthController.login lowercase trim bcrypt_compare generateToken
                             email_filter db request now)
  /\ (forall authorization,
        protect jwt_verify db' authorization
        = protect jwt_verify db authorization).
Proof.
  intros Hu db'.
  assert (SpecX.same_credentials db db') as H.
  { unfold db', MentorController.assignMentee.
    destruct (Js.get body "email") as [e|]; [|reflexivity].
    destruct (String.eqb e ""); [reflexivity|].
    destruct (User_findOne_email_role lowercase trim db e "mentee")
      as [mentee|] eqn:Hx; [|reflexivity].
    destruct (assignedMentor mentee); [reflexivity|].
    destruct (User_findById db caller) as [mentor|] eqn:Hm; [|reflexivity].
    destruct (Js.includes (mentees mentor) (u_id mentee)); [reflexivity|].
    cbn [snd].
    apply (linked_same_credentials db mentor mentee).
    - destruct (User_findById_id _ _ _ Hm) as [-> _]. exact Hm.
    - apply findOne_email_role_In in Hx. destruct Hx as [Hin _].
      now apply unique_ids_lookup. }
  split.
  - intros request now. symmetry. now apply login_same_credentials.
  - intros authorization. symmetry. now apply protect_same_credentials.
Qed.

Lemma autoAssign_same_credentials db1 mentee mentorId :
  User_findById db1 (u_id mentee) = Some mentee ->
  SpecX.same_credentials db1 (autoAssign db1 mentee mentorId).
Proof.
  intros Hx. unfold autoAssign.
  destruct (Js.truthy mentorId); [|reflexivity].
  destruct (User_findById db1 (opt_default mentorId "")) as [mentor|] eqn:Hm;
    [|reflexivity].
  destruct (negb (String.eqb (role mentor) "mentor")); [reflexivity|].
  apply (linked_same_credentials db1 mentor mentee); [|exact Hx].
  destruct (User_findById_id _ _ _ Hm) as [-> _]. exact Hm.
Qed.

Lemma existsb_false_find {A} (f : A -> bool) l :
  existsb f l = false -> find f l = None.
Proof.
  induction l as [|x l IH]; simpl; [reflexivity|].
  destruct (f x); [discriminate|auto].
Qed.

(** A user just created logs in with the email and the password given,
    in any store that agrees with the new one on the credentials, and is
    let in by [protect] with any token that verifies to the new id. *)
Lemma created_can_log_in
      db newId e p name phone role user db1 db' :
  (forall q, bcrypt_compare q (bcrypt_hash q) = true) ->
  email_setters lowercase trim "" = "" ->
  User_findById db newId = None ->
  User_create isEmail lowercase trim bcrypt_hash db newId (Some e) (Some p)
              name phone role = inr (user, db1) ->
  SpecX.same_credentials db1 db' ->
  User_findById db1 newId = Some user
  /\ (forall now',
        AuthController.login lowercase trim bcrypt_compare generateToken
                             email_filter db'
                             [("email", Js.Str e); ("password", Js.Str p)]
                             now'
        = ok 200 (LoginData (generateToken newId now') newId
                            (Models.email user) role false))
  /\ (forall token,
        SpecX.no_char " "%char token = true -> token <> "" ->
        jwt_verify token = Some newId ->
        protect jwt_verify db' (Some (client_header token))
        = inr (mkReqUser newId role)).
Proof.
  intros Hcompare Hempty Hfresh Hc Hsame.
  unfold User_create in Hc.
  destruct (String.eqb (email_setters lowercase trim e) "") eqn:He;
    [discriminate|].
  destruct (isEmail (email_setters lowercase trim e)); [|discriminate].
  cbn [negb] in Hc.
  destruct (String.eqb p "") eqn:Hp; [discriminate|].
  destruct (String.length p <? 6)%nat; [discriminate|].
  destruct (existsb _ (users db)) eqn:Hex; [discriminate|].
  injection Hc as Huser Hdb1. subst user db1.
  set (user0 := mkUser newId (email_setters lowercase trim e) (bcrypt_hash p)
                       (trim name)
                       match phone with
                       | Some ph => trim ph
                       | None => ""
                       end role [] None false) in *.
  set (db1 := mkDB (users db ++ [user0]) (issues db) (achievements db)) in *.
  assert (User_findById db1 newId = Some user0) as Hlookup.
  { unfold db1.
    rewrite (appended_lookup db user0 newId) by exact Hfresh.
    rewrite Hfresh. cbn [u_id user0]. now rewrite String.eqb_refl. }
  assert (String.eqb e "" = false) as He0.
  { destruct (String.eqb_spec e "") as [-> | Hn]; [|reflexivity].
    rewrite Hempty in He. discriminate. }
  split; [exact Hlookup|]. split.
  - intros now'.
    rewrite <- (login_same_credentials db1 db') by exact Hsame.
    unfold AuthController.login.
    cbn [Js.field String.eqb Ascii.eqb Bool.eqb Js.falsy_value].
    rewrite He0, Hp. cbn [orb].
    unfold AuthController.User_findOne, User_findOne_email, db1. cbn [users].
    rewrite find_app_fresh by (apply existsb_false_find; exact Hex).
    cbn [find Models.email user0]. rewrite String.eqb_refl.
    unfold AuthController.comparePassword.
    cbn [Models.password user0]. rewrite Hcompare. reflexivity.
  - intros token Hns Hne Hverify.
    rewrite <- (protect_same_credentials db1 db') by exact Hsame.
    unfold protect.
    rewrite bearer_client_header, (split_on_no_char _ _ Hns). cbn [hd].
    apply String.eqb_neq in Hne. rewrite Hne, Hverify, Hlookup. reflexivity.
Qed.

(** X30.  Provided the hash check accepts the password a hash was made
    from (and the schema's setters leave the empty string empty), a
    registration (mentor or mentee) at time [now] that succeeds under an
    unused id opens a session: the answer carries the new id, the role
    and the token generated for that id at [now]; the body held an email
    and a password, and a login with them at any later time [now']
    answers 200 with the token generated for the new id at [now'], the
    id, the stored email (the one of the answer) and the role; and every
    token that verifies to the new id, sent the way the client sends it,
    is accepted by [protect] as that user in that role (for a non-empty
    token without spaces).  Nothing is assumed of the token generator:
    whether a token issued earlier still verifies is left to
    [jwt_verify]. *)
Theorem registered_user_can_log_in db body newId now :
  (forall p, bcrypt_compare p (bcrypt_hash p) = true) ->
  email_setters lowercase trim "" = "" ->
  User_findById db newId = None ->
  forall register role,
    In (register, role)
       [(registerMentor isEmail lowercase trim bcrypt_hash generateToken,
         "mentor");
        (registerMentee isEmail lowercase trim bcrypt_hash generateToken,
         "mentee")] ->
    forall g,
      fst (register db body newId now) = accept 201 g ->
      g_id g = newId /\ g_role g = role
      /\ g_token g = generateToken newId now
      /\ exists e p,
          Js.get body "email" = Some e
          /\ Js.get body "password" = Some p
          /\ g_email g = email_setters lowercase trim e
          /\ (forall now',
                AuthController.login lowercase trim bcrypt_compare
                  generateToken email_filter
                  (snd (register db body newId now))
                  [("email", Js.Str e); ("password", Js.Str p)] now'
                = ok 200 (LoginData (generateToken newId now') newId
                                    (g_email g) role false))
          /\ (forall token,
                SpecX.no_char " "%char token = true -> token <> "" ->
                jwt_verify token = Some newId ->
                protect jwt_verify (snd (register db body newId now))
                        (Some (client_header token))
                = inr (mkReqUser newId role)).
Proof.
  intros Hcompare Hempty Hfresh register role Hin g Hg.
  assert (exists name user db1 db',
             User_create isEmail lowercase trim bcrypt_hash db newId
                         (Js.get body "email") (Js.get body "password") name
                         (Js.get body "phone") role = inr (user, db1)
             /\ register db body newId now
                = (accept 201 (registered generateToken user now), db')
             /\ (User_findById db1 newId = Some user ->
                 SpecX.same_credentials db1 db')) as Hrun.
  { destruct Hin as [E | [E | []]]; inversion E; subst register role;
      clear E.
    - unfold registerMentor in *.
      destruct (existingUser lowercase trim db (Js.get body "email"));
        [discriminate|].
      destruct (name_or_local_part (Js.get body "name") (Js.get body "email"))
        as [name|]; [|discriminate].
      destruct (User_create isEmail lowercase trim bcrypt_hash db newId
                  (Js.get body "email") (Js.get body "password") name
                  (Js.get body "phone") "mentor")
        as [msg | [mentor db1]] eqn:Hc; [discriminate|].
      exists name, mentor, db1, db1. split; [exact Hc|].
      split; [reflexivity|]. intros _. reflexivity.
    - unfold registerMentee in *.
      destruct (existingUser lowercase trim db (Js.get body "email"));
        [discriminate|].
      destruct (name_or_local_part (Js.get body "name") (Js.get body "email"))
        as [name|]; [|discriminate].
      destruct (User_create isEmail lowercase trim bcrypt_hash db newId
                  (Js.get body "email") (Js.get body "password") name
                  (Js.get body "phone") "mentee")
        as [msg | [mentee db1]] eqn:Hc; [discriminate|].
      exists name, mentee, db1,
        (autoAssign db1 mentee (Js.get body "mentorId")).
      split; [exact Hc|]. split; [reflexivity|].
      intros Hl. apply autoAssign_same_credentials.
      assert (u_id mentee = newId) as Hid.
      { unfold User_create in Hc.
        destruct (Js.get body "email"); [|discriminate].
        destruct (Js.get body "password"); [|discriminate].
        repeat match type of Hc with
               | (if ?c then _ else _) = _ => destruct c; try discriminate
               end.
        now inversion Hc. }
      now rewrite Hid. }
  destruct Hrun as (name & user & db1 & db' & Hc & Hrun & Hsame).
  rewrite Hrun in *. cbn [fst snd] in *.
  injection Hg as Hg. subst g.
  destruct (Js.get body "email") as [e|] eqn:Hbe;
    [|destruct (Js.get body "password"); discriminate].
  destruct (Js.get body "password") as [p|] eqn:Hbp; [|discriminate].
  destruct (created_can_log_in db newId e p name (Js.get body "phone") role
              user db1 db1 Hcompare Hempty Hfresh Hc eq_refl)
    as [Hlookup _].
  destruct (created_can_log_in db newId e p name (Js.get body "phone") role
              user db1 db' Hcompare Hempty Hfresh Hc (Hsame Hlookup))
    as (_ & Hlogin & Hprotect).
  assert (u_id user = newId /\ Models.role user = role
          /\ Models.email user = email_setters lowercase trim e)
    as (Hid & Hrole & Hemail).
  { unfold User_create in Hc.
    repeat match type of Hc with
           | (if ?c then _ else _) = _ => destruct c; try discriminate
           end.
    inversion Hc. auto. }
  unfold registered. cbn [g_id g_role g_token g_email].
  rewrite Hid, Hrole.
  repeat split; try reflexivity.
  exists e, p. repeat split; try assumption.
Qed.

End Session.

Section SessionWitness.

Import Register AuthMiddleware.

Lemma sample_compare p : Sample.compare p (SampleX.hash p) = true.
Proof. unfold Sample.compare, SampleX.hash. apply String.eqb_refl. Qed.

Lemma substring_all s : String.substring 0 (String.length s) s = s.
Proof. induction s as [|a s IH]; simpl; [reflexivity|now rewrite IH]. Qed.

Lemma sample_verify id now : SampleX.verify (Sample.token id now) = Some id.
Proof.
  unfold SampleX.verify, Sample.token. cbn.
  rewrite Nat.sub_0_r, substring_all. now destruct id.
Qed.

Lemma assignMentee_keeps_credentials_witness :
  let db' :=
    snd (MentorController.assignMentee Sample.lowercase Sample.trim
           Sample.db "m1" [("email", "b@x.com")])
  in
  SpecX.unique_ids Sample.db
  /\ db' <> Sample.db
  /\ AuthController.login Sample.lowercase Sample.trim Sample.compare
       Sample.token Sample.email_filter db'
       [("email", Js.Str "b@x.com"); ("password", Js.Str "b")] 7
     = ok 200 (LoginData "token-u2" "u2" "b@x.com" "mentee" false)
  /\ protect SampleX.verify db' (Some "Bearer token-u2")
     = inr (mkReqUser "u2" "mentee").
Proof.
  intros db'.
  pose proof sample_unique_ids as Hu.
  destruct (assignMentee_keeps_credentials Sample.lowercase Sample.trim
              Sample.token Sample.compare Sample.email_filter
              SampleX.verify Sample.db "m1" [("email", "b@x.com")] Hu)
    as [Hlogin Hprotect].
  split; [exact Hu|]. split; [discriminate|]. split.
  - exact (Hlogin [("email", Js.Str "b@x.com"); ("password", Js.Str "b")] 7).
  - exact (Hprotect (Some "Bearer token-u2")).
Defined.

Lemma registered_user_can_log_in_witness :
  let run := registerMentee SampleX.isEmail Sample.lowercase Sample.trim
                            SampleX.hash Sample.token
                            Sample.db SampleX.registration "u3" 0 in
  User_findById Sample.db "u3" = None
  /\ fst run = accept 201 (mkRegistered "token-u3" "u3" "c@x.com" "c" ""
                                         "mentee")
  /\ AuthController.login Sample.lowercase Sample.trim Sample.compare
       Sample.token Sample.email_filter (snd run)
       [("email", Js.Str "c@x.com"); ("password", Js.Str "secret1")] 9
     = ok 200 (LoginData "token-u3" "u3" "c@x.com" "mentee" false)
  /\ protect SampleX.verify (snd run) (Some "Bearer token-u3")
     = inr (mkReqUser "u3" "mentee").
Proof.
  intros run.
  assert (User_findById Sample.db "u3" = None) as Hfresh by reflexivity.
  assert (fst run = accept 201 (mkRegistered "token-u3" "u3" "c@x.com" "c" ""
                                             "mentee")) as H201
      by reflexivity.
  assert (email_setters Sample.lowercase Sample.trim "" = "") as Hempty
      by reflexivity.
  assert (SpecX.no_char " "%char "token-u3" = true) as Hns by reflexivity.
  assert ("token-u3" <> "") as Hne by discriminate.
  destruct (registered_user_can_log_in SampleX.isEmail Sample.lowercase
              Sample.trim SampleX.hash Sample.token Sample.compare
              Sample.email_filter SampleX.verify Sample.db
              SampleX.registration "u3" 0
              sample_compare Hempty Hfresh
              (registerMentee SampleX.isEmail Sample.lowercase Sample.trim
                              SampleX.hash Sample.token)
              "mentee" (or_intror (or_introl eq_refl)) _ H201)
    as (_ & _ & _ & e & p & He & Hp & _ & Hlogin & Hprotect).
  assert (e = "c@x.com") as -> by (inversion He; reflexivity).
  assert (p = "secret1") as -> by (inversion Hp; reflexivity).
  split; [exact Hfresh|]. split; [exact H201|].
  split; [exact (Hlogin 9)|].
  exact (Hprotect "token-u3" Hns Hne (sample_verify "u3" 0)).
Defined.

End SessionWitness.

